(** * docker-stats-visualizer: the parsing pipeline of [stats_visualizer.py]

    A shallow embedding of [parse_size], [clean_line], [parse_docker_stats]
    and [create_visualization], together with the Python built-ins they call
    ([str.strip], [str.split], [str.replace], [str.lower], [float], the two
    regular expressions of the file, and the little of pandas that decides
    what the renderer does with a frame).

    Conventions.
    - A Python [str] is a list of characters.  A character is an [ascii],
      read as a code point below 256; the log files written by
      [stats_collector.py] are made of such characters.
    - A Python [float] is an IEEE-754 binary64 number, modelled by
      [spec_float] with the operations of [SpecFloat] at precision 53.
    - A call that can raise returns a [result]; [Raise e] carries the class of
      the exception, because [parse_docker_stats] catches some classes only. *)

From Stdlib Require Import List Ascii String ZArith Bool Lia.
From Stdlib Require Import Floats.SpecFloat.
Import ListNotations.

Set Implicit Arguments.

(** ** Exceptions *)

Inductive exn : Type :=
| ValueError
| IndexError
| KeyError
| OtherError.

Inductive result (A : Type) : Type :=
| Ok (a : A)
| Raise (e : exn).

Arguments Ok {A} a.
Arguments Raise {A} e.

Definition bind {A B : Type} (r : result A) (k : A -> result B) : result B :=
  match r with
  | Ok a => k a
  | Raise e => Raise e
  end.

Notation "x <- c ;; k" := (bind c (fun x => k))
  (at level 61, c at next level, right associativity).

(** ** Python strings *)

Module Py.

Definition str : Type := list ascii.

(** A literal of the source. *)
Definition lit (s : string) : str := list_ascii_of_string s.

Definition code (c : ascii) : nat := nat_of_ascii c.

Definition in_range (lo hi : nat) (c : ascii) : bool :=
  Nat.leb lo (code c) && Nat.leb (code c) hi.

(** [\d] on code points below 256: the ten ASCII digits. *)
Definition is_digit (c : ascii) : bool := in_range 48 57 c.

Definition is_upper (c : ascii) : bool := in_range 65 90 c.
Definition is_lower (c : ascii) : bool := in_range 97 122 c.

(** [[A-Za-z]] *)
Definition is_alpha (c : ascii) : bool := is_upper c || is_lower c.

(** [str.isspace] on code points below 256: TAB, LF, VT, FF, CR, the four
    separators FS, GS, RS, US, the space, NEL and the no-break space. *)
Definition is_space (c : ascii) : bool :=
  in_range 9 13 c || in_range 28 32 c
  || Nat.eqb (code c) 133 || Nat.eqb (code c) 160.

Definition str_eqb (s t : str) : bool :=
  if list_eq_dec ascii_dec s t then true else false.

Fixpoint drop_while (p : ascii -> bool) (s : str) : str :=
  match s with
  | [] => []
  | c :: r => if p c then drop_while p r else s
  end.

(** The string without the characters of [p] at its two ends. *)
Definition strip_by (p : ascii -> bool) (s : str) : str :=
  rev (drop_while p (rev (drop_while p s))).

(** [s.strip()] *)
Definition strip (s : str) : str := strip_by is_space s.

(** [c.lower()] on the ASCII letters, the only characters it is applied to
    in this program (group 2 of the size pattern is [[A-Za-z]+]). *)
Definition lower_char (c : ascii) : ascii :=
  if is_upper c then ascii_of_nat (code c + 32) else c.

Definition lower (s : str) : str := map lower_char s.

(** [s.split(sep)] for a separator of one character: never empty, the
    pieces are the maximal runs without [sep]. *)
Fixpoint split (sep : ascii) (s : str) : list str :=
  match s with
  | [] => [[]]
  | c :: r =>
      if Ascii.eqb c sep then [] :: split sep r
      else match split sep r with
           | [] => [[c]]
           | p :: ps => (c :: p) :: ps
           end
  end.

Fixpoint starts_with (pat s : str) : bool :=
  match pat, s with
  | [], _ => true
  | _ :: _, [] => false
  | a :: pat', c :: s' => Ascii.eqb a c && starts_with pat' s'
  end.

(** Deleting the occurrences of a pattern, as [s.replace(old, '')] and
    [re.sub(pattern, '', s)] do: [m s] is the length of the occurrence that
    starts [s], if there is one (never 0 for the patterns of this program);
    the occurrences are found from the left, without overlap.  [skip]
    counts the characters of the current occurrence still to be dropped. *)
Fixpoint delete_from (m : str -> option nat) (skip : nat) (s : str) : str :=
  match s with
  | [] => []
  | c :: r =>
      match skip with
      | S k => delete_from m k r
      | O =>
          match m s with
          | Some n => delete_from m (n - 1) r
          | None => c :: delete_from m 0 r
          end
      end
  end.

Definition delete_matches (m : str -> option nat) (s : str) : str :=
  delete_from m 0 s.

Definition literal (old : str) (s : str) : option nat :=
  if starts_with old s then Some (List.length old) else None.

(** [s.replace(old, '')], for a non-empty [old]. *)
Definition remove (old s : str) : str := delete_matches (literal old) s.

(** [not l]: whether a sequence is empty. *)
Definition is_nil {A : Type} (l : list A) : bool :=
  match l with [] => true | _ => false end.

(** [l[i]] on a list: [IndexError] out of range (the indices of this
    program are never negative). *)
Definition index {A : Type} (l : list A) (i : nat) : result A :=
  match nth_error l i with
  | Some a => Ok a
  | None => Raise IndexError
  end.

End Py.

Import Py.

(** ** Python numbers *)

Module Num.

Local Open Scope Z_scope.

(** binary64 *)
Definition prec : Z := 53.
Definition emax : Z := 1024.

Definition float : Type := spec_float.

Definition fmul : float -> float -> float := SFmul prec emax.

(** The binary64 number nearest to [n / d] (ties to even), for [0 < n] and
    [0 < d], with the sign [neg]: the quotient is computed with enough bits
    and a sticky position, then rounded once. *)
Definition round_ratio (neg : bool) (n d : Z) : float :=
  let '(q, e, l) := SFdiv_core_binary prec emax n 0 d 0 in
  binary_round_aux prec emax neg q e l.

(** [float(n)] for an [int]; exact below [2^53], which covers every integer
    constant of this program. *)
Definition float_of_int (n : Z) : float := binary_normalize prec emax n 0 false.

(** A Python number: [int] or [float]. *)
Inductive num : Type :=
| PyInt (n : Z)
| PyFloat (x : float).

Definition to_float (v : num) : float :=
  match v with
  | PyInt n => float_of_int n
  | PyFloat x => x
  end.

(** [a / b] on two positive [int]s: true division, correctly rounded. *)
Definition int_truediv (a b : Z) : num := PyFloat (round_ratio false a b).

(** [x * v] for a [float] [x]: an [int] operand is converted first. *)
Definition float_mul (x : float) (v : num) : num := PyFloat (fmul x (to_float v)).

(** *** [float(s)] on a string

    The grammar of the language reference: surrounding whitespace, a sign,
    then [inf], [infinity] or [nan] in any case, or a decimal number with an
    optional exponent, its digits grouped by single underscores.  Anything
    else raises [ValueError]. *)

(** The whitespace [float] skips at the two ends: the ASCII whitespace of
    C, and the whitespace that is not ASCII.  The separators FS, GS, RS and
    US, which [str.strip] removes, are not skipped. *)
Definition is_float_space (c : ascii) : bool :=
  in_range 9 13 c || Nat.eqb (code c) 32
  || Nat.eqb (code c) 133 || Nat.eqb (code c) 160.

Definition digit_val (c : ascii) : Z := Z.of_nat (code c) - 48.

(** The digits that continue a digit part: [(["_"] digit)*]. *)
Fixpoint digitpart_tail (s : str) : str * str :=
  match s with
  | [] => ([], [])
  | c :: r =>
      if is_digit c then
        let (ds, r') := digitpart_tail r in (c :: ds, r')
      else if Ascii.eqb c "_" then
        match r with
        | d :: r2 =>
            if is_digit d then
              let (ds, r') := digitpart_tail r2 in (d :: ds, r')
            else ([], s)
        | [] => ([], s)
        end
      else ([], s)
  end.

(** An optional digit part: its digits (none if there is no digit part) and
    what follows. *)
Definition digitpart (s : str) : str * str :=
  match s with
  | c :: r =>
      if is_digit c then
        let (ds, r') := digitpart_tail r in (c :: ds, r')
      else ([], s)
  | [] => ([], s)
  end.

Definition digits_value (ds : str) : Z :=
  fold_left (fun acc c => 10 * acc + digit_val c) ds 0.

(** [number ::= [digitpart] "." digitpart | digitpart ["."]]: the digits
    before and after the point, and what follows. *)
Definition number (s : str) : option (str * str * str) :=
  let (ip, r) := digitpart s in
  match r with
  | "."%char :: r1 =>
      let (fp, r2) := digitpart r1 in
      if is_nil ip && is_nil fp then None else Some (ip, fp, r2)
  | _ => if is_nil ip then None else Some (ip, [], r)
  end.

(** [["+" | "-"]]: whether the sign is a minus, and what follows it. *)
Definition sign (s : str) : bool * str :=
  match s with
  | "+"%char :: r => (false, r)
  | "-"%char :: r => (true, r)
  | _ => (false, s)
  end.

(** [exponent ::= ("e" | "E") ["+" | "-"] digitpart], optional, and then the
    end of the string. *)
Definition exponent (s : str) : option Z :=
  match s with
  | [] => Some 0
  | c :: r =>
      if Ascii.eqb c "e" || Ascii.eqb c "E" then
        let '(neg, r1) := sign r in
        match digitpart r1 with
        | ((_ :: _) as ds, []) =>
            Some (if neg then - digits_value ds else digits_value ds)
        | _ => None
        end
      else None
  end.

(** The float written [m * 10^e], for [0 <= m]. *)
Definition decimal_float (neg : bool) (m e : Z) : float :=
  if Z.eqb m 0 then S754_zero neg
  else if Z.leb 0 e then round_ratio neg (m * 10 ^ e) 1
  else round_ratio neg m (10 ^ (- e)).

Definition py_float (s : str) : result float :=
  let '(neg, body) := sign (strip_by is_float_space s) in
  let word := lower body in
  if str_eqb word (lit "inf") || str_eqb word (lit "infinity")
  then Ok (S754_infinity neg)
  else if str_eqb word (lit "nan") then Ok S754_nan
  else
    match number body with
    | Some (ip, fp, r) =>
        match exponent r with
        | Some e =>
            Ok (decimal_float neg (digits_value (ip ++ fp))
                  (e - Z.of_nat (List.length fp)))
        | None => Raise ValueError
        end
    | None => Raise ValueError
    end.

End Num.

Import Num.

(** ** The size pattern

    [re.match(r'([\d.]+)([A-Za-z]+)', s)] anchors at the start of [s].  The
    two classes are disjoint, so the greedy first group is the longest run
    of digits and points, and giving characters back never helps: the
    pattern matches exactly when that run is not empty and a letter follows
    it, and the second group is then the longest run of letters. *)

Module Re.

Fixpoint span (p : ascii -> bool) (s : str) : str * str :=
  match s with
  | [] => ([], [])
  | c :: r =>
      if p c then let (a, b) := span p r in (c :: a, b)
      else ([], s)
  end.

(** [[\d.]] *)
Definition is_numeral_char (c : ascii) : bool := is_digit c || Ascii.eqb c ".".

(** The groups 1 and 2 of a match, [None] when there is no match. *)
Definition match_size (s : str) : option (str * str) :=
  match span is_numeral_char s with
  | ([], _) => None
  | (g1, r) =>
      match span is_alpha r with
      | ([], _) => None
      | (g2, _) => Some (g1, g2)
      end
  end.

End Re.

(** ** [parse_size] *)

(** A [dict] with string keys, in the order of the source. *)
Fixpoint dict_get {V : Type} (d : list (str * V)) (k : str) (default : V) : V :=
  match d with
  | [] => default
  | (k', v) :: d' => if str_eqb k k' then v else dict_get d' k default
  end.

Definition multipliers : list (str * num) :=
  [ (lit "b", int_truediv 1%Z (1024 * 1024)%Z);
    (lit "kb", int_truediv 1%Z 1024%Z);
    (lit "mb", PyInt 1%Z);
    (lit "gb", PyInt 1024%Z);
    (lit "tb", PyInt (1024 * 1024)%Z);
    (lit "kib", int_truediv 1%Z 1024%Z);
    (lit "mib", PyInt 1%Z);
    (lit "gib", PyInt 1024%Z);
    (lit "tib", PyInt (1024 * 1024)%Z) ].

Definition parse_size (size_str : str) : result num :=
  if is_nil size_str || str_eqb size_str (lit "0B") then Ok (PyInt 0%Z)
  else
    match Re.match_size (strip size_str) with
    | None => Ok (PyInt 0%Z)
    | Some (g1, g2) =>
        value <- py_float g1 ;;
        let unit := lower g2 in
        Ok (float_mul value (dict_get multipliers unit (PyInt 0%Z)))
    end.

(** ** [clean_line] *)

Module Ctrl.

(** [[0-9;]] *)
Definition is_param (c : ascii) : bool := is_digit c || Ascii.eqb c ";".

(** [\[([0-9;]*[A-Za-z]|\[K)] at the start of [s]: an opening bracket,
    then parameter characters and one letter, or else the two characters
    [[K].  The parameter class and the letters are disjoint, so the greedy
    star takes the whole run of parameters.  The result is the length of
    the match. *)
Definition sequence (s : str) : option nat :=
  match s with
  | "["%char :: r =>
      let (ps, r') := Re.span is_param r in
      match r' with
      | c :: _ =>
          if is_alpha c then Some (2 + List.length ps)
          else if starts_with (lit "[K") r then Some 3 else None
      | [] => None
      end
  | _ => None
  end.

(** [(\[H|\[J|\[K)] at the start of [s]. *)
Definition marker (s : str) : option nat :=
  if starts_with (lit "[H") s || starts_with (lit "[J") s
     || starts_with (lit "[K") s
  then Some 2 else None.

End Ctrl.

Definition clean_line (line : str) : str :=
  let line := delete_matches Ctrl.sequence line in
  let line := delete_matches Ctrl.marker line in
  strip line.

(** ** [parse_docker_stats] *)

Definition TAB : ascii := "009".

Section Assembler.

(** pandas is outside the repository: the timestamps and [pd.to_datetime]
    are parameters.  [to_datetime s] is the timestamp read from [s], or the
    exception the call raises. *)
Variable Timestamp : Type.
Variable to_datetime : str -> result Timestamp.

(** The [dict] built for one line; its keys are fixed. *)
Record entry : Type := {
  timestamp : Timestamp;
  name : str;
  cpu : float;
  mem : str;
  mem_used : num;
  mem_total : num;
  net_in : num;
  net_out : num;
  block_in : num;
  block_out : num
}.

(** The body of the [try]: the value appended to [data], or the exception
    that leaves the block. *)
Definition parse_entry (parts : list str) : result entry :=
  p0 <- index parts 0 ;;
  e_timestamp <- to_datetime p0 ;;
  p1 <- index parts 1 ;;
  let e_name := remove (lit "name=") p1 in
  p2 <- index parts 2 ;;
  e_cpu <- py_float (remove (lit "%") (remove (lit "cpu=") p2)) ;;
  p3 <- index parts 3 ;;
  let e_mem := remove (lit "mem=") p3 in
  let mem_parts := split "/" e_mem in
  m0 <- index mem_parts 0 ;;
  e_mem_used <- parse_size (strip m0) ;;
  m1 <- index mem_parts 1 ;;
  e_mem_total <- parse_size (strip m1) ;;
  p4 <- index parts 4 ;;
  let net := remove (lit "net=") p4 in
  let net_parts := split "/" net in
  n0 <- index net_parts 0 ;;
  e_net_in <- parse_size (strip n0) ;;
  n1 <- index net_parts 1 ;;
  e_net_out <- parse_size (strip n1) ;;
  if Nat.ltb 5 (List.length parts) then
    p5 <- index parts 5 ;;
    let block := remove (lit "block=") p5 in
    let block_parts := split "/" block in
    b0 <- index block_parts 0 ;;
    e_block_in <- parse_size (strip b0) ;;
    b1 <- index block_parts 1 ;;
    e_block_out <- parse_size (strip b1) ;;
    Ok {| timestamp := e_timestamp; name := e_name; cpu := e_cpu;
          mem := e_mem; mem_used := e_mem_used; mem_total := e_mem_total;
          net_in := e_net_in; net_out := e_net_out;
          block_in := e_block_in; block_out := e_block_out |}
  else
    Ok {| timestamp := e_timestamp; name := e_name; cpu := e_cpu;
          mem := e_mem; mem_used := e_mem_used; mem_total := e_mem_total;
          net_in := e_net_in; net_out := e_net_out;
          block_in := PyInt 0; block_out := PyInt 0 |}.

(** One sanitized line: split on tabs, rejected under five columns, and the
    [try] with its handler.  [Ok None] is [continue]; an exception that is
    neither a [ValueError] nor an [IndexError] is not caught. *)
Definition parse_fields (line : str) : result (option entry) :=
  let parts := split TAB line in
  if Nat.ltb (List.length parts) 5 then Ok None
  else
    match parse_entry parts with
    | Ok e => Ok (Some e)
    | Raise ValueError => Ok None
    | Raise IndexError => Ok None
    | Raise e => Raise e
    end.

(** One turn of the loop over the lines of the file. *)
Definition parse_line (line : str) : result (option entry) :=
  if is_nil (strip line) then Ok None
  else parse_fields (clean_line line).

(** The loop: [data] grows by [append]; an exception that is not caught
    ends the function. *)
Fixpoint parse_lines (lines : list str) (data : list entry)
  : result (list entry) :=
  match lines with
  | [] => Ok data
  | line :: rest =>
      match parse_line line with
      | Ok None => parse_lines rest data
      | Ok (Some e) => parse_lines rest (data ++ [e])
      | Raise x => Raise x
      end
  end.

(** [pd.DataFrame(data)] for a list of such dicts: the rows are the dicts in
    order, the columns are their keys; a frame built from no dict has no
    column. *)
Record DataFrame : Type := {
  columns : list str;
  rows : list entry
}.

Definition entry_keys : list str :=
  map lit [ "timestamp"; "name"; "cpu"; "mem"; "mem_used"; "mem_total";
            "net_in"; "net_out"; "block_in"; "block_out" ]%string.

Definition make_frame (data : list entry) : DataFrame :=
  {| columns := if is_nil data then [] else entry_keys; rows := data |}.

(** The function on the lines of the opened file, each with its line end. *)
Definition parse_docker_stats (lines : list str) : result DataFrame :=
  data <- parse_lines lines [] ;;
  Ok (make_frame data).

(** ** [create_visualization] *)

(** [df[key]]: the column, [KeyError] when the frame has no such column. *)
Definition getitem {A : Type} (df : DataFrame) (key : str)
  (field : entry -> A) : result (list A) :=
  if existsb (str_eqb key) (columns df) then Ok (map field (rows df))
  else Raise KeyError.

(** [series.unique()]: the distinct values in order of first appearance. *)
Fixpoint unique (l : list str) : list str :=
  match l with
  | [] => []
  | x :: r => x :: filter (fun y => negb (str_eqb y x)) (unique r)
  end.

(** [df[df['name'] == container]] *)
Definition select (df : DataFrame) (container : str) : result DataFrame :=
  names <- getitem df (lit "name") name ;;
  Ok {| columns := columns df;
        rows := filter (fun e => str_eqb (name e) container) (rows df) |}.

Inductive dash_style : Type := solid | dash.

(** A [go.Scatter] with the panel it was added to. *)
Record trace : Type := {
  trace_x : list Timestamp;
  trace_y : list num;
  trace_name : str;
  trace_color : str;
  trace_dash : option dash_style;
  trace_row : nat
}.

Record figure : Type := {
  subplot_titles : list str;
  traces : list trace;
  height : Z;
  title : str;
  yaxis_titles : list str
}.

Definition colors : list str :=
  map lit [ "#1f77b4"; "#ff7f0e"; "#2ca02c"; "#d62728"; "#9467bd";
            "#8c564b"; "#e377c2"; "#7f7f7f"; "#bcbd22"; "#17becf" ]%string.

Definition scatter (container_data : DataFrame) (key : str)
  (field : entry -> num) (label : string) (container color : str)
  (d : option dash_style) (row : nat) : result trace :=
  xs <- getitem container_data (lit "timestamp") timestamp ;;
  ys <- getitem container_data key field ;;
  Ok {| trace_x := xs; trace_y := ys;
        trace_name := container ++ lit label;
        trace_color := color; trace_dash := d; trace_row := row |}.

(** The six traces of one container, in the order they are added. *)
Definition container_traces (df : DataFrame) (i : nat) (container : str)
  : result (list trace) :=
  container_data <- select df container ;;
  color <- index colors (i mod List.length colors) ;;
  t_cpu <- scatter container_data (lit "cpu") (fun e => PyFloat (cpu e))
             " - CPU" container color None 1 ;;
  t_mem <- scatter container_data (lit "mem_used") mem_used
             " - Memory" container color None 2 ;;
  t_in <- scatter container_data (lit "net_in") net_in
            " - Net In" container color (Some solid) 3 ;;
  t_out <- scatter container_data (lit "net_out") net_out
             " - Net Out" container color (Some dash) 3 ;;
  t_bin <- scatter container_data (lit "block_in") block_in
             " - Block In" container color (Some solid) 4 ;;
  t_bout <- scatter container_data (lit "block_out") block_out
              " - Block Out" container color (Some dash) 4 ;;
  Ok [t_cpu; t_mem; t_in; t_out; t_bin; t_bout].

(** [for i, container in enumerate(containers)], from index [i]. *)
Fixpoint add_containers (df : DataFrame) (i : nat) (containers : list str)
  (acc : list trace) : result (list trace) :=
  match containers with
  | [] => Ok acc
  | c :: rest =>
      ts <- container_traces df i c ;;
      add_containers df (S i) rest (acc ++ ts)
  end.

Definition create_visualization (df : DataFrame) : result figure :=
  names <- getitem df (lit "name") name ;;
  let containers := unique names in
  all <- add_containers df 0 containers [] ;;
  Ok {| subplot_titles :=
          map lit [ "CPU Usage (%)"; "Memory Usage (MB)";
                    "Network I/O (MB)"; "Block I/O (MB)" ]%string;
        traces := all;
        height := 1200;
        title := lit "Docker Container Performance Metrics";
        yaxis_titles :=
          map lit [ "CPU %"; "Memory (MB)"; "Network I/O (MB)";
                    "Block I/O (MB)" ]%string |}.

End Assembler.

(** * The statements of the specification *)

(** ** The multiplier table

    [two_pow k] is the binary64 number [2^k], for [-1022 <= k <= 1023]. *)
Definition two_pow (k : Z) : float :=
  S754_finite false 4503599627370496 (k - 52).

(** b -> 1/1,048,576; kb, kib -> 1/1024; mb, mib -> 1; gb, gib -> 1024;
    tb, tib -> 1,048,576. *)
Definition table_multiplier (unit : str) : option float :=
  if str_eqb unit (lit "b") then Some (two_pow (-20))
  else if str_eqb unit (lit "kb") || str_eqb unit (lit "kib")
  then Some (two_pow (-10))
  else if str_eqb unit (lit "mb") || str_eqb unit (lit "mib")
  then Some (two_pow 0)
  else if str_eqb unit (lit "gb") || str_eqb unit (lit "gib")
  then Some (two_pow 10)
  else if str_eqb unit (lit "tb") || str_eqb unit (lit "tib")
  then Some (two_pow 20)
  else None.

(** 12.5, that is 25 * 2^-1 with the mantissa on 53 bits. *)
Definition twelve_and_a_half : float :=
  S754_finite false 7036874417766400 (-49).

(** A decimal numeral: digits, or digits around one point with a digit on
    at least one side.  [decimal_numeral s n k] reads [s] as [n / 10^k]. *)
Inductive decimal_numeral : str -> Z -> nat -> Prop :=
| numeral_integer (ip : str) :
    ip <> [] -> forallb is_digit ip = true ->
    decimal_numeral ip (digits_value ip) 0
| numeral_point (ip fp : str) :
    ip ++ fp <> [] ->
    forallb is_digit ip = true -> forallb is_digit fp = true ->
    decimal_numeral (ip ++ "."%char :: fp) (digits_value (ip ++ fp))
      (List.length fp).

(** The binary64 value of the numeral that reads [n / 10^k]. *)
Definition numeral_value (n : Z) (k : nat) : float :=
  decimal_float false n (- Z.of_nat k).

(** ** Floats that are finite and not negative *)

Definition is_finite (x : float) : bool :=
  match x with
  | S754_zero _ | S754_finite _ _ _ => true
  | _ => false
  end.

(** [0 <= x] and [x] finite. *)
Definition finite_nonneg (x : float) : bool :=
  match x with
  | S754_zero _ | S754_finite false _ _ => true
  | _ => false
  end.

Definition finite_nonneg_num (v : num) : bool :=
  match v with
  | PyInt n => Z.leb 0 n
  | PyFloat x => finite_nonneg x
  end.

(** The sign bit is clear: [+0.0], a positive number, [+inf]; or NaN. *)
Definition sign_clear (x : float) : bool :=
  match x with
  | S754_zero s | S754_infinity s | S754_finite s _ _ => negb s
  | S754_nan => true
  end.

Definition sign_clear_num (v : num) : bool :=
  match v with
  | PyInt n => Z.leb 0 n
  | PyFloat x => sign_clear x
  end.

(** ** Magnitudes

    [mag_le B x]: [x] is zero or a finite number below [2^B], with an
    exponent in the range of binary64. *)
Definition mag_le (B : Z) (x : float) : Prop :=
  match x with
  | S754_zero _ => True
  | S754_finite _ m e => (Zpos (digits2_pos m) + e <= B /\ e <= 971)%Z
  | _ => False
  end.

(** What a digit part leaves is the end of the string, and its digits are
    no more than what it takes. *)
Definition takes (s ds r : str) : Prop :=
  forallb is_digit ds = true
  /\ exists pre, s = pre ++ r /\ List.length ds <= List.length pre.

(** A string of at most 300 characters. *)
Definition short (s : str) : Prop := List.length s <= 300.

Section Statements.

Variable Timestamp : Type.
Variable to_datetime : str -> result Timestamp.

(** The invariant of the data model: every numeric field finite and not
    negative. *)
Definition sample_invariant (e : entry Timestamp) : bool :=
  finite_nonneg (cpu e)
  && finite_nonneg_num (mem_used e) && finite_nonneg_num (mem_total e)
  && finite_nonneg_num (net_in e) && finite_nonneg_num (net_out e)
  && finite_nonneg_num (block_in e) && finite_nonneg_num (block_out e).

(** What holds of the six size fields. *)
Definition sizes_sign_clear (e : entry Timestamp) : bool :=
  sign_clear_num (mem_used e) && sign_clear_num (mem_total e)
  && sign_clear_num (net_in e) && sign_clear_num (net_out e)
  && sign_clear_num (block_in e) && sign_clear_num (block_out e).

(** The six size fields finite and not negative. *)
Definition sizes_finite (e : entry Timestamp) : bool :=
  finite_nonneg_num (mem_used e) && finite_nonneg_num (mem_total e)
  && finite_nonneg_num (net_in e) && finite_nonneg_num (net_out e)
  && finite_nonneg_num (block_in e) && finite_nonneg_num (block_out e).

(** The field parser as a partial function: the sample of a raw line, if
    the line has one. *)
Definition line_sample (line : str) : option (entry Timestamp) :=
  if is_nil (strip line) then None
  else
    let parts := split TAB (clean_line line) in
    if Nat.ltb (List.length parts) 5 then None
    else
      match parse_entry to_datetime parts with
      | Ok e => Some e
      | Raise _ => None
      end.

(** A pair field [tag=<a>/<b>]: the tag removed, the two sides trimmed and
    normalized.  [parse_entry] does this for [mem=], [net=] and [block=]. *)
Definition size_pair (tag part : str) : result (num * num) :=
  let pieces := split "/" (remove tag part) in
  a <- index pieces 0 ;;
  x <- parse_size (strip a) ;;
  b <- index pieces 1 ;;
  y <- parse_size (strip b) ;;
  Ok (x, y).

(** A frame that has the ten columns. *)
Definition full (df : DataFrame Timestamp) : Prop := columns df = entry_keys.

End Statements.

Fixpoint filter_map_opt {A B : Type} (f : A -> option B) (l : list A) : list B :=
  match l with
  | [] => []
  | a :: r =>
      match f a with
      | Some b => b :: filter_map_opt f r
      | None => filter_map_opt f r
      end
  end.

(** The exceptions the handler of [parse_docker_stats] catches. *)
Definition caught (e : exn) : Prop := e = ValueError \/ e = IndexError.

Definition raises_caught {A : Type} (r : result A) : Prop :=
  forall e, r = Raise e -> caught e.

(** [sep.join(pieces)] for a separator of one character. *)
Fixpoint join (sep : ascii) (pieces : list str) : str :=
  match pieces with
  | [] => []
  | [p] => p
  | p :: rest => p ++ sep :: join sep rest
  end.

(** ** Occurrences of a pattern *)

(** Whether the pattern [m] matches somewhere in [s]. *)
Fixpoint occurs (m : str -> option nat) (s : str) : bool :=
  match m s with
  | Some _ => true
  | None =>
      match s with
      | [] => false
      | _ :: r => occurs m r
      end
  end.

(** ** Control sequences

    In the words of the specification: a terminal escape or control
    sequence starts with the escape character, or with the control sequence
    introducer of one byte.  A line that holds neither holds no such
    sequence. *)
Definition ESC : ascii := "027".
Definition CSI : ascii := "155".

Definition escape_free (line : str) : bool :=
  forallb (fun c => negb (Ascii.eqb c ESC || Ascii.eqb c CSI)) line.

(** What the sanitizer takes for a control sequence: an opening bracket,
    any digits and semicolons, and one ASCII letter; or the three characters
    [[K.  No escape character is asked for. *)
Inductive bracket_sequence : str -> Prop :=
| bracket_letter (ps : str) (c : ascii) :
    forallb (fun p => is_digit p || Ascii.eqb p ";") ps = true ->
    is_alpha c = true ->
    bracket_sequence ("["%char :: ps ++ [c])
| bracket_erase : bracket_sequence (lit "[[K").

(** Such a sequence stands somewhere in the line. *)
Definition holds_sequence (line : str) : Prop :=
  exists pre seq post, line = pre ++ seq ++ post /\ bracket_sequence seq.

(** ** A reader of timestamps for the examples

    [YYYY-MM-DDTHH:MM:SS], which [pd.to_datetime] reads; [ValueError] on
    anything else. *)

Definition two_digits (a b : ascii) : option Z :=
  if is_digit a && is_digit b then Some (digits_value [a; b]) else None.

Definition between (lo hi : Z) (o : option Z) : option Z :=
  match o with
  | Some n => if Z.leb lo n && Z.leb n hi then Some n else None
  | None => None
  end.

Definition iso_fields (s : str) : option (Z * Z * Z * Z * Z * Z) :=
  match s with
  | [y1; y2; y3; y4; "-"; m1; m2; "-"; d1; d2; "T";
     h1; h2; ":"; i1; i2; ":"; s1; s2]%char =>
      match two_digits y1 y2, two_digits y3 y4,
            between 1 12 (two_digits m1 m2), between 1 31 (two_digits d1 d2),
            between 0 23 (two_digits h1 h2), between 0 59 (two_digits i1 i2),
            between 0 59 (two_digits s1 s2) with
      | Some c, Some y, Some m, Some d, Some h, Some i, Some sec =>
          Some (100 * c + y, m, d, h, i, sec)%Z
      | _, _, _, _, _, _, _ => None
      end
  | _ => None
  end.

Definition iso_datetime (s : str) : result (Z * Z * Z * Z * Z * Z) :=
  match iso_fields s with
  | Some t => Ok t
  | None => Raise ValueError
  end.

(** ** Lines of the examples *)

(** The line made of the given columns. *)
Definition tsv (cols : list string) : str := join TAB (map lit cols).

Definition short_line : str :=
  tsv [ "2024-01-01T00:00:00"; "name=x"; "cpu=1%"; "mem=1MiB/1MiB" ]%string.

(** A log: a good line, a blank line, a line of control sequences only, a
    line with a bad timestamp, one with a bad cpu column, a good line. *)
Definition example_log : list str :=
  [ tsv [ "2024-01-01T00:00:00"; "name=web"; "cpu=12.5%";
          "mem=128MiB/512MiB"; "net=1KiB/2KiB"; "block=0B/0B" ]%string;
    lit "   ";
    lit "[2J[H";
    tsv [ "yesterday"; "name=web"; "cpu=1%"; "mem=1MiB/2MiB"; "net=1B/2B" ]%string;
    tsv [ "2024-01-01T00:00:01"; "name=db"; "cpu=n/a"; "mem=1MiB/2MiB";
          "net=1B/2B" ]%string;
    tsv [ "2024-01-01T00:00:02"; "name=db"; "cpu=3%"; "mem=1MiB/2MiB";
          "net=1B/2B" ]%string ].

Definition example_line : str :=
  tsv [ "2024-01-01T00:00:00"; "name=web"; "cpu=12.5%"; "mem=128MiB/512MiB";
        "net=1KiB/2KiB"; "block=0B/0B" ]%string.

Definition example_sample {Timestamp : Type} (ts : Timestamp)
  : entry Timestamp :=
  {| timestamp := ts; name := lit "web"; cpu := twelve_and_a_half;
     mem := lit "128MiB/512MiB";
     mem_used := PyFloat (two_pow 7); mem_total := PyFloat (two_pow 9);
     net_in := PyFloat (two_pow (-10)); net_out := PyFloat (two_pow (-9));
     block_in := PyInt 0; block_out := PyInt 0 |}.

(** A line whose cpu column is negative, and one whose memory numeral has
    four hundred digits. *)
Definition negative_cpu_line : str :=
  tsv [ "2024-01-01T00:00:00"; "name=web"; "cpu=-5%"; "mem=1MiB/2MiB";
        "net=1KiB/2KiB" ]%string.

Definition huge_mem_line : str :=
  join TAB [ lit "2024-01-01T00:00:01"; lit "name=web"; lit "cpu=5%";
             lit "mem=" ++ repeat "9"%char 400 ++ lit "MiB/2MiB";
             lit "net=1KiB/2KiB" ].

(** * The rest of the program *)

(** ** The output file of [main] *)

(** The part of [s] before its last [sep], if [s] holds one. *)
Fixpoint before_last (sep : ascii) (s : str) : option str :=
  match s with
  | [] => None
  | c :: r =>
      match before_last sep r with
      | Some p => Some (c :: p)
      | None => if Ascii.eqb c sep then Some [] else None
      end
  end.

(** [s.rsplit(sep, 1)[0]] for a separator of one character: [s] cut
    before its last [sep], the whole of [s] when it has none. *)
Definition rsplit1_head (sep : ascii) (s : str) : str :=
  match before_last sep s with
  | Some p => p
  | None => s
  end.

(** [log_file.rsplit('.', 1)[0] + '_visualization.html'] *)
Definition output_name (log_file : str) : str :=
  rsplit1_head "." log_file ++ lit "_visualization.html".

(** ** Reading a text file line by line

    [for line in f] on a file opened with [open(filename, 'r')]: the
    lines end at [\n], [\r\n] or [\r], each read as [\n]; what follows the
    last line end is a line too when it is not empty.  [cur] is the line
    read so far. *)

Definition LF : ascii := "010".
Definition CR : ascii := "013".

Fixpoint file_lines_from (cur : str) (content : str) : list str :=
  match content with
  | [] => if is_nil cur then [] else [cur]
  | c :: r =>
      if Ascii.eqb c LF then (cur ++ [LF]) :: file_lines_from [] r
      else if Ascii.eqb c CR then
        match r with
        | d :: r' =>
            if Ascii.eqb d LF then (cur ++ [LF]) :: file_lines_from [] r'
            else (cur ++ [LF]) :: file_lines_from [] r
        | [] => [cur ++ [LF]]
        end
      else file_lines_from (cur ++ [c]) r
  end.

Definition file_lines (content : str) : list str := file_lines_from [] content.

(** ** [collect_docker_stats] of [stats_collector.py] *)

(** [f"{timestamp}\t{line}"] *)
Definition stamp (timestamp line : str) : str := timestamp ++ TAB :: line.

(** The loop over [process.stdout]: each line read comes with the reading
    of the clock at that turn, and is appended, stamped, to the file. *)
Fixpoint collect_loop (stdout : list (str * str)) (file : str) : str :=
  match stdout with
  | [] => file
  | (timestamp, line) :: rest => collect_loop rest (file ++ stamp timestamp line)
  end.

(** The content of the log when the loop ends. *)
Definition collect_docker_stats (stdout : list (str * str)) : str :=
  collect_loop stdout [].

(** ** [main] of [stats_visualizer.py] *)

Section Main.

Variable Timestamp : Type.
Variable to_datetime : str -> result Timestamp.

(** The files: [read_file] is the content of the file of that name, or the
    exception [open] raises; [write_html] is the failure of the write, if
    it fails. *)
Variable read_file : str -> result str.
Variable write_html : str -> figure Timestamp -> result unit.

(** [parse_docker_stats(filename)], with the file opened and read. *)
Definition parse_docker_stats_file (filename : str)
  : result (DataFrame Timestamp) :=
  content <- read_file filename ;;
  parse_docker_stats to_datetime (file_lines content).

(** What [main] does that can be seen: the lines it prints and the file it
    writes. *)
Inductive event : Type :=
| Printed (s : str)
| Written (path : str) (fig : figure Timestamp).

(** How [main] ends: [sys.exit(code)], an exception, or its last line. *)
Inductive status : Type :=
| Exit (code : Z)
| Raised (e : exn)
| Returned.

(** [sys.argv] is the argument. *)
Definition main (argv : list str) : list event * status :=
  if negb (Nat.eqb (List.length argv) 2) then
    ([Printed (lit "Usage: python visualize_stats.py <stats_log_file>")],
     Exit 1)
  else
    match index argv 1 with
    | Raise e => ([], Raised e)
    | Ok log_file =>
        let output_file := output_name log_file in
        let out1 := [Printed (lit "Parsing " ++ log_file ++ lit "...")] in
        match parse_docker_stats_file log_file with
        | Raise e => (out1, Raised e)
        | Ok df =>
            let out2 := out1 ++ [Printed (lit "Creating visualization...")] in
            match create_visualization df with
            | Raise e => (out2, Raised e)
            | Ok fig =>
                let out3 :=
                  out2 ++ [Printed (lit "Saving visualization to "
                                  ++ output_file ++ lit "...")] in
                match write_html output_file fig with
                | Raise e => (out3, Raised e)
                | Ok _ =>
                    (out3 ++ [Written output_file fig; Printed (lit "Done!")],
                     Returned)
                end
            end
        end
    end.

End Main.

(** ** Statements about the rest *)

(** The characters no pattern of [clean_line] can take and [strip] does not
    trim: all but the bracket, the digits, the semicolon, the letters and
    the whitespace. *)
Definition kept_char (c : ascii) : bool :=
  negb (Ascii.eqb c "[" || is_digit c || Ascii.eqb c ";" || is_alpha c
        || is_space c).

(** A text without line end, and a line as [process.stdout] gives it: such
    a text and its line feed. *)
Definition newline_free (s : str) : Prop := ~ In LF s /\ ~ In CR s.

Definition stdout_line (line : str) : Prop :=
  exists body, line = body ++ [LF] /\ newline_free body.

(** The patterns of [clean_line] take only what [kept_char] rejects. *)
Definition takes_removable (m : str -> option nat) : Prop :=
  forall s n, m s = Some n ->
  exists pre post, s = pre ++ post /\ List.length pre = n /\ pre <> []
                   /\ filter kept_char pre = [].

(** A text that one of the two patterns matches whole. *)
Definition is_sequence (s : str) : bool :=
  match Ctrl.sequence s with
  | Some n => Nat.eqb n (List.length s)
  | None => false
  end.

Section Traces.

Variable Timestamp : Type.

(** The six traces of a container, written without the lookups that can
    fail. *)
Definition six_traces (df : DataFrame Timestamp) (i : nat) (container : str)
  : list (trace Timestamp) :=
  let data := filter (fun e => str_eqb (name e) container) (rows df) in
  let color := nth (i mod 10) colors [] in
  let xs := map (@timestamp Timestamp) data in
  [ {| trace_x := xs; trace_y := map (fun e => PyFloat (cpu e)) data;
       trace_name := container ++ lit " - CPU";
       trace_color := color; trace_dash := None; trace_row := 1 |};
    {| trace_x := xs; trace_y := map (@mem_used Timestamp) data;
       trace_name := container ++ lit " - Memory";
       trace_color := color; trace_dash := None; trace_row := 2 |};
    {| trace_x := xs; trace_y := map (@net_in Timestamp) data;
       trace_name := container ++ lit " - Net In";
       trace_color := color; trace_dash := Some solid; trace_row := 3 |};
    {| trace_x := xs; trace_y := map (@net_out Timestamp) data;
       trace_name := container ++ lit " - Net Out";
       trace_color := color; trace_dash := Some dash; trace_row := 3 |};
    {| trace_x := xs; trace_y := map (@block_in Timestamp) data;
       trace_name := container ++ lit " - Block In";
       trace_color := color; trace_dash := Some solid; trace_row := 4 |};
    {| trace_x := xs; trace_y := map (@block_out Timestamp) data;
       trace_name := container ++ lit " - Block Out";
       trace_color := color; trace_dash := Some dash; trace_row := 4 |} ].

(** The traces of the containers from index [i] on. *)
Fixpoint traces_from (df : DataFrame Timestamp) (i : nat)
  (containers : list str) : list (trace Timestamp) :=
  match containers with
  | [] => []
  | c :: rest => six_traces df i c ++ traces_from df (S i) rest
  end.

(** The number of points of a list of traces. *)
Definition points (ts : list (trace Timestamp)) : nat :=
  list_sum (map (fun t => List.length (trace_y t)) ts).

End Traces.

(** * Properties *)

Unset Implicit Arguments.

(** ** Characters *)

Ltac by_cases_on_char c :=
  destruct c as [[] [] [] [] [] [] [] []]; try reflexivity; try discriminate.

Lemma alpha_lower_char (c : ascii) : is_alpha (lower_char c) = is_alpha c.
Proof. by_cases_on_char c. Qed.

Lemma numeral_char_not_space (c : ascii) :
  Re.is_numeral_char c = true -> is_space c = false.
Proof. by_cases_on_char c. Qed.

Lemma numeral_char_not_float_space (c : ascii) :
  Re.is_numeral_char c = true -> Num.is_float_space c = false.
Proof. by_cases_on_char c. Qed.

Lemma alpha_not_space (c : ascii) : is_alpha c = true -> is_space c = false.
Proof. by_cases_on_char c. Qed.

Lemma alpha_not_numeral_char (c : ascii) :
  is_alpha c = true -> Re.is_numeral_char c = false.
Proof. by_cases_on_char c. Qed.

Lemma digit_numeral_char (c : ascii) :
  is_digit c = true -> Re.is_numeral_char c = true.
Proof. by_cases_on_char c. Qed.

Lemma numeral_char_lower (c : ascii) :
  Re.is_numeral_char c = true -> lower_char c = c.
Proof. by_cases_on_char c. Qed.

Lemma str_eqb_eq (s t : str) : str_eqb s t = true <-> s = t.
Proof.
  unfold str_eqb. destruct (list_eq_dec ascii_dec s t); split; congruence.
Qed.

Lemma str_eqb_head (c d : ascii) (s t : str) :
  c <> d -> str_eqb (c :: s) (d :: t) = false.
Proof.
  intros Hcd. destruct (str_eqb (c :: s) (d :: t)) eqn:E; [|reflexivity].
  apply str_eqb_eq in E. congruence.
Qed.

(** ** [strip] *)

Lemma drop_while_keeps (p : ascii -> bool) (c : ascii) (s : str) :
  p c = false -> drop_while p (c :: s) = c :: s.
Proof. intros H. simpl. now rewrite H. Qed.

Lemma rev_drop_while_last (p : ascii -> bool) (s : str) (c : ascii) :
  p c = false -> rev (drop_while p (rev (s ++ [c]))) = s ++ [c].
Proof.
  intros H. rewrite rev_app_distr. simpl. rewrite H. simpl.
  now rewrite rev_involutive.
Qed.

(** A string whose first and last characters are not in [p] is left
    alone. *)
Lemma strip_by_keeps (p : ascii -> bool) (c d : ascii) (s : str) :
  p c = false -> p d = false ->
  strip_by p (c :: s ++ [d]) = c :: s ++ [d].
Proof.
  intros Hc Hd. unfold strip_by. rewrite drop_while_keeps by assumption.
  exact (rev_drop_while_last p (c :: s) d Hd).
Qed.

Lemma strip_by_keeps_single (p : ascii -> bool) (c : ascii) :
  p c = false -> strip_by p [c] = [c].
Proof. intros Hc. unfold strip_by. simpl. rewrite Hc. simpl. now rewrite Hc. Qed.

Lemma strip_by_id (p : ascii -> bool) (s : str) :
  (forall c r, s = c :: r -> p c = false) ->
  (forall r d, s = r ++ [d] -> p d = false) ->
  strip_by p s = s.
Proof.
  intros Hfirst Hlast. destruct s as [|c r]; [reflexivity|].
  destruct (exists_last (l := c :: r)) as (r' & d & Er); [discriminate|].
  destruct r' as [|c' r'].
  - injection Er as -> ->.
    apply strip_by_keeps_single. eapply Hfirst; reflexivity.
  - simpl in Er. injection Er as -> ->.
    apply strip_by_keeps.
    + eapply Hfirst; reflexivity.
    + eapply (Hlast (c' :: r')); reflexivity.
Qed.

(** ** [span] *)

Lemma span_app (p : ascii -> bool) (a b : str) :
  forallb p a = true ->
  (forall c r, b = c :: r -> p c = false) ->
  Re.span p (a ++ b) = (a, b).
Proof.
  intros Ha Hb. induction a as [|x a IH]; simpl in *.
  - destruct b as [|c r]; [reflexivity|].
    simpl. now rewrite (Hb c r eq_refl).
  - apply andb_true_iff in Ha as [Hx Ha]. rewrite Hx, (IH Ha). reflexivity.
Qed.

Lemma span_all (p : ascii -> bool) (a : str) :
  forallb p a = true -> Re.span p a = (a, []).
Proof.
  intros Ha. rewrite <- (app_nil_r a) at 1.
  apply span_app; [assumption|discriminate].
Qed.

(** ** [float] on a decimal numeral *)

Lemma digitpart_tail_app (ds rest : str) :
  forallb is_digit ds = true ->
  (forall c r, rest = c :: r -> is_digit c = false /\ c <> "_"%char) ->
  Num.digitpart_tail (ds ++ rest) = (ds, rest).
Proof.
  intros Hds Hrest. induction ds as [|d ds IH]; simpl in *.
  - destruct rest as [|c r]; [reflexivity|].
    destruct (Hrest c r eq_refl) as [Hc Hu]. simpl. rewrite Hc.
    apply Ascii.eqb_neq in Hu. now rewrite Hu.
  - apply andb_true_iff in Hds as [Hd Hds]. now rewrite Hd, (IH Hds).
Qed.

Lemma digitpart_app (ds rest : str) :
  forallb is_digit ds = true ->
  (forall c r, rest = c :: r -> is_digit c = false /\ c <> "_"%char) ->
  Num.digitpart (ds ++ rest) = (ds, rest).
Proof.
  intros Hds Hrest. destruct ds as [|d ds]; simpl in *.
  - destruct rest as [|c r]; [reflexivity|].
    destruct (Hrest c r eq_refl) as [Hc _]. simpl. now rewrite Hc.
  - apply andb_true_iff in Hds as [Hd Hds].
    now rewrite Hd, (digitpart_tail_app _ _ Hds Hrest).
Qed.

Lemma digitpart_all (ds : str) :
  forallb is_digit ds = true -> Num.digitpart ds = (ds, []).
Proof.
  intros Hds. rewrite <- (app_nil_r ds) at 1.
  apply digitpart_app; [assumption|discriminate].
Qed.

Lemma number_numeral (s : str) (n : Z) (k : nat) :
  decimal_numeral s n k ->
  exists ip fp, Num.number s = Some (ip, fp, [])
                /\ n = digits_value (ip ++ fp) /\ k = List.length fp.
Proof.
  intros [ip Hne Hip | ip fp Hne Hip Hfp]; unfold Num.number.
  - exists ip, []. rewrite (digitpart_all _ Hip), app_nil_r.
    destruct ip; [congruence|]. auto.
  - exists ip, fp. rewrite digitpart_app; trivial.
    + rewrite (digitpart_all _ Hfp).
      destruct ip; destruct fp; simpl in *; try congruence; auto.
    + intros c r [= <- _]. split; [reflexivity|discriminate].
Qed.

Lemma numeral_chars (s : str) (n : Z) (k : nat) :
  decimal_numeral s n k ->
  s <> [] /\ forallb Re.is_numeral_char s = true.
Proof.
  assert (Hd : forall l, forallb is_digit l = true ->
                         forallb Re.is_numeral_char l = true).
  { induction l as [|c l IH]; simpl; [reflexivity|].
    intros [Hc Hl]%andb_true_iff. now rewrite (digit_numeral_char _ Hc), IH. }
  intros [ip Hne Hip | ip fp Hne Hip Hfp]; split; auto.
  - now destruct ip.
  - rewrite forallb_app. simpl. now rewrite !Hd.
Qed.

Lemma sign_numeral_char (c : ascii) (r : str) :
  Re.is_numeral_char c = true -> Num.sign (c :: r) = (false, c :: r).
Proof. by_cases_on_char c. Qed.

Lemma strip_id (s : str) :
  (forall c r, s = c :: r -> is_space c = false) ->
  (forall r d, s = r ++ [d] -> is_space d = false) ->
  strip s = s.
Proof. apply strip_by_id. Qed.

Lemma forallb_first (p : ascii -> bool) (s : str) (c : ascii) (r : str) :
  forallb p s = true -> s = c :: r -> p c = true.
Proof. intros H ->. simpl in H. now apply andb_true_iff in H. Qed.

Lemma forallb_last (p : ascii -> bool) (s r : str) (d : ascii) :
  forallb p s = true -> s = r ++ [d] -> p d = true.
Proof.
  intros H ->. rewrite forallb_app in H. simpl in H.
  apply andb_true_iff in H as [_ H]. now apply andb_true_iff in H.
Qed.

Lemma lower_numeral_chars (s : str) :
  forallb Re.is_numeral_char s = true -> lower s = s.
Proof.
  induction s as [|c s IH]; simpl; [reflexivity|].
  intros [Hc Hs]%andb_true_iff. now rewrite (numeral_char_lower _ Hc), IH.
Qed.

(** No numeral is one of the words [inf], [infinity], [nan]. *)
Lemma numeral_not_word (s : str) (w : string) :
  s <> [] -> forallb Re.is_numeral_char s = true ->
  forallb is_alpha (lit w) = true ->
  str_eqb s (lit w) = false.
Proof.
  intros Hne Hs Hw. destruct (str_eqb s (lit w)) eqn:E; [|reflexivity].
  apply str_eqb_eq in E. subst s. destruct (lit w) as [|c r]; [congruence|].
  simpl in Hs, Hw. apply andb_true_iff in Hs as [Hs _].
  apply andb_true_iff in Hw as [Hw _].
  now rewrite (alpha_not_numeral_char _ Hw) in Hs.
Qed.

(** [float] accepts every decimal numeral and returns its value. *)
Lemma py_float_numeral (s : str) (n : Z) (k : nat) :
  decimal_numeral s n k -> py_float s = Ok (numeral_value n k).
Proof.
  intros H. destruct (numeral_chars _ _ _ H) as [Hne Hchars].
  destruct (number_numeral _ _ _ H) as (ip & fp & Hnum & -> & ->).
  unfold py_float.
  rewrite strip_by_id.
  - destruct s as [|c r]; [congruence|].
    rewrite sign_numeral_char by exact (forallb_first _ _ _ _ Hchars eq_refl).
    rewrite (lower_numeral_chars _ Hchars).
    rewrite !(numeral_not_word _ _ Hne Hchars) by reflexivity.
    simpl. rewrite Hnum. reflexivity.
  - intros c r E. apply numeral_char_not_float_space.
    exact (forallb_first _ _ _ _ Hchars E).
  - intros r d E. apply numeral_char_not_float_space.
    exact (forallb_last _ _ _ _ Hchars E).
Qed.

(** ** The units of the table *)

Lemma alpha_lower (u : str) : forallb is_alpha (lower u) = forallb is_alpha u.
Proof.
  induction u as [|c u IH]; simpl; [reflexivity|].
  now rewrite alpha_lower_char, IH.
Qed.

Ltac table_cases H :=
  unfold table_multiplier in H;
  repeat match type of H with
         | (if ?b then _ else _) = _ =>
             let E := fresh "E" in
             destruct b eqn:E;
             [ try (apply orb_true_iff in E as [E | E]);
               apply str_eqb_eq in E | ]
         end.

(** A unit of the table is a non-empty word of letters. *)
Lemma table_unit_alpha (w : str) (m : float) :
  table_multiplier w = Some m -> w <> [] /\ forallb is_alpha w = true.
Proof.
  intros H. table_cases H; try discriminate; subst w; split;
    (discriminate || reflexivity).
Qed.

(** The dict of the source holds the multipliers of the table. *)
Lemma multipliers_table (w : str) (m : float) :
  table_multiplier w = Some m ->
  to_float (dict_get multipliers w (PyInt 0)) = m.
Proof.
  intros H. table_cases H; try discriminate; subst w;
    injection H as <-; vm_compute; reflexivity.
Qed.

Lemma match_size_numeral_unit (s u : str) :
  s <> [] -> forallb Re.is_numeral_char s = true ->
  u <> [] -> forallb is_alpha u = true ->
  Re.match_size (s ++ u) = Some (s, u).
Proof.
  intros Hs Hsc Hu Huc. unfold Re.match_size.
  rewrite span_app; trivial.
  - rewrite (span_all _ _ Huc). destruct s; [congruence|].
    destruct u; [congruence|]. reflexivity.
  - intros c r E. apply alpha_not_numeral_char.
    exact (forallb_first _ _ _ _ Huc E).
Qed.

(** C1. A size token made of a decimal numeral and a unit of the table, in
    any case, is read as the numeral's value times the multiplier of the
    table: 2^-20 for b, 2^-10 for kb and kib, 1 for mb and mib, 2^10 for gb
    and gib, 2^20 for tb and tib.  The result is the float product of the
    value and the multiplier (the int 0 returned for the literal [0B] is
    that product too). *)
Theorem parse_size_table (s u : str) (n : Z) (k : nat) (m : float) :
  decimal_numeral s n k ->
  table_multiplier (lower u) = Some m ->
  exists r, parse_size (s ++ u) = Ok r
            /\ to_float r = fmul (numeral_value n k) m.
Proof.
  intros Hs Hu.
  destruct (numeral_chars _ _ _ Hs) as [Hne Hchars].
  destruct (table_unit_alpha _ _ Hu) as [Hune Hualpha].
  rewrite alpha_lower in Hualpha.
  assert (Hune' : u <> []) by (now destruct u).
  unfold parse_size.
  destruct (is_nil (s ++ u) || str_eqb (s ++ u) (lit "0B")) eqn:E.
  - (* the literal "0B" *)
    apply orb_true_iff in E as [E | E].
    { destruct s; [congruence|discriminate]. }
    apply str_eqb_eq in E. exists (PyInt 0). split; [reflexivity|].
    assert (Hsu : s = lit "0" /\ u = lit "B").
    { destruct s as [|a [|b s]]; [congruence| |].
      - destruct u as [|b [|c u]]; try discriminate.
        injection E as -> ->. auto.
      - destruct s; [|destruct u; discriminate].
        destruct u; [congruence|discriminate]. }
    destruct Hsu as [-> ->].
    pose proof (py_float_numeral _ _ _ Hs) as Hv.
    assert (H0 : py_float (lit "0") = Ok (S754_zero false))
      by (vm_compute; reflexivity).
    rewrite H0 in Hv. injection Hv as <-.
    assert (Hm : table_multiplier (lower (lit "B")) = Some (two_pow (-20)))
      by (vm_compute; reflexivity).
    rewrite Hm in Hu. injection Hu as <-. reflexivity.
  - rewrite strip_id.
    + rewrite match_size_numeral_unit by assumption.
      rewrite (py_float_numeral _ _ _ Hs). unfold bind.
      eexists; split; [reflexivity|].
      unfold float_mul. cbn [to_float].
      now rewrite (multipliers_table _ _ Hu).
    + intros c r E'. destruct s as [|c' s']; [congruence|].
      injection E' as <- _. apply numeral_char_not_space.
      exact (forallb_first _ _ _ _ Hchars eq_refl).
    + intros r d E'. apply alpha_not_space.
      destruct (exists_last Hune') as (u' & d' & ->).
      rewrite app_assoc in E'. apply app_inj_tail in E' as [_ <-].
      exact (forallb_last _ _ _ _ Hualpha eq_refl).
Qed.

(** [1.5GiB] is 1536 MB. *)
Lemma parse_size_table_witness :
  exists r, parse_size (lit "1.5GiB") = Ok r
            /\ to_float r = fmul (numeral_value 15 1) (two_pow 10).
Proof.
  apply (parse_size_table (lit "1.5") (lit "GiB") 15 1 (two_pow 10)).
  - exact (numeral_point (lit "1") (lit "5") ltac:(discriminate)
             eq_refl eq_refl).
  - reflexivity.
Defined.

(** *** Scaling by a multiplier is exact

    The multipliers are powers of two: on a normal number, while the result
    stays in range, the product keeps the mantissa and moves the exponent,
    so that the result is linear in the value. *)
Lemma fmul_two_pow (mx : positive) (ex k : Z) :
  digits2_pos mx = 53%positive ->
  (-1074 <= ex + k <= 971)%Z ->
  fmul (S754_finite false mx ex) (two_pow k)
  = S754_finite false mx (ex + k).
Proof.
  intros Hd Hr. unfold fmul, two_pow, SFmul.
  rewrite Pos.mul_comm. cbn [xorb].
  change (Pos.mul 4503599627370496 mx) with (Pos.iter xO mx 52).
  unfold binary_round_aux, shr_fexp.
  assert (D : Zdigits2 (Zpos (Pos.iter xO mx 52)) = 105%Z).
  { cbn. rewrite Hd. reflexivity. }
  rewrite D.
  assert (F : (fexp Num.prec Num.emax (105 + (ex + (k - 52)))
               - (ex + (k - 52)) = 52)%Z).
  { unfold fexp, emin, Num.prec, Num.emax. lia. }
  rewrite F. cbn [shr shr_record_of_loc].
  change (iter_pos shr_1 52
            {| shr_m := Z.pos (Pos.iter xO mx 52);
               shr_r := false; shr_s := false |})
    with {| shr_m := Z.pos mx; shr_r := false; shr_s := false |}.
  cbn [shr_m loc_of_shr_record round_nearest_even Zdigits2].
  rewrite Hd.
  assert (G : (fexp Num.prec Num.emax (53 + (ex + (k - 52) + 52))
               - (ex + (k - 52) + 52) = 0)%Z).
  { unfold fexp, emin, Num.prec, Num.emax. lia. }
  rewrite G. cbn [shr shr_record_of_loc shr_m].
  assert (L : Z.leb (ex + (k - 52) + 52) (Num.emax - Num.prec) = true).
  { apply Z.leb_le. unfold Num.emax, Num.prec. lia. }
  rewrite L. f_equal. lia.
Qed.

(** ** Where [parse_size] degrades to zero, and where it does not *)

Lemma parse_size_empty : parse_size [] = Ok (PyInt 0).
Proof. reflexivity. Qed.

Lemma parse_size_0B : parse_size (lit "0B") = Ok (PyInt 0).
Proof. reflexivity. Qed.



Lemma span_forallb (p : ascii -> bool) (s a b : str) :
  Re.span p s = (a, b) -> forallb p a = true /\ s = a ++ b.
Proof.
  revert a b. induction s as [|c s IH]; simpl; intros a b H.
  - injection H as <- <-. auto.
  - destruct (p c) eqn:Hc.
    + destruct (Re.span p s) as [a' b'] eqn:E. injection H as <- <-.
      destruct (IH _ _ eq_refl) as [Ha ->]. simpl. now rewrite Hc, Ha.
    + injection H as <- <-. auto.
Qed.

Lemma match_size_groups (s g1 g2 : str) :
  Re.match_size s = Some (g1, g2) ->
  g1 <> [] /\ forallb Re.is_numeral_char g1 = true
  /\ g2 <> [] /\ forallb is_alpha g2 = true.
Proof.
  unfold Re.match_size. intros H.
  destruct (Re.span Re.is_numeral_char s) as [a r] eqn:E1.
  destruct a as [|c a]; [discriminate|].
  destruct (Re.span is_alpha r) as [b r'] eqn:E2.
  destruct b as [|d b]; [discriminate|]. injection H as <- <-.
  apply span_forallb in E1 as [H1 _]. apply span_forallb in E2 as [H2 _].
  repeat split; (discriminate || assumption).
Qed.

(** ** [clean_line] *)

Lemma occurs_cons (m : str -> option nat) (c : ascii) (r : str) :
  occurs m (c :: r) = false -> m (c :: r) = None /\ occurs m r = false.
Proof.
  simpl. destruct (m (c :: r)); [discriminate|]. auto.
Qed.

Lemma occurs_skip (m : str -> option nat) (c : ascii) (r : str) :
  m (c :: r) = None -> occurs m (c :: r) = occurs m r.
Proof. simpl. now intros ->. Qed.

(** Where the pattern does not occur, nothing is deleted. *)
Lemma delete_matches_none (m : str -> option nat) (s : str) :
  occurs m s = false -> delete_matches m s = s.
Proof.
  unfold delete_matches. induction s as [|c r IH]; intros H.
  - reflexivity.
  - apply occurs_cons in H as [Hm Hr]. simpl. rewrite Hm.
    now rewrite (IH Hr).
Qed.

Lemma no_bracket_sequence (c : ascii) (r : str) :
  c <> "["%char ->
  Ctrl.sequence (c :: r) = None /\ Ctrl.marker (c :: r) = None.
Proof.
  intros H. destruct c as [[] [] [] [] [] [] [] []];
    try (split; reflexivity). now elim H.
Qed.

(** In a line without an opening bracket neither pattern occurs. *)
Lemma no_bracket_occurs (line : str) :
  ~ In "["%char line ->
  occurs Ctrl.sequence line = false /\ occurs Ctrl.marker line = false.
Proof.
  intros H. induction line as [|c r IH]; [split; reflexivity|].
  destruct (no_bracket_sequence c r) as [H1 H2].
  - intros ->. apply H. now left.
  - destruct IH as [IH1 IH2]; [intros Hin; apply H; now right|].
    now rewrite (occurs_skip _ _ _ H1), (occurs_skip _ _ _ H2).
Qed.

(** *** Blank lines *)

Lemma drop_while_nil (p : ascii -> bool) (s : str) :
  drop_while p s = [] -> forallb p s = true.
Proof.
  induction s as [|c r IH]; simpl; [reflexivity|].
  destruct (p c); [exact IH|discriminate].
Qed.

Lemma drop_while_head (p : ascii -> bool) (s : str) (c : ascii) (r : str) :
  drop_while p s = c :: r -> p c = false.
Proof.
  induction s as [|d s IH]; simpl; [discriminate|].
  destruct (p d) eqn:E; [exact IH|]. now intros [= <- _].
Qed.

Lemma forallb_rev (p : ascii -> bool) (s : str) :
  forallb p (rev s) = forallb p s.
Proof.
  induction s as [|c r IH]; simpl; [reflexivity|].
  rewrite forallb_app, IH. simpl. rewrite andb_true_r. apply andb_comm.
Qed.

Lemma strip_nil_spaces (s : str) :
  strip s = [] -> forallb is_space s = true.
Proof.
  unfold strip, strip_by. intros H.
  assert (H' : drop_while is_space (rev (drop_while is_space s)) = []).
  { destruct (drop_while is_space (rev _)) as [|x l]; [reflexivity|].
    simpl in H. now destruct (rev l). }
  apply drop_while_nil in H'. rewrite forallb_rev in H'.
  destruct (drop_while is_space s) as [|c r] eqn:E.
  - now apply drop_while_nil.
  - apply drop_while_head in E. simpl in H'. now rewrite E in H'.
Qed.

Lemma space_no_sequence (c : ascii) (r : str) :
  is_space c = true -> Ctrl.sequence (c :: r) = None.
Proof. by_cases_on_char c. Qed.

Lemma space_no_marker (c : ascii) (r : str) :
  is_space c = true -> Ctrl.marker (c :: r) = None.
Proof. by_cases_on_char c. Qed.

Lemma spaces_occurs (s : str) :
  forallb is_space s = true ->
  occurs Ctrl.sequence s = false /\ occurs Ctrl.marker s = false.
Proof.
  intros H. induction s as [|c r IH]; [split; reflexivity|].
  simpl in H. apply andb_true_iff in H as [Hc Hr].
  destruct (IH Hr) as [IH1 IH2]. split.
  - now rewrite (occurs_skip _ _ _ (space_no_sequence c r Hc)).
  - now rewrite (occurs_skip _ _ _ (space_no_marker c r Hc)).
Qed.

(** A blank line is still blank once sanitized. *)
Lemma clean_line_blank (line : str) :
  is_nil (strip line) = true -> clean_line line = [].
Proof.
  intros H. assert (E : strip line = []) by (now destruct (strip line)).
  pose proof (strip_nil_spaces _ E) as Hsp.
  destruct (spaces_occurs _ Hsp) as [Hs Hm]. unfold clean_line.
  now rewrite (delete_matches_none _ _ Hs), (delete_matches_none _ _ Hm).
Qed.

(** ** The assembler *)

Lemma bind_caught {A B : Type} (r : result A) (k : A -> result B) :
  raises_caught r -> (forall a, raises_caught (k a)) ->
  raises_caught (bind r k).
Proof.
  intros Hr Hk e. destruct r as [a|e']; simpl.
  - apply Hk.
  - intros [= <-]. now apply Hr.
Qed.

Lemma ok_caught {A : Type} (a : A) : raises_caught (Ok a).
Proof. intros e. discriminate. Qed.

Lemma index_caught {A : Type} (l : list A) (i : nat) :
  raises_caught (index l i).
Proof.
  intros e. unfold index. destruct (nth_error l i); [discriminate|].
  intros [= <-]. now right.
Qed.

Lemma py_float_caught (s : str) : raises_caught (py_float s).
Proof.
  intros e. unfold py_float.
  destruct (Num.sign (strip_by Num.is_float_space s)) as [neg body].
  destruct (_ || _); [discriminate|].
  destruct (str_eqb _ _); [discriminate|].
  destruct (Num.number body) as [[[ip fp] r]|];
    [destruct (Num.exponent r)|]; intros [= <-] || discriminate; now left.
Qed.

Lemma parse_size_caught (s : str) : raises_caught (parse_size s).
Proof.
  unfold parse_size. destruct (_ || _); [apply ok_caught|].
  destruct (Re.match_size (strip s)) as [[g1 g2]|]; [|apply ok_caught].
  apply bind_caught; [apply py_float_caught|intros; apply ok_caught].
Qed.

Ltac caught_step :=
  first [ apply ok_caught
        | apply index_caught
        | apply py_float_caught
        | apply parse_size_caught
        | assumption
        | apply bind_caught; [|intros ?] ].

Section AssemblerProperties.

Variable Timestamp : Type.
Variable to_datetime : str -> result Timestamp.

(** The body of the [try] raises what its calls raise: an [IndexError]
    from a subscript, a [ValueError] from [float], or what [to_datetime]
    raises. *)
Lemma parse_entry_caught (parts : list str) :
  (forall s, raises_caught (to_datetime s)) ->
  raises_caught (parse_entry to_datetime parts).
Proof.
  intros Htd. unfold parse_entry.
  repeat (apply bind_caught; [try caught_step; try apply Htd | intros ?]).
  destruct (Nat.ltb 5 _); repeat caught_step.
Qed.

Lemma parse_lines_app (pre post : list str) (data : list (entry Timestamp)) :
  parse_lines to_datetime (pre ++ post) data
  = (d <- parse_lines to_datetime pre data ;; parse_lines to_datetime post d).
Proof.
  revert data. induction pre as [|l pre IH]; intros data; simpl.
  - reflexivity.
  - destruct (parse_line to_datetime l) as [[e|]|x]; auto.
Qed.

(** A line that gives no sample leaves the loop as it was. *)
Lemma parse_lines_skip (raw : str) (pre post : list str)
  (data : list (entry Timestamp)) :
  parse_line to_datetime raw = Ok None ->
  parse_lines to_datetime (pre ++ raw :: post) data
  = parse_lines to_datetime (pre ++ post) data.
Proof.
  intros H. rewrite !parse_lines_app. simpl. now rewrite H.
Qed.

Lemma parse_fields_short (line : str) :
  List.length (split TAB line) < 5 -> parse_fields to_datetime line = Ok None.
Proof.
  intros H. unfold parse_fields.
  apply Nat.ltb_lt in H. now rewrite H.
Qed.

(** C7. A sanitized line with fewer than five tab-separated columns gives
    no sample, and the assembled frame is the one obtained without the
    line. *)
Theorem short_line_dropped (line : str) :
  List.length (split TAB line) < 5 ->
  parse_fields to_datetime line = Ok None
  /\ forall raw pre post,
       clean_line raw = line ->
       parse_docker_stats to_datetime (pre ++ raw :: post)
       = parse_docker_stats to_datetime (pre ++ post).
Proof.
  intros H. split; [now apply parse_fields_short|].
  intros raw pre post <-. unfold parse_docker_stats.
  rewrite parse_lines_skip; [reflexivity|].
  unfold parse_line. destruct (is_nil (strip raw)); [reflexivity|].
  now apply parse_fields_short.
Qed.

(** *** The loop as a filter-map *)

Lemma parse_line_sample (line : str) :
  (forall s, raises_caught (to_datetime s)) ->
  parse_line to_datetime line = Ok (line_sample to_datetime line).
Proof.
  intros Htd. unfold parse_line, line_sample, parse_fields.
  destruct (is_nil (strip line)); [reflexivity|].
  destruct (Nat.ltb _ 5); [reflexivity|].
  pose proof (parse_entry_caught (split TAB (clean_line line)) Htd) as Hc.
  destruct (parse_entry to_datetime _) as [e|x]; [reflexivity|].
  destruct (Hc x eq_refl) as [-> | ->]; reflexivity.
Qed.

Lemma parse_lines_filter_map (lines : list str)
  (data : list (entry Timestamp)) :
  (forall s, raises_caught (to_datetime s)) ->
  parse_lines to_datetime lines data
  = Ok (data ++ filter_map_opt (line_sample to_datetime) lines).
Proof.
  intros Htd. revert data.
  induction lines as [|l lines IH]; intros data; simpl.
  - now rewrite app_nil_r.
  - rewrite (parse_line_sample l Htd).
    destruct (line_sample to_datetime l) as [e|]; [|apply IH].
    rewrite IH, <- app_assoc. reflexivity.
Qed.

End AssemblerProperties.

(** C4. If [pd.to_datetime] raises nothing but what the handler catches,
    [parse_docker_stats] returns, on every list of lines, the frame of the
    samples of the lines that have one, in the order of the lines. *)
Theorem parse_docker_stats_filter_map (Timestamp : Type)
  (to_datetime : str -> result Timestamp) (lines : list str) :
  (forall s e, to_datetime s = Raise e -> e = ValueError \/ e = IndexError) ->
  parse_docker_stats to_datetime lines
  = Ok (make_frame (filter_map_opt (line_sample to_datetime) lines)).
Proof.
  intros Htd. unfold parse_docker_stats.
  now rewrite (parse_lines_filter_map _ to_datetime lines [] Htd).
Qed.

(** ** The optional block field *)

Lemma size_pair_ok (tag part : str) (x y : num) :
  size_pair tag part = Ok (x, y) ->
  exists a b,
    index (split "/" (remove tag part)) 0 = Ok a /\ parse_size (strip a) = Ok x
    /\ index (split "/" (remove tag part)) 1 = Ok b
    /\ parse_size (strip b) = Ok y.
Proof.
  unfold size_pair. cbv zeta.
  destruct (index _ 0) as [a|]; [|discriminate]. simpl.
  destruct (parse_size (strip a)) as [x'|] eqn:Ex; [|discriminate]. simpl.
  destruct (index _ 1) as [b|]; [|discriminate]. simpl.
  destruct (parse_size (strip b)) as [y'|] eqn:Ey; [|discriminate]. simpl.
  intros [= <- <-]. exists a, b. auto.
Qed.

(** ** [split] and [join] *)

Lemma split_not_nil (sep : ascii) (s : str) : split sep s <> [].
Proof.
  destruct s as [|c r]; simpl; [discriminate|].
  destruct (Ascii.eqb c sep); [discriminate|].
  destruct (split sep r); discriminate.
Qed.

(** No piece of a split holds the separator. *)
Lemma split_pieces (sep : ascii) (s : str) :
  Forall (fun p => ~ In sep p) (split sep s).
Proof.
  induction s as [|c r IH]; simpl.
  - constructor; [intros []|constructor].
  - destruct (Ascii.eqb c sep) eqn:E.
    + constructor; [intros []|exact IH].
    + destruct (split sep r) as [|p ps]; [constructor; [|constructor]|].
      * intros [-> | []]. now rewrite Ascii.eqb_refl in E.
      * inversion IH as [|? ? Hp Hps]; subst. constructor; [|exact Hps].
        intros [-> | Hin]; [now rewrite Ascii.eqb_refl in E|now apply Hp].
Qed.

Lemma split_piece (sep : ascii) (p : str) :
  ~ In sep p -> split sep p = [p].
Proof.
  induction p as [|c r IH]; intros H; simpl; [reflexivity|].
  destruct (Ascii.eqb c sep) eqn:E.
  - apply Ascii.eqb_eq in E. subst. elim H. now left.
  - rewrite IH; [reflexivity|]. intros Hin. apply H. now right.
Qed.

Lemma split_piece_sep (sep : ascii) (p s : str) :
  ~ In sep p -> split sep (p ++ sep :: s) = p :: split sep s.
Proof.
  induction p as [|c r IH]; intros H; simpl.
  - now rewrite Ascii.eqb_refl.
  - destruct (Ascii.eqb c sep) eqn:E.
    + apply Ascii.eqb_eq in E. subst. elim H. now left.
    + rewrite IH; [reflexivity|]. intros Hin. apply H. now right.
Qed.

(** Joining pieces that do not hold the separator and splitting again
    gives the pieces back. *)
Lemma split_join (sep : ascii) (pieces : list str) :
  pieces <> [] ->
  Forall (fun p => ~ In sep p) pieces ->
  split sep (join sep pieces) = pieces.
Proof.
  induction pieces as [|p rest IH]; intros Hne Hall; [congruence|].
  inversion Hall as [|? ? Hp Hrest]; subst.
  destruct rest as [|q rest].
  - simpl. now apply split_piece.
  - change (join sep (p :: q :: rest))
      with (p ++ sep :: join sep (q :: rest)).
    rewrite split_piece_sep by assumption.
    rewrite IH; [reflexivity|discriminate|assumption].
Qed.

Section FieldProperties.

Variable Timestamp : Type.
Variable to_datetime : str -> result Timestamp.

(** The columns of a line that has at least five are not those of a blank
    line. *)
Lemma columns_not_blank (raw : str) :
  5 <= List.length (split TAB (clean_line raw)) ->
  is_nil (strip raw) = false.
Proof.
  intros H. destruct (is_nil (strip raw)) eqn:E; [|reflexivity].
  rewrite (clean_line_blank _ E) in H. simpl in H. lia.
Qed.

(** C8. A line of exactly five columns whose timestamp, cpu, mem and net
    columns are read without error gives a sample, and its two block fields
    are 0. *)
Theorem missing_block_defaults (raw p0 p1 p2 p3 p4 : str)
  (ts : Timestamp) (c : float) (mu mt ni no : num) :
  split TAB (clean_line raw) = [p0; p1; p2; p3; p4] ->
  to_datetime p0 = Ok ts ->
  py_float (remove (lit "%") (remove (lit "cpu=") p2)) = Ok c ->
  size_pair (lit "mem=") p3 = Ok (mu, mt) ->
  size_pair (lit "net=") p4 = Ok (ni, no) ->
  parse_line to_datetime raw
  = Ok (Some {| timestamp := ts; name := remove (lit "name=") p1; cpu := c;
                mem := remove (lit "mem=") p3;
                mem_used := mu; mem_total := mt;
                net_in := ni; net_out := no;
                block_in := PyInt 0; block_out := PyInt 0 |}).
Proof.
  intros Hcols Hts Hcpu Hmem Hnet.
  apply size_pair_ok in Hmem as (m0 & m1 & Hm0 & Hmu & Hm1 & Hmt).
  apply size_pair_ok in Hnet as (n0 & n1 & Hn0 & Hni & Hn1 & Hno).
  unfold parse_line. rewrite columns_not_blank by (rewrite Hcols; simpl; lia).
  unfold parse_fields. rewrite Hcols.
  change (Nat.ltb (List.length [p0; p1; p2; p3; p4]) 5) with false.
  cbv iota. unfold parse_entry.
  change (index [p0; p1; p2; p3; p4] 0) with (Ok p0).
  change (index [p0; p1; p2; p3; p4] 1) with (Ok p1).
  change (index [p0; p1; p2; p3; p4] 2) with (Ok p2).
  change (index [p0; p1; p2; p3; p4] 3) with (Ok p3).
  change (index [p0; p1; p2; p3; p4] 4) with (Ok p4).
  change (Nat.ltb 5 (List.length [p0; p1; p2; p3; p4])) with false.
  cbv beta iota zeta delta [bind].
  rewrite Hts, Hcpu, Hm0, Hmu, Hm1, Hmt, Hn0, Hni, Hn1, Hno.
  reflexivity.
Qed.

(** ** Columns beyond the sixth *)

Lemma parse_entry_extra (cols extra : list str) :
  List.length cols = 6 ->
  parse_entry to_datetime (cols ++ extra) = parse_entry to_datetime cols.
Proof.
  intros H.
  destruct cols as [|c0 [|c1 [|c2 [|c3 [|c4 [|c5 [|c6 cols]]]]]]];
    try discriminate.
  reflexivity.
Qed.

Lemma parse_fields_extra (line line6 : str) (cols extra : list str) :
  List.length cols = 6 ->
  split TAB line = cols ++ extra ->
  split TAB line6 = cols ->
  parse_fields to_datetime line = parse_fields to_datetime line6.
Proof.
  intros Hlen Hline Hline6. unfold parse_fields.
  rewrite Hline, Hline6, parse_entry_extra by assumption.
  rewrite length_app, Hlen. reflexivity.
Qed.

(** C10. A line with more than six columns is read as the line made of its
    first six: the columns beyond the sixth change neither whether a
    sample is built nor any field of it. *)
Theorem extra_columns_ignored (line : str) :
  6 < List.length (split TAB line) ->
  parse_fields to_datetime line
  = parse_fields to_datetime (join TAB (firstn 6 (split TAB line))).
Proof.
  intros H.
  apply (parse_fields_extra line _ (firstn 6 (split TAB line))
           (skipn 6 (split TAB line))).
  - rewrite length_firstn. lia.
  - now rewrite firstn_skipn.
  - apply split_join.
    + intros E. apply (f_equal (@List.length str)) in E.
      rewrite length_firstn in E.
      change (List.length (@nil str)) with 0 in E. lia.
    + pose proof (split_pieces TAB line) as Hall.
      rewrite <- (firstn_skipn 6) in Hall.
      now apply Forall_app in Hall.
Qed.

End FieldProperties.

(** ** The sign of the size fields *)

Lemma binary_round_aux_sign_clear (p em : Z) (m e : Z) (l : location) :
  sign_clear (binary_round_aux p em false m e l) = true.
Proof.
  unfold binary_round_aux.
  destruct (shr_fexp p em m e l) as [mrs e'].
  destruct (shr_fexp p em _ e' loc_Exact) as [mrs' e''].
  destruct (shr_m mrs'); [reflexivity| |reflexivity].
  now destruct (Z.leb e'' (em - p)).
Qed.

Lemma round_ratio_sign_clear (n d : Z) :
  sign_clear (round_ratio false n d) = true.
Proof.
  unfold round_ratio.
  destruct (SFdiv_core_binary Num.prec Num.emax n 0 d 0) as [[q e] l].
  apply binary_round_aux_sign_clear.
Qed.

Lemma decimal_float_sign_clear (m e : Z) :
  sign_clear (Num.decimal_float false m e) = true.
Proof.
  unfold Num.decimal_float.
  destruct (Z.eqb m 0); [reflexivity|].
  destruct (Z.leb 0 e); apply round_ratio_sign_clear.
Qed.

Lemma fmul_sign_clear (x y : float) :
  sign_clear x = true -> sign_clear y = true -> sign_clear (fmul x y) = true.
Proof.
  destruct x as [[]|[]| |[] mx ex]; try discriminate;
    destruct y as [[]|[]| |[] my ey]; try discriminate;
    intros _ _; try reflexivity.
  apply binary_round_aux_sign_clear.
Qed.

(** [float] gives no negative number on a run of digits and points. *)
Lemma py_float_sign_clear (g : str) (v : float) :
  g <> [] -> forallb Re.is_numeral_char g = true ->
  py_float g = Ok v -> sign_clear v = true.
Proof.
  intros Hne Hchars. unfold py_float. rewrite strip_by_id.
  - destruct g as [|c r]; [congruence|].
    rewrite sign_numeral_char by exact (forallb_first _ _ _ _ Hchars eq_refl).
    rewrite (lower_numeral_chars _ Hchars).
    rewrite !(numeral_not_word _ _ Hne Hchars) by reflexivity.
    cbv iota beta. simpl orb. cbv iota.
    destruct (Num.number (c :: r)) as [[[ip fp] rest]|]; [|discriminate].
    destruct (Num.exponent rest); [|discriminate].
    intros [= <-]. apply decimal_float_sign_clear.
  - intros c r E. apply numeral_char_not_float_space.
    exact (forallb_first _ _ _ _ Hchars E).
  - intros r d E. apply numeral_char_not_float_space.
    exact (forallb_last _ _ _ _ Hchars E).
Qed.

Lemma multipliers_sign_clear (w : str) :
  sign_clear (to_float (dict_get multipliers w (PyInt 0))) = true.
Proof.
  unfold multipliers, dict_get.
  repeat match goal with
         | |- context [str_eqb w ?k] => destruct (str_eqb w k)
         end; vm_compute; reflexivity.
Qed.

(** No size is negative. *)
Lemma parse_size_sign_clear (s : str) (v : num) :
  parse_size s = Ok v -> sign_clear_num v = true.
Proof.
  unfold parse_size. destruct (_ || _); [now intros [= <-]|].
  destruct (Re.match_size (strip s)) as [[g1 g2]|] eqn:E;
    [|now intros [= <-]].
  destruct (match_size_groups _ _ _ E) as (Hne & Hchars & _).
  destruct (py_float g1) as [x|] eqn:Ex; [|discriminate].
  unfold bind. intros [= <-]. unfold float_mul, sign_clear_num.
  apply fmul_sign_clear.
  - exact (py_float_sign_clear _ _ Hne Hchars Ex).
  - apply multipliers_sign_clear.
Qed.

(** ** The range of the size fields

    The rounding of [SpecFloat] keeps a number below [2^B] below
    [2^(B+1)]; a numeral of at most 300 digits is below [2^997], and the
    multipliers are at most [2^20]. *)

Local Open Scope Z_scope.

Lemma digits2_size (p : positive) : digits2_pos p = Pos.size p.
Proof. induction p; simpl; congruence. Qed.

Lemma Zdigits2_log2 (m : Z) : 0 < m -> Zdigits2 m = Z.log2 m + 1.
Proof.
  destruct m as [|p|p]; try lia. intros _. simpl Zdigits2.
  rewrite digits2_size. destruct p; simpl; lia.
Qed.

Lemma Zdigits2_nonneg (m : Z) : 0 <= Zdigits2 m.
Proof. destruct m; simpl; lia. Qed.

Lemma Zdigits2_le (a b : Z) : 0 <= a <= b -> Zdigits2 a <= Zdigits2 b.
Proof.
  intros H. destruct (Z.eq_dec a 0) as [->|Ha].
  - apply Zdigits2_nonneg.
  - rewrite !Zdigits2_log2 by lia.
    pose proof (Z.log2_le_mono a b). lia.
Qed.

Lemma Zdigits2_succ (m : Z) : 0 <= m -> Zdigits2 (m + 1) <= Zdigits2 m + 1.
Proof.
  intros H. destruct (Z.eq_dec m 0) as [->|Hm]; [simpl; lia|].
  rewrite !Zdigits2_log2 by lia.
  pose proof (Z.log2_succ_le m). unfold Z.succ in *. lia.
Qed.

Lemma shr_1_digits (r : shr_record) :
  0 <= shr_m r ->
  0 <= shr_m (shr_1 r)
  /\ Zdigits2 (shr_m (shr_1 r)) = Z.max 0 (Zdigits2 (shr_m r) - 1).
Proof.
  destruct r as [m r s]. cbn [shr_m].
  destruct m as [|[p|p|]|p]; cbn [shr_1 shr_m Zdigits2 digits2_pos];
    rewrite ?Pos2Z.inj_succ; lia.
Qed.

Lemma iter_shr_1_digits (p : positive) (r : shr_record) :
  0 <= shr_m r ->
  0 <= shr_m (iter_pos shr_1 p r)
  /\ Zdigits2 (shr_m (iter_pos shr_1 p r))
     = Z.max 0 (Zdigits2 (shr_m r) - Zpos p).
Proof.
  revert r. induction p as [p IH|p IH|]; intros r Hr; simpl iter_pos.
  - destruct (shr_1_digits r Hr) as [H1 E1].
    destruct (IH _ H1) as [H2 E2]. destruct (IH _ H2) as [H3 E3].
    split; [exact H3|]. rewrite E3, E2, E1. lia.
  - destruct (IH _ Hr) as [H2 E2]. destruct (IH _ H2) as [H3 E3].
    split; [exact H3|]. rewrite E3, E2. lia.
  - destruct (shr_1_digits r Hr) as [H1 E1]. split; [exact H1|].
    rewrite E1. lia.
Qed.

Lemma shr_record_of_loc_m (m : Z) (l : location) :
  shr_m (shr_record_of_loc m l) = m.
Proof. destruct l as [|[]]; reflexivity. Qed.

Lemma shr_fexp_mag (m e : Z) (l : location) (B : Z) :
  0 <= m -> Zdigits2 m + e <= B -> e <= 971 -> 0 <= B <= 1024 ->
  0 <= shr_m (fst (shr_fexp prec emax m e l))
  /\ Zdigits2 (shr_m (fst (shr_fexp prec emax m e l)))
     + snd (shr_fexp prec emax m e l) <= B
  /\ snd (shr_fexp prec emax m e l) <= 971.
Proof.
  intros Hm Hd He HB. unfold shr_fexp, shr.
  destruct (fexp prec emax (Zdigits2 m + e) - e) as [|p|p] eqn:E;
    simpl fst; simpl snd; rewrite ?shr_record_of_loc_m; try lia.
  destruct (iter_shr_1_digits p (shr_record_of_loc m l)) as [H1 E1];
    [now rewrite shr_record_of_loc_m|].
  rewrite shr_record_of_loc_m in E1.
  split; [exact H1|]. rewrite E1.
  unfold fexp, emin, prec, emax in E. lia.
Qed.

Lemma round_nearest_even_digits (m : Z) (l : location) :
  0 <= m ->
  0 <= round_nearest_even m l
  /\ Zdigits2 (round_nearest_even m l) <= Zdigits2 m + 1.
Proof.
  intros H. pose proof (Zdigits2_succ m H).
  destruct l as [|[]]; simpl; try (destruct (Z.even m)); lia.
Qed.

Lemma binary_round_aux_mag (s : bool) (mx ex : Z) (l : location) (B : Z) :
  0 <= mx -> Zdigits2 mx + ex <= B -> ex <= 971 -> 0 <= B <= 1023 ->
  mag_le (B + 1) (binary_round_aux prec emax s mx ex l).
Proof.
  intros Hm Hd He HB. unfold binary_round_aux.
  pose proof (shr_fexp_mag mx ex l B Hm Hd He ltac:(lia)) as (H1 & D1 & E1).
  destruct (shr_fexp prec emax mx ex l) as [r1 e1]. simpl fst in *. simpl snd in *.
  destruct (round_nearest_even_digits (shr_m r1) (loc_of_shr_record r1) H1)
    as [H2 D2].
  pose proof (shr_fexp_mag (round_nearest_even (shr_m r1) (loc_of_shr_record r1))
                e1 loc_Exact (B + 1) H2 ltac:(lia) E1 ltac:(lia))
    as (H3 & D3 & E3).
  destruct (shr_fexp prec emax _ e1 loc_Exact) as [r2 e2].
  simpl fst in *. simpl snd in *.
  assert (L : Z.leb e2 (emax - prec) = true)
    by (apply Z.leb_le; unfold emax, prec; lia).
  destruct (shr_m r2) as [|p|p]; [exact I| |lia].
  rewrite L. cbn [mag_le]. cbn [Zdigits2] in D3. lia.
Qed.

Lemma round_ratio_mag (s : bool) (n d B : Z) :
  0 < n -> 0 < d -> Zdigits2 n <= B -> 0 <= B <= 1023 ->
  mag_le (B + 1) (round_ratio s n d).
Proof.
  intros Hn Hd Hdig HB. unfold round_ratio, SFdiv_core_binary.
  set (e' := Z.min (fexp prec emax (Zdigits2 n + 0 - (Zdigits2 d + 0))) (0 - 0)).
  assert (He' : e' <= 0) by (unfold e'; lia).
  set (m' := match 0 - 0 - e' with
             | Z.pos _ => Z.shiftl n (0 - 0 - e')
             | 0 => n
             | Z.neg _ => 0
             end).
  assert (Hm' : 0 <= m' /\ Zdigits2 m' + e' <= B).
  { unfold m'. destruct (0 - 0 - e') as [|p|p] eqn:E; try lia.
    rewrite <- E. assert (Hs : 0 < Z.shiftl n (0 - 0 - e')).
    { rewrite Z.shiftl_mul_pow2 by lia.
      apply Z.mul_pos_pos; [lia|]. apply Z.pow_pos_nonneg; lia. }
    split; [lia|]. rewrite (Zdigits2_log2 _ Hs).
    rewrite Z.log2_shiftl by lia. rewrite (Zdigits2_log2 n Hn) in Hdig. lia. }
  destruct Hm' as [Hm0 Hmd].
  pose proof (Z.div_eucl_eq m' d ltac:(lia)) as Heq.
  pose proof (Z.mod_pos_bound m' d Hd) as Hmod.
  unfold Z.modulo in Hmod.
  destruct (Z.div_eucl m' d) as [q r].
  assert (Hq : 0 <= q <= m') by nia.
  apply binary_round_aux_mag; try lia.
  pose proof (Zdigits2_le q m' Hq). lia.
Qed.

Lemma decimal_float_mag (m e B : Z) :
  0 <= m -> e <= 0 -> Zdigits2 m <= B -> 0 <= B <= 1023 ->
  mag_le (B + 1) (decimal_float false m e).
Proof.
  intros Hm He Hd HB. unfold decimal_float.
  destruct (Z.eqb m 0) eqn:E0; [exact I|]. apply Z.eqb_neq in E0.
  destruct (Z.leb 0 e) eqn:E1.
  - apply Z.leb_le in E1. assert (e = 0) by lia. subst e.
    rewrite Z.pow_0_r, Z.mul_1_r. apply round_ratio_mag; lia.
  - apply round_ratio_mag; try lia; apply Z.pow_pos_nonneg; lia.
Qed.

Lemma mag_le_finite (B : Z) (x : float) : mag_le B x -> is_finite x = true.
Proof. destruct x; simpl; intros H; (reflexivity || contradiction). Qed.

(** The product with a power of two at most [2^20] stays in range. *)
Lemma fmul_two_pow_finite (x : float) (B k : Z) :
  mag_le B x -> -52 <= k <= 20 -> 0 <= B + k -> B + k <= 1022 ->
  is_finite (fmul x (two_pow k)) = true.
Proof.
  intros Hx Hk H0 H1. destruct x as [s| | |s m e]; try contradiction.
  - reflexivity.
  - destruct Hx as [Hd He]. unfold fmul, two_pow, SFmul.
    apply (mag_le_finite (B + k + 1 + 1)).
    apply binary_round_aux_mag; try lia.
    pose proof (Z.log2_mul_above (Zpos m) 4503599627370496
                  ltac:(lia) ltac:(lia)) as Hlog.
    change (Z.log2 4503599627370496) with 52 in Hlog.
    rewrite Zdigits2_log2 by lia.
    change (Zpos (digits2_pos m)) with (Zdigits2 (Zpos m)) in Hd.
    rewrite Zdigits2_log2 in Hd by lia.
    rewrite Pos2Z.inj_mul. lia.
Qed.

Lemma fmul_zero_finite (x : float) (B : Z) :
  mag_le B x -> is_finite (fmul x (S754_zero false)) = true.
Proof. destruct x; simpl; intros H; (reflexivity || contradiction). Qed.

Local Close Scope Z_scope.

Lemma digit_val_bound (c : ascii) :
  is_digit c = true -> (0 <= digit_val c <= 9)%Z.
Proof.
  destruct c as [[] [] [] [] [] [] [] []]; try discriminate;
    intros _; vm_compute; split; discriminate.
Qed.

Lemma fold_digits_bound (ds : str) (acc : Z) :
  forallb is_digit ds = true -> (0 <= acc)%Z ->
  (0 <= fold_left (fun a c => 10 * a + digit_val c) ds acc
   < (acc + 1) * 10 ^ Z.of_nat (List.length ds))%Z.
Proof.
  revert acc. induction ds as [|c ds IH]; intros acc Hds Hacc.
  - simpl. lia.
  - simpl in Hds. apply andb_true_iff in Hds as [Hc Hds].
    pose proof (digit_val_bound c Hc) as Hv.
    cbn [fold_left List.length]. rewrite Nat2Z.inj_succ, Z.pow_succ_r by lia.
    specialize (IH (10 * acc + digit_val c)%Z Hds ltac:(lia)).
    assert (0 < 10 ^ Z.of_nat (List.length ds))%Z
      by (apply Z.pow_pos_nonneg; lia).
    nia.
Qed.

Lemma digits_value_bound (ds : str) :
  forallb is_digit ds = true ->
  (0 <= digits_value ds < 10 ^ Z.of_nat (List.length ds))%Z.
Proof.
  intros H. pose proof (fold_digits_bound ds 0 H ltac:(lia)) as B.
  unfold digits_value. lia.
Qed.

Lemma digitpart_tail_takes (n : nat) (s ds r : str) :
  List.length s <= n -> Num.digitpart_tail s = (ds, r) -> takes s ds r.
Proof.
  revert s ds r. induction n as [|n IH]; intros s ds r Hn.
  - destruct s; [|simpl in Hn; lia]. intros [= <- <-].
    split; [reflexivity|]. now exists [].
  - destruct s as [|c s]; [intros [= <- <-]; split; [reflexivity|now exists []]|].
    simpl in Hn. cbn [Num.digitpart_tail].
    destruct (is_digit c) eqn:Hc.
    + destruct (Num.digitpart_tail s) as [ds' r'] eqn:E. intros [= <- <-].
      destruct (IH s ds' r' ltac:(lia) E) as (Hd & pre & -> & Hl).
      split; [simpl; now rewrite Hc, Hd|].
      exists (c :: pre). split; [reflexivity|simpl; lia].
    + destruct (Ascii.eqb c "_");
        [|intros [= <- <-]; split; [reflexivity|now exists []]].
      destruct s as [|d s];
        [intros [= <- <-]; split; [reflexivity|now exists []]|].
      destruct (is_digit d) eqn:Hd;
        [|intros [= <- <-]; split; [reflexivity|now exists []]].
      destruct (Num.digitpart_tail s) as [ds' r'] eqn:E. intros [= <- <-].
      simpl in Hn.
      destruct (IH s ds' r' ltac:(lia) E) as (Hds & pre & -> & Hl).
      split; [simpl; now rewrite Hd, Hds|].
      exists (c :: d :: pre). split; [reflexivity|simpl; lia].
Qed.

Lemma digitpart_takes (s ds r : str) :
  Num.digitpart s = (ds, r) -> takes s ds r.
Proof.
  unfold Num.digitpart. destruct s as [|c s];
    [intros [= <- <-]; split; [reflexivity|now exists []]|].
  destruct (is_digit c) eqn:Hc;
    [|intros [= <- <-]; split; [reflexivity|now exists []]].
  destruct (Num.digitpart_tail s) as [ds' r'] eqn:E. intros [= <- <-].
  destruct (digitpart_tail_takes _ s ds' r' (le_n _) E) as (Hd & pre & -> & Hl).
  split; [simpl; now rewrite Hc, Hd|].
  exists (c :: pre). split; [reflexivity|simpl; lia].
Qed.

Lemma number_takes (s ip fp rest : str) :
  Num.number s = Some (ip, fp, rest) ->
  forallb is_digit (ip ++ fp) = true
  /\ List.length (ip ++ fp) <= List.length s
  /\ exists pre, s = pre ++ rest.
Proof.
  unfold Num.number.
  destruct (Num.digitpart s) as [ip' r] eqn:E1.
  destruct (digitpart_takes _ _ _ E1) as (Hip & pre & -> & Hl).
  assert (Hplain : (if is_nil ip' then None else Some (ip', [], r))
                   = Some (ip, fp, rest) ->
                   forallb is_digit (ip ++ fp) = true
                   /\ List.length (ip ++ fp) <= List.length (pre ++ r)
                   /\ exists pre0, pre ++ r = pre0 ++ rest).
  { destruct (is_nil ip'); [discriminate|]. intros [= <- <- <-].
    rewrite app_nil_r, length_app. split; [exact Hip|].
    split; [lia|now exists pre]. }
  destruct r as [|c r1]; [exact Hplain|].
  destruct (Ascii.eqb c ".") eqn:Ec.
  - apply Ascii.eqb_eq in Ec. subst c.
    destruct (Num.digitpart r1) as [fp' r2] eqn:E2.
    destruct (digitpart_takes _ _ _ E2) as (Hfp & pre2 & -> & Hl2).
    destruct (is_nil ip' && is_nil fp'); [discriminate|].
    intros [= <- <- <-]. rewrite forallb_app, Hip, Hfp.
    split; [reflexivity|]. split.
    + rewrite !length_app. simpl. rewrite length_app. lia.
    + exists (pre ++ "."%char :: pre2). now rewrite <- app_assoc.
  - intros H. apply Hplain. revert H.
    destruct c as [[] [] [] [] [] [] [] []]; try discriminate Ec; exact (fun H => H).
Qed.

Lemma exponent_numeral (rest : str) (e : Z) :
  forallb Re.is_numeral_char rest = true ->
  Num.exponent rest = Some e -> e = 0%Z.
Proof.
  destruct rest as [|c r]; simpl; [now intros _ [= <-]|].
  intros [Hc _]%andb_true_iff.
  assert (E : Ascii.eqb c "e" || Ascii.eqb c "E" = false).
  { revert Hc. destruct c as [[] [] [] [] [] [] [] []];
      (reflexivity || discriminate). }
  rewrite E. discriminate.
Qed.

Lemma pow10_300 : (10 ^ 300 < 2 ^ 997)%Z.
Proof. reflexivity. Qed.

(** A run of at most 300 digits and points that [float] reads is read as a
    number below [2^998]. *)
Lemma py_float_mag (g : str) (v : float) :
  g <> [] -> forallb Re.is_numeral_char g = true ->
  List.length g <= 300 ->
  py_float g = Ok v -> mag_le 998 v.
Proof.
  intros Hne Hchars Hlen. unfold py_float. rewrite strip_by_id.
  - destruct g as [|c r]; [congruence|].
    rewrite sign_numeral_char by exact (forallb_first _ _ _ _ Hchars eq_refl).
    rewrite (lower_numeral_chars _ Hchars).
    rewrite !(numeral_not_word _ _ Hne Hchars) by reflexivity.
    cbv iota beta. simpl orb. cbv iota.
    destruct (Num.number (c :: r)) as [[[ip fp] rest]|] eqn:En; [|discriminate].
    destruct (number_takes _ _ _ _ En) as (Hd & Hl & pre & Hpre).
    destruct (Num.exponent rest) as [e|] eqn:Ee; [|discriminate].
    assert (He : e = 0%Z).
    { apply (exponent_numeral rest); [|exact Ee].
      rewrite Hpre, forallb_app in Hchars.
      now apply andb_true_iff in Hchars. }
    subst e. intros [= <-].
    pose proof (digits_value_bound _ Hd) as Hv.
    apply (decimal_float_mag _ _ 997); try lia.
    destruct (Z.eq_dec (digits_value (ip ++ fp)) 0) as [->|Hnz];
      [simpl; lia|].
    rewrite Zdigits2_log2 by lia.
    assert (digits_value (ip ++ fp) < 2 ^ 997)%Z.
    { pose proof pow10_300.
      assert (10 ^ Z.of_nat (List.length (ip ++ fp)) <= 10 ^ 300)%Z
        by (apply Z.pow_le_mono_r; lia).
      lia. }
    apply Z.log2_lt_pow2 in H; lia.
  - intros c r E. apply numeral_char_not_float_space.
    exact (forallb_first _ _ _ _ Hchars E).
  - intros r d E. apply numeral_char_not_float_space.
    exact (forallb_last _ _ _ _ Hchars E).
Qed.

Lemma finite_sign_clear (x : float) :
  is_finite x = true -> sign_clear x = true -> finite_nonneg x = true.
Proof. destruct x as [[]|[]| |[] m e]; simpl; congruence. Qed.

Lemma multipliers_cases (w : str) :
  (exists k, (-52 <= k <= 20)%Z
             /\ to_float (dict_get multipliers w (PyInt 0)) = two_pow k)
  \/ to_float (dict_get multipliers w (PyInt 0)) = S754_zero false.
Proof.
  unfold multipliers, dict_get.
  repeat match goal with
         | |- context [str_eqb w ?k] => destruct (str_eqb w k)
         end;
    first [ right; reflexivity
          | left; exists (-20)%Z; split; [lia|vm_compute; reflexivity]
          | left; exists (-10)%Z; split; [lia|vm_compute; reflexivity]
          | left; exists 0%Z; split; [lia|vm_compute; reflexivity]
          | left; exists 10%Z; split; [lia|vm_compute; reflexivity]
          | left; exists 20%Z; split; [lia|vm_compute; reflexivity] ].
Qed.

Lemma drop_while_length (p : ascii -> bool) (s : str) :
  List.length (drop_while p s) <= List.length s.
Proof.
  induction s as [|c r IH]; simpl; [lia|]. destruct (p c); simpl; lia.
Qed.

Lemma strip_length (s : str) : List.length (strip s) <= List.length s.
Proof.
  unfold strip, strip_by. rewrite length_rev.
  pose proof (drop_while_length is_space (rev (drop_while is_space s))).
  pose proof (drop_while_length is_space s).
  rewrite length_rev in *. lia.
Qed.

Lemma match_size_short (s g1 g2 : str) :
  short s -> Re.match_size (strip s) = Some (g1, g2) -> List.length g1 <= 300.
Proof.
  intros Hs E. unfold Re.match_size in E.
  destruct (Re.span Re.is_numeral_char (strip s)) as [a r] eqn:E1.
  destruct (span_forallb _ _ _ _ E1) as [_ Hs'].
  destruct a as [|c a]; [discriminate|].
  destruct (Re.span is_alpha r) as [[|d b] r']; [discriminate|].
  injection E as <- _. pose proof (strip_length s) as Hl.
  rewrite Hs', length_app in Hl. unfold short in Hs. lia.
Qed.

(** A size token of at most 300 characters gives a finite size. *)
Lemma parse_size_finite (s : str) (v : num) :
  short s -> parse_size s = Ok v -> finite_nonneg_num v = true.
Proof.
  intros Hs H. pose proof (parse_size_sign_clear _ _ H) as Hsign.
  revert H Hsign. unfold parse_size.
  destruct (_ || _); [now intros [= <-]|].
  destruct (Re.match_size (strip s)) as [[g1 g2]|] eqn:E;
    [|now intros [= <-]].
  destruct (match_size_groups _ _ _ E) as (Hne & Hchars & _).
  pose proof (match_size_short _ _ _ Hs E) as Hlen.
  destruct (py_float g1) as [x|] eqn:Ex; [|discriminate].
  pose proof (py_float_mag _ _ Hne Hchars Hlen Ex) as Hmag.
  unfold bind, float_mul. cbv zeta.
  pose proof (multipliers_cases (lower g2)) as Hmult.
  set (mult := dict_get multipliers (lower g2) (PyInt 0)) in *.
  clearbody mult. intros [= <-].
  cbn [sign_clear_num finite_nonneg_num].
  intros Hsign. apply finite_sign_clear; [|exact Hsign].
  destruct Hmult as [(k & Hk & ->) | ->].
  - apply (fmul_two_pow_finite x 998 k Hmag); lia.
  - exact (fmul_zero_finite x 998 Hmag).
Qed.

Lemma delete_from_length (m : str -> option nat) (skip : nat) (s : str) :
  List.length (delete_from m skip s) <= List.length s.
Proof.
  revert skip. induction s as [|c r IH]; intros skip; simpl; [lia|].
  destruct skip as [|k].
  - destruct (m (c :: r)) as [n|].
    + specialize (IH (n - 1)). lia.
    + specialize (IH 0). simpl. lia.
  - specialize (IH k). lia.
Qed.

Lemma remove_length (old s : str) :
  List.length (remove old s) <= List.length s.
Proof. apply delete_from_length. Qed.

Lemma clean_line_length (line : str) :
  List.length (clean_line line) <= List.length line.
Proof.
  unfold clean_line, delete_matches.
  pose proof (strip_length
                (delete_from Ctrl.marker 0 (delete_from Ctrl.sequence 0 line))).
  pose proof (delete_from_length Ctrl.marker 0
                (delete_from Ctrl.sequence 0 line)).
  pose proof (delete_from_length Ctrl.sequence 0 line). lia.
Qed.

Lemma split_length (sep : ascii) (s : str) :
  Forall (fun p => List.length p <= List.length s) (split sep s).
Proof.
  induction s as [|c r IH]; simpl.
  - constructor; [simpl; lia|constructor].
  - assert (IH' : Forall (fun p => List.length p <= S (List.length r))
                    (split sep r)).
    { eapply Forall_impl; [|exact IH]. simpl. intros; lia. }
    destruct (Ascii.eqb c sep); [constructor; [simpl; lia|exact IH']|].
    destruct (split sep r) as [|p ps]; [constructor; [simpl; lia|constructor]|].
    inversion IH as [|? ? Hp Hps]; subst.
    inversion IH' as [|? ? Hp' Hps']; subst.
    constructor; [simpl; lia|exact Hps'].
Qed.

Lemma index_In {A : Type} (l : list A) (i : nat) (a : A) :
  index l i = Ok a -> In a l.
Proof.
  unfold index. destruct (nth_error l i) eqn:E; [|discriminate].
  intros [= <-]. eapply nth_error_In, E.
Qed.

(** The sides of a pair field are no longer than the line. *)
Lemma piece_short (parts : list str) (j i : nat) (tag p x : str) :
  Forall short parts ->
  index parts j = Ok p ->
  index (split "/" (remove tag p)) i = Ok x ->
  short (strip x).
Proof.
  intros Hparts Hp Hx. unfold short in *.
  apply index_In in Hp, Hx.
  pose proof (proj1 (Forall_forall _ _) Hparts p Hp) as H1.
  pose proof (proj1 (Forall_forall _ _) (split_length "/" (remove tag p)) x Hx)
    as H2.
  pose proof (remove_length tag p). pose proof (strip_length x).
  simpl in *. lia.
Qed.

Lemma columns_short (line : str) :
  short line -> Forall short (split TAB (clean_line line)).
Proof.
  intros H. eapply Forall_impl; [|apply split_length].
  unfold short in *. simpl. intros p Hp.
  pose proof (clean_line_length line). lia.
Qed.



Section SampleProperties.

Variable Timestamp : Type.
Variable to_datetime : str -> result Timestamp.

Lemma parse_entry_sizes (parts : list str) (e : entry Timestamp) :
  parse_entry to_datetime parts = Ok e -> sizes_sign_clear e = true.
Proof.
  unfold parse_entry, sizes_sign_clear.
  repeat match goal with
         | |- bind ?r _ = Ok _ -> _ =>
             let E := fresh "E" in
             destruct r eqn:E; [unfold bind at 1|discriminate]
         | |- (let _ := _ in _) = Ok _ -> _ => cbv zeta
         | |- (if ?b then _ else _) = Ok _ -> _ => destruct b
         | E : parse_size _ = Ok _ |- _ =>
             apply parse_size_sign_clear in E
         end;
    intros [= <-]; simpl;
    repeat match goal with
           | E : sign_clear_num _ = true |- _ => rewrite E; clear E
           end; reflexivity.
Qed.

Lemma parse_line_sizes (line : str) (e : entry Timestamp) :
  parse_line to_datetime line = Ok (Some e) -> sizes_sign_clear e = true.
Proof.
  unfold parse_line, parse_fields.
  destruct (is_nil (strip line)); [discriminate|].
  destruct (Nat.ltb _ 5); [discriminate|].
  destruct (parse_entry to_datetime _) as [e'|[]] eqn:E; try discriminate.
  intros [= <-]. exact (parse_entry_sizes _ _ E).
Qed.

Lemma parse_lines_sizes (lines : list str) (data out : list (entry Timestamp)) :
  forallb (@sizes_sign_clear Timestamp) data = true ->
  parse_lines to_datetime lines data = Ok out ->
  forallb (@sizes_sign_clear Timestamp) out = true.
Proof.
  revert data. induction lines as [|l lines IH]; intros data Hdata; simpl.
  - now intros [= <-].
  - destruct (parse_line to_datetime l) as [[e|]|x] eqn:E;
      [| now apply IH | discriminate].
    apply IH. rewrite forallb_app, Hdata. simpl.
    now rewrite (parse_line_sizes _ _ E).
Qed.

Lemma parse_entry_finite (parts : list str) (e : entry Timestamp) :
  Forall short parts ->
  parse_entry to_datetime parts = Ok e -> sizes_finite e = true.
Proof.
  intros Hparts. unfold parse_entry, sizes_finite.
  repeat match goal with
         | |- bind ?r _ = Ok _ -> _ =>
             let E := fresh "E" in
             destruct r eqn:E; [unfold bind at 1|discriminate]
         | |- (let _ := _ in _) = Ok _ -> _ => cbv zeta
         | |- (if ?b then _ else _) = Ok _ -> _ => destruct b
         end;
    repeat match goal with
           | Hp : index parts _ = Ok ?p,
             Hx : index (split _ (remove _ ?p)) _ = Ok ?x,
             E : parse_size (strip ?x) = Ok _ |- _ =>
               apply (parse_size_finite _ _ (piece_short _ _ _ _ _ _ Hparts Hp Hx))
                 in E
           end;
    intros [= <-]; simpl;
    repeat match goal with
           | E : finite_nonneg_num _ = true |- _ => rewrite E; clear E
           end; reflexivity.
Qed.

Lemma parse_line_finite (line : str) (e : entry Timestamp) :
  short line ->
  parse_line to_datetime line = Ok (Some e) -> sizes_finite e = true.
Proof.
  intros Hs. unfold parse_line, parse_fields.
  destruct (is_nil (strip line)); [discriminate|].
  destruct (Nat.ltb _ 5); [discriminate|].
  destruct (parse_entry to_datetime _) as [e'|[]] eqn:E; try discriminate.
  intros [= <-]. exact (parse_entry_finite _ _ (columns_short _ Hs) E).
Qed.

Lemma parse_lines_finite (lines : list str) (data out : list (entry Timestamp)) :
  Forall short lines ->
  forallb (@sizes_finite Timestamp) data = true ->
  parse_lines to_datetime lines data = Ok out ->
  forallb (@sizes_finite Timestamp) out = true.
Proof.
  intros Hlines. revert data.
  induction Hlines as [|l lines Hl Hlines IH]; intros data Hdata; simpl.
  - now intros [= <-].
  - destruct (parse_line to_datetime l) as [[e|]|x] eqn:E;
      [| now apply IH | discriminate].
    apply IH. rewrite forallb_app, Hdata. simpl.
    now rewrite (parse_line_finite _ _ Hl E).
Qed.

Lemma parse_line_raise_dropped (raw : str) (e : exn) :
  parse_entry to_datetime (split TAB (clean_line raw)) = Raise e ->
  caught e ->
  parse_line to_datetime raw = Ok None.
Proof.
  intros H Hc. unfold parse_line, parse_fields.
  destruct (is_nil (strip raw)); [reflexivity|].
  destruct (Nat.ltb _ 5); [reflexivity|].
  rewrite H. now destruct Hc as [-> | ->].
Qed.

(** C3, as the code has it.  No range is checked.  The six size fields of
    a sample are never negative: the sign bit is clear, or the field is
    NaN.  They are finite and not negative in every sample when no line is
    longer than 300 characters, so that no numeral leaves the range of a
    double.  A line on which a conversion raises [ValueError] or
    [IndexError] adds nothing to the collection. *)
Theorem samples_size_fields :
  (forall lines df,
     parse_docker_stats to_datetime lines = Ok df ->
     forallb (@sizes_sign_clear Timestamp) (rows df) = true)
  /\ (forall lines df,
        Forall short lines ->
        parse_docker_stats to_datetime lines = Ok df ->
        forallb (@sizes_finite Timestamp) (rows df) = true)
  /\ (forall raw e pre post,
        parse_entry to_datetime (split TAB (clean_line raw)) = Raise e ->
        e = ValueError \/ e = IndexError ->
        parse_docker_stats to_datetime (pre ++ raw :: post)
        = parse_docker_stats to_datetime (pre ++ post)).
Proof.
  split; [|split].
  - intros lines df. unfold parse_docker_stats.
    destruct (parse_lines to_datetime lines []) as [out|] eqn:E;
      [|discriminate].
    simpl. intros [= <-]. simpl.
    exact (parse_lines_sizes lines [] out eq_refl E).
  - intros lines df Hshort. unfold parse_docker_stats.
    destruct (parse_lines to_datetime lines []) as [out|] eqn:E;
      [|discriminate].
    simpl. intros [= <-]. simpl.
    exact (parse_lines_finite lines [] out Hshort eq_refl E).
  - intros raw e pre post H Hc. unfold parse_docker_stats.
    now rewrite (parse_lines_skip _ to_datetime raw pre post []
                   (parse_line_raise_dropped raw e H Hc)).
Qed.

(** C9. The example line of the specification gives the sample [web],
    12.5, 128, 512, 1/1024, 2/1024, 0, 0, once [pd.to_datetime] has read
    its first column. *)
Theorem example_line_sample (ts : Timestamp) :
  to_datetime (lit "2024-01-01T00:00:00") = Ok ts ->
  parse_docker_stats to_datetime [example_line]
  = Ok (make_frame [example_sample ts]).
Proof.
  intros Hts.
  assert (E1 : is_nil (strip example_line) = false)
    by (vm_compute; reflexivity).
  assert (E2 : split TAB (clean_line example_line)
               = [ lit "2024-01-01T00:00:00"; lit "name=web";
                   lit "cpu=12.5%"; lit "mem=128MiB/512MiB";
                   lit "net=1KiB/2KiB"; lit "block=0B/0B" ])
    by (vm_compute; reflexivity).
  unfold parse_docker_stats, parse_lines, parse_line, parse_fields.
  rewrite E1, E2. unfold parse_entry, index.
  cbn [nth_error bind]. rewrite Hts.
  vm_compute. reflexivity.
Qed.

(** *** The renderer on a frame with its columns *)

Lemma getitem_full {A : Type} (df : DataFrame Timestamp) (key : string)
  (field : entry Timestamp -> A) :
  full df ->
  existsb (str_eqb (lit key)) entry_keys = true ->
  getitem df (lit key) field = Ok (map field (rows df)).
Proof. intros Hf Hk. unfold getitem. now rewrite Hf, Hk. Qed.

Lemma index_colors (i : nat) :
  exists color, index colors (i mod List.length colors) = Ok color.
Proof.
  unfold index.
  destruct (nth_error colors (i mod List.length colors)) as [c|] eqn:E.
  - now exists c.
  - apply nth_error_None in E.
    pose proof (Nat.mod_upper_bound i (List.length colors)
                  ltac:(discriminate)). lia.
Qed.

Lemma container_traces_full (df : DataFrame Timestamp) (i : nat)
  (container : str) :
  full df ->
  exists ts, container_traces df i container = Ok ts /\ List.length ts = 6.
Proof.
  intros Hf. unfold container_traces, select.
  rewrite (getitem_full df "name" (@name Timestamp) Hf eq_refl).
  cbn [bind]. destruct (index_colors i) as [color ->]. cbn [bind].
  unfold scatter.
  rewrite !getitem_full by (reflexivity || exact Hf).
  cbn [bind]. eexists. split; reflexivity.
Qed.

Lemma add_containers_full (df : DataFrame Timestamp)
  (containers : list str) (i : nat) (acc : list (trace Timestamp)) :
  full df ->
  exists ts, add_containers df i containers acc = Ok ts
             /\ List.length ts
                = List.length acc + 6 * List.length containers.
Proof.
  intros Hf. revert i acc.
  induction containers as [|c rest IH]; intros i acc; simpl.
  - exists acc. split; [reflexivity|lia].
  - destruct (container_traces_full df i c Hf) as (ts & -> & Hlen).
    cbn [bind]. destruct (IH (S i) (acc ++ ts)) as (out & -> & Hout).
    exists out. split; [reflexivity|]. rewrite Hout, length_app. lia.
Qed.

(** A collection that is not empty is rendered: six traces for each
    container. *)
Lemma create_visualization_nonempty (data : list (entry Timestamp)) :
  data <> [] ->
  exists fig,
    create_visualization (make_frame data) = Ok fig
    /\ List.length (traces fig)
       = 6 * List.length (unique (map (@name Timestamp) data)).
Proof.
  intros Hne.
  assert (Hf : full (make_frame data)) by (now destruct data).
  unfold create_visualization.
  rewrite (getitem_full _ "name" (@name Timestamp) Hf eq_refl).
  cbn [bind].
  destruct (add_containers_full (make_frame data)
              (unique (map (@name Timestamp) (rows (make_frame data))))
              0 [] Hf) as (ts & -> & Hlen).
  cbn [bind]. eexists. split; [reflexivity|]. simpl in *. lia.
Qed.

(** A frame with the ten columns and no row is rendered too, without any
    trace: what the renderer cannot take is the frame without columns. *)
Lemma create_visualization_no_rows :
  exists fig,
    create_visualization {| columns := entry_keys; rows := @nil (entry Timestamp) |}
    = Ok fig /\ traces fig = [].
Proof. eexists. split; reflexivity. Qed.

(** C5. On the frame of an empty collection [create_visualization] raises
    [KeyError]: the frame has no column [name]. *)
Theorem create_visualization_empty :
  parse_docker_stats to_datetime [] = Ok (make_frame [])
  /\ create_visualization (make_frame (@nil (entry Timestamp)))
     = Raise KeyError.
Proof. split; reflexivity. Qed.

End SampleProperties.

(** C3. A negative cpu column and a numeral beyond the range of a double
    both yield samples: the first has a negative [cpu], the second an
    infinite [mem_used]. *)
Lemma sample_invariant_violated :
  exists df,
    parse_docker_stats iso_datetime [negative_cpu_line; huge_mem_line] = Ok df
    /\ map (fun e => finite_nonneg (cpu e)) (rows df) = [false; true]
    /\ map (fun e => finite_nonneg_num (mem_used e)) (rows df) = [true; false]
    /\ forallb (@sample_invariant _) (rows df) = false.
Proof.
  vm_compute. eexists. repeat split; reflexivity.
Qed.

(** ** Instances on concrete inputs *)

Lemma iso_datetime_caught (s : str) (e : exn) :
  iso_datetime s = Raise e -> e = ValueError \/ e = IndexError.
Proof.
  unfold iso_datetime. destruct (iso_fields s); [discriminate|].
  intros [= <-]. now left.
Defined.

Lemma short_line_dropped_witness :
  List.length (split TAB short_line) < 5
  /\ parse_fields iso_datetime short_line = Ok None.
Proof.
  split; [vm_compute; lia|].
  apply (short_line_dropped _ iso_datetime short_line).
  vm_compute; lia.
Defined.

Lemma parse_docker_stats_filter_map_witness :
  (forall s e, iso_datetime s = Raise e -> e = ValueError \/ e = IndexError)
  /\ parse_docker_stats iso_datetime example_log
     = Ok (make_frame (filter_map_opt (line_sample iso_datetime) example_log)).
Proof.
  split; [exact iso_datetime_caught|].
  apply (parse_docker_stats_filter_map _ iso_datetime example_log).
  exact iso_datetime_caught.
Defined.

Lemma samples_size_fields_witness :
  Forall short [example_line]
  /\ forallb (@sizes_finite _)
       (rows (make_frame [example_sample (2024, 1, 1, 0, 0, 0)%Z])) = true.
Proof.
  assert (Hshort : Forall short [example_line]).
  { constructor; [|constructor]. unfold short. vm_compute.
    repeat constructor. }
  split; [exact Hshort|].
  apply (proj1 (proj2 (samples_size_fields _ iso_datetime)) [example_line]);
    [exact Hshort|].
  vm_compute. reflexivity.
Defined.

Lemma example_line_sample_witness :
  iso_datetime (lit "2024-01-01T00:00:00") = Ok (2024, 1, 1, 0, 0, 0)%Z
  /\ parse_docker_stats iso_datetime [example_line]
     = Ok (make_frame [example_sample (2024, 1, 1, 0, 0, 0)%Z]).
Proof.
  split; [reflexivity|].
  apply (example_line_sample _ iso_datetime). reflexivity.
Defined.

Lemma missing_block_defaults_witness :
  exists e,
    parse_line iso_datetime negative_cpu_line = Ok (Some e)
    /\ block_in e = PyInt 0 /\ block_out e = PyInt 0.
Proof.
  eexists. split.
  - apply (missing_block_defaults _ iso_datetime negative_cpu_line
             (lit "2024-01-01T00:00:00") (lit "name=web") (lit "cpu=-5%")
             (lit "mem=1MiB/2MiB") (lit "net=1KiB/2KiB")
             (2024, 1, 1, 0, 0, 0)%Z
             (S754_finite true 5629499534213120 (-50))
             (PyFloat (two_pow 0)) (PyFloat (two_pow 1))
             (PyFloat (two_pow (-10))) (PyFloat (two_pow (-9))));
      vm_compute; reflexivity.
  - split; reflexivity.
Defined.

Lemma extra_columns_ignored_witness :
  6 < List.length (split TAB (join TAB [example_line; lit "pids=12"; lit "extra"]))
  /\ parse_fields iso_datetime (join TAB [example_line; lit "pids=12"; lit "extra"])
     = parse_fields iso_datetime example_line
  /\ parse_fields iso_datetime example_line
     = Ok (Some (example_sample (2024, 1, 1, 0, 0, 0)%Z)).
Proof.
  split; [vm_compute; lia|]. split; [|vm_compute; reflexivity].
  apply (extra_columns_ignored _ iso_datetime
           (join TAB [example_line; lit "pids=12"; lit "extra"])).
  vm_compute; lia.
Defined.

(** * Further properties *)

(** ** [parse_size] and the text around the token *)

Lemma drop_while_suffix (p : ascii -> bool) (s : str) :
  exists pre, s = pre ++ drop_while p s /\ forallb p pre = true.
Proof.
  induction s as [|c r (pre & E & Hp)]; [now exists []|]. simpl.
  destruct (p c) eqn:Hc.
  - exists (c :: pre). split; [now rewrite E at 1|]. simpl. now rewrite Hc.
  - now exists [].
Qed.

(** What [strip] returns has no whitespace at its ends. *)
Lemma strip_by_first (p : ascii -> bool) (s : str) (c : ascii) (r : str) :
  strip_by p s = c :: r -> p c = false.
Proof.
  unfold strip_by. intros H.
  destruct (drop_while_suffix p (rev (drop_while p s))) as (pre & E & _).
  apply (f_equal (@rev ascii)) in E.
  rewrite rev_involutive, rev_app_distr, H in E.
  simpl in E. now apply drop_while_head in E.
Qed.

Lemma strip_by_last (p : ascii -> bool) (s r : str) (d : ascii) :
  strip_by p s = r ++ [d] -> p d = false.
Proof.
  unfold strip_by. intros H. apply (f_equal (@rev ascii)) in H.
  rewrite rev_involutive, rev_app_distr in H. simpl in H.
  now apply drop_while_head in H.
Qed.

Lemma strip_idempotent (s : str) : strip (strip s) = strip s.
Proof.
  apply strip_id.
  - intros c r E. exact (strip_by_first _ _ _ _ E).
  - intros r d E. exact (strip_by_last _ _ _ _ E).
Qed.

(** X1. Whitespace around a size token does not change what [parse_size]
    returns, unless the trimmed token is the literal [0B] (which is the
    int 0 only when nothing surrounds it). *)
Theorem parse_size_strip (s : str) :
  strip s <> lit "0B" -> parse_size s = parse_size (strip s).
Proof.
  intros H. unfold parse_size at 2. rewrite strip_idempotent.
  assert (E2 : str_eqb (strip s) (lit "0B") = false).
  { destruct (str_eqb (strip s) (lit "0B")) eqn:E; [|reflexivity].
    now apply str_eqb_eq in E. }
  rewrite E2, orb_false_r. unfold parse_size.
  destruct s as [|c r]; [reflexivity|]. cbn [is_nil orb].
  destruct (str_eqb (c :: r) (lit "0B")) eqn:E.
  - apply str_eqb_eq in E. rewrite E in H. now elim H.
  - destruct (strip (c :: r)); reflexivity.
Qed.

Lemma drop_while_app_stop (p : ascii -> bool) (x y : str) :
  (forall c r, y = c :: r -> p c = false) ->
  drop_while p (x ++ y) = drop_while p x ++ y.
Proof.
  intros Hy. induction x as [|c x IH]; simpl.
  - destruct y as [|d y]; [reflexivity|]. simpl. now rewrite (Hy d y eq_refl).
  - destruct (p c); [exact IH|reflexivity].
Qed.

(** Trimming a text that starts with a token without whitespace at its
    ends trims what follows the token. *)
Lemma strip_by_token (p : ascii -> bool) (a rest : str) :
  (forall c r, a = c :: r -> p c = false) ->
  (forall r d, a = r ++ [d] -> p d = false) ->
  a <> [] ->
  strip_by p (a ++ rest) = a ++ rev (drop_while p (rev rest)).
Proof.
  intros Hfirst Hlast Hne. unfold strip_by.
  destruct a as [|c a']; [congruence|].
  change ((c :: a') ++ rest) with (c :: (a' ++ rest)).
  rewrite drop_while_keeps by (eapply Hfirst; reflexivity).
  change (c :: a' ++ rest) with ((c :: a') ++ rest).
  rewrite rev_app_distr, drop_while_app_stop.
  - now rewrite rev_app_distr, rev_involutive.
  - intros d r E. apply (Hlast (rev r) d).
    rewrite <- (rev_involutive (c :: a')), E. reflexivity.
Qed.

Lemma rev_drop_while_prefix (p : ascii -> bool) (s : str) :
  exists post, s = rev (drop_while p (rev s)) ++ post.
Proof.
  destruct (drop_while_suffix p (rev s)) as (pre & E & _).
  exists (rev pre). apply (f_equal (@rev ascii)) in E.
  now rewrite rev_involutive, rev_app_distr in E.
Qed.

(** The pattern reads the numeral and the unit, whatever follows the
    letters of the unit. *)
Lemma match_size_prefix (g1 g2 rest : str) :
  g1 <> [] -> forallb Re.is_numeral_char g1 = true ->
  g2 <> [] -> forallb is_alpha g2 = true ->
  (forall c r, rest = c :: r -> is_alpha c = false) ->
  Re.match_size (g1 ++ g2 ++ rest) = Some (g1, g2).
Proof.
  intros H1 Hc1 H2 Hc2 Hrest. unfold Re.match_size.
  rewrite span_app; trivial.
  - rewrite (span_app _ _ _ Hc2 Hrest).
    destruct g1; [congruence|]. destruct g2; [congruence|]. reflexivity.
  - intros c r E. destruct g2 as [|d g2]; [congruence|].
    injection E as <- _. apply alpha_not_numeral_char.
    exact (forallb_first _ _ _ _ Hc2 eq_refl).
Qed.

(** A token of the pattern, alone: the numeral is converted, the unit
    looked up in lower case. *)
Lemma parse_size_token (g1 g2 : str) :
  g1 <> [] -> forallb Re.is_numeral_char g1 = true ->
  g2 <> [] -> forallb is_alpha g2 = true ->
  g1 ++ g2 <> lit "0B" ->
  parse_size (g1 ++ g2)
  = (value <- py_float g1 ;;
     Ok (float_mul value (dict_get multipliers (lower g2) (PyInt 0)))).
Proof.
  intros H1 Hc1 H2 Hc2 H0B.
  assert (Hfirst : forall c r, g1 ++ g2 = c :: r -> is_space c = false).
  { intros c r E. destruct g1 as [|d g1]; [congruence|]. injection E as <- _.
    apply numeral_char_not_space. exact (forallb_first _ _ _ _ Hc1 eq_refl). }
  assert (Hlast : forall r d, g1 ++ g2 = r ++ [d] -> is_space d = false).
  { intros r d E. apply alpha_not_space.
    destruct (exists_last H2) as (g2' & d' & ->).
    rewrite app_assoc in E. apply app_inj_tail in E as [_ <-].
    exact (forallb_last _ _ _ _ Hc2 eq_refl). }
  unfold parse_size.
  assert (E : str_eqb (g1 ++ g2) (lit "0B") = false).
  { destruct (str_eqb _ _) eqn:E; [|reflexivity].
    now apply str_eqb_eq in E. }
  assert (En : is_nil (g1 ++ g2) = false)
    by (destruct g1; [congruence|reflexivity]).
  rewrite E, En. cbn [orb].
  rewrite (strip_id _ Hfirst Hlast).
  now rewrite match_size_numeral_unit.
Qed.

(** X2. [parse_size] reads the numeral and the unit at the start of the
    token and ignores what follows the letters of the unit: [12MB/s] is
    read as [12MB]. *)
Theorem parse_size_ignores_rest (g1 g2 rest : str) :
  g1 <> [] -> forallb Re.is_numeral_char g1 = true ->
  g2 <> [] -> forallb is_alpha g2 = true ->
  (forall c r, rest = c :: r -> is_alpha c = false) ->
  g1 ++ g2 <> lit "0B" ->
  parse_size (g1 ++ g2 ++ rest) = parse_size (g1 ++ g2).
Proof.
  intros H1 Hc1 H2 Hc2 Hrest H0B.
  assert (Hfirst : forall c r, g1 ++ g2 = c :: r -> is_space c = false).
  { intros c r E. destruct g1 as [|d g1]; [congruence|]. injection E as <- _.
    apply numeral_char_not_space. exact (forallb_first _ _ _ _ Hc1 eq_refl). }
  assert (Hlast : forall r d, g1 ++ g2 = r ++ [d] -> is_space d = false).
  { intros r d E. apply alpha_not_space.
    destruct (exists_last H2) as (g2' & d' & ->).
    rewrite app_assoc in E. apply app_inj_tail in E as [_ <-].
    exact (forallb_last _ _ _ _ Hc2 eq_refl). }
  assert (Hne : g1 ++ g2 <> []) by (destruct g1; [congruence|discriminate]).
  pose proof (parse_size_token g1 g2 H1 Hc1 H2 Hc2 H0B) as Hleft.
  rewrite Hleft. unfold parse_size.
  assert (E : is_nil (g1 ++ g2 ++ rest)
              || str_eqb (g1 ++ g2 ++ rest) (lit "0B") = false).
  { destruct rest as [|c rest]; [rewrite app_nil_r|].
    - assert (En : is_nil (g1 ++ g2) = false)
        by (destruct g1; [congruence|reflexivity]).
      rewrite En. cbn [orb].
      destruct (str_eqb _ _) eqn:E; [|reflexivity].
      apply str_eqb_eq in E. congruence.
    - destruct g1 as [|a g1]; [congruence|]. destruct g2 as [|b g2]; [congruence|].
      cbn [is_nil orb app]. destruct (str_eqb _ _) eqn:E; [|reflexivity].
      apply str_eqb_eq in E. apply (f_equal (@List.length ascii)) in E.
      change (List.length (lit "0B")) with 2 in E.
      cbn [List.length] in E.
      repeat (rewrite length_app in E; cbn [List.length] in E). lia. }
  rewrite E. rewrite app_assoc.
  unfold strip. rewrite (strip_by_token is_space _ rest Hfirst Hlast Hne).
  rewrite <- app_assoc.
  rewrite match_size_prefix; trivial.
  intros c r Er. destruct (rev_drop_while_prefix is_space rest) as (post & Ep).
  rewrite Er in Ep. apply (Hrest c (r ++ post)). exact Ep.
Qed.


(** ** What [clean_line] deletes *)

(** Past the characters still to be dropped, the deletion starts anew. *)
Lemma delete_from_skip (m : str -> option nat) (pre post : str) :
  delete_from m (List.length pre) (pre ++ post) = delete_from m 0 post.
Proof. induction pre as [|c pre IH]; [reflexivity|exact IH]. Qed.

(** A match at the start is deleted whole. *)
Lemma delete_matches_match (m : str -> option nat) (pre post : str) :
  pre <> [] -> m (pre ++ post) = Some (List.length pre) ->
  delete_matches m (pre ++ post) = delete_matches m post.
Proof.
  intros Hne Hm. unfold delete_matches. destruct pre as [|c pre]; [congruence|].
  change (delete_from m 0 ((c :: pre) ++ post))
    with (match m ((c :: pre) ++ post) with
          | Some n => delete_from m (n - 1) (pre ++ post)
          | None => c :: delete_from m 0 (pre ++ post)
          end).
  rewrite Hm. cbn [List.length]. rewrite Nat.sub_1_r. cbn [Nat.pred].
  apply delete_from_skip.
Qed.

(** What a pattern takes: a prefix that is not empty and holds no kept
    character. *)

Lemma param_not_kept (c : ascii) : Ctrl.is_param c = true -> kept_char c = false.
Proof. by_cases_on_char c. Qed.

Lemma alpha_not_kept (c : ascii) : is_alpha c = true -> kept_char c = false.
Proof. by_cases_on_char c. Qed.

Lemma space_not_kept (c : ascii) : is_space c = true -> kept_char c = false.
Proof. by_cases_on_char c. Qed.

Lemma alpha_not_param (c : ascii) : is_alpha c = true -> Ctrl.is_param c = false.
Proof. by_cases_on_char c. Qed.

Lemma filter_none (p q : ascii -> bool) (s : str) :
  (forall c, p c = true -> q c = false) ->
  forallb p s = true -> filter q s = [].
Proof.
  intros Hpq. induction s as [|c s IH]; simpl; [reflexivity|].
  intros [Hc Hs]%andb_true_iff. now rewrite (Hpq c Hc), IH.
Qed.

Lemma sequence_bracket (c : ascii) (r : str) (n : nat) :
  Ctrl.sequence (c :: r) = Some n -> c = "["%char.
Proof.
  intros H. destruct (ascii_dec c "[") as [E|E]; [exact E|].
  destruct (no_bracket_sequence c r E) as [H1 _]. congruence.
Qed.

(** The shape of a match of the first pattern. *)
Lemma sequence_shape (s : str) (n : nat) :
  Ctrl.sequence s = Some n ->
  exists pre post,
    s = pre ++ post /\ List.length pre = n
    /\ ((exists ps c, pre = "["%char :: ps ++ [c]
                      /\ forallb Ctrl.is_param ps = true /\ is_alpha c = true)
        \/ pre = lit "[[K").
Proof.
  destruct s as [|c0 r]; [discriminate|]. intros H.
  pose proof (sequence_bracket _ _ _ H) as ->. revert H.
  cbn [Ctrl.sequence].
  destruct (Re.span Ctrl.is_param r) as [ps r'] eqn:Es.
  destruct (span_forallb _ _ _ _ Es) as [Hps ->].
  destruct r' as [|c r'']; [discriminate|].
  destruct (is_alpha c) eqn:Hc.
  - intros [= <-]. exists ("["%char :: ps ++ [c]), r''. split.
    + simpl. now rewrite <- app_assoc.
    + split; [simpl; rewrite length_app; simpl; lia|].
      left. now exists ps, c.
  - destruct (starts_with (lit "[K") (ps ++ c :: r'')) eqn:Ek; [|discriminate].
    intros [= <-].
    change (lit "[K") with ["["%char; "K"%char] in Ek.
    destruct ps as [|p ps].
    + cbn [app starts_with] in Ek.
      destruct r'' as [|k r3]; [now rewrite andb_false_r in Ek|].
      apply andb_true_iff in Ek as [E1 E2]. apply andb_true_iff in E2 as [E2 _].
      apply Ascii.eqb_eq in E1, E2. subst c k.
      exists (lit "[[K"), r3. split; [reflexivity|]. split; [reflexivity|].
      now right.
    + cbn [app starts_with] in Ek. cbn [forallb] in Hps.
      apply andb_true_iff in Ek as [E1 _].
      apply andb_true_iff in Hps as [Hp _].
      apply Ascii.eqb_eq in E1. subst p. discriminate.
Qed.

Lemma sequence_takes : takes_removable Ctrl.sequence.
Proof.
  intros s n H.
  destruct (sequence_shape s n H) as (pre & post & -> & Hl & Hshape).
  exists pre, post. split; [reflexivity|]. split; [exact Hl|].
  destruct Hshape as [(ps & c & -> & Hps & Hc) | ->].
  - split; [discriminate|]. cbn [filter].
    change (kept_char "[") with false. cbv iota.
    rewrite filter_app, (filter_none _ _ _ param_not_kept Hps). simpl.
    now rewrite (alpha_not_kept c Hc).
  - split; [discriminate|reflexivity].
Qed.

Lemma marker_takes : takes_removable Ctrl.marker.
Proof.
  intros s n. unfold Ctrl.marker.
  destruct (_ || _) eqn:E; [|discriminate]. intros [= <-].
  change (lit "[H") with ["["%char; "H"%char] in E.
  change (lit "[J") with ["["%char; "J"%char] in E.
  change (lit "[K") with ["["%char; "K"%char] in E.
  destruct s as [|a [|b r]]; cbn [starts_with] in E.
  - discriminate.
  - now rewrite !andb_false_r in E.
  - exists [a; b], r. split; [reflexivity|]. split; [reflexivity|].
    split; [discriminate|].
    rewrite !andb_true_r in E.
    repeat (apply orb_true_iff in E as [E | E]);
      apply andb_true_iff in E as [Ea Eb];
      apply Ascii.eqb_eq in Ea, Eb; subst a b; reflexivity.
Qed.

Lemma delete_matches_kept (m : str -> option nat) (s : str) :
  takes_removable m ->
  filter kept_char (delete_matches m s) = filter kept_char s.
Proof.
  intros Hm. remember (List.length s) as k eqn:Hk.
  assert (Hle : List.length s <= k) by lia. clear Hk.
  revert s Hle. induction k as [|k IH]; intros s Hle.
  - destruct s; [reflexivity|simpl in Hle; lia].
  - destruct s as [|c r]; [reflexivity|].
    destruct (m (c :: r)) as [n|] eqn:E.
    + destruct (Hm _ _ E) as (pre & post & Es & Hl & Hne & Hf).
      rewrite Es. rewrite delete_matches_match; trivial.
      * rewrite filter_app, Hf. apply IH.
        apply (f_equal (@List.length ascii)) in Es.
        rewrite length_app in Es. simpl in Es, Hle.
        destruct pre; [congruence|]. simpl in Es. lia.
      * now rewrite <- Es, Hl.
    + unfold delete_matches in *. cbn [delete_from]. rewrite E.
      cbn [filter]. rewrite IH by (simpl in Hle; lia). reflexivity.
Qed.

Lemma strip_by_kept (p : ascii -> bool) (s : str) :
  (forall c, p c = true -> kept_char c = false) ->
  filter kept_char (strip_by p s) = filter kept_char s.
Proof.
  intros Hp.
  assert (D : forall x, filter kept_char (drop_while p x) = filter kept_char x).
  { intros x. destruct (drop_while_suffix p x) as (pre & E & Hpre).
    rewrite E at 2. now rewrite filter_app, (filter_none _ _ _ Hp Hpre). }
  unfold strip_by. now rewrite filter_rev, D, <- filter_rev, rev_involutive, D.
Qed.

(** X3. [clean_line] deletes nothing but brackets, digits, semicolons,
    letters and whitespace: every other character of the line, the escape
    character among them, is in the result, in the order of the line. *)
Theorem clean_line_keeps (line : str) :
  filter kept_char (clean_line line) = filter kept_char line.
Proof.
  unfold clean_line, strip.
  rewrite (strip_by_kept _ _ space_not_kept).
  rewrite (delete_matches_kept _ _ marker_takes).
  exact (delete_matches_kept _ _ sequence_takes).
Qed.


(** ** Lines made of control sequences *)

Lemma bracket_not_param : Ctrl.is_param "[" = false.
Proof. reflexivity. Qed.

(** A match does not depend on what follows it. *)
Lemma sequence_extend (seq rest : str) :
  is_sequence seq = true ->
  seq <> [] /\ Ctrl.sequence (seq ++ rest) = Some (List.length seq).
Proof.
  unfold is_sequence. destruct (Ctrl.sequence seq) as [n|] eqn:E; [|discriminate].
  intros Hn. apply Nat.eqb_eq in Hn. subst n.
  destruct (sequence_shape _ _ E) as (pre & post & Es & Hl & Hshape).
  assert (Hpost : post = []).
  { apply (f_equal (@List.length ascii)) in Es.
    rewrite length_app in Es. destruct post; [reflexivity|simpl in Es; lia]. }
  subst post. rewrite app_nil_r in Es. subst pre.
  destruct Hshape as [(ps & c & -> & Hps & Hc) | ->].
  - split; [discriminate|].
    change (("["%char :: ps ++ [c]) ++ rest)
      with ("["%char :: (ps ++ [c]) ++ rest).
    rewrite <- app_assoc. cbn [Ctrl.sequence app].
    rewrite span_app; trivial.
    + rewrite Hc. cbn [List.length]. rewrite length_app. simpl. f_equal. lia.
    + intros d r [= <- _]. now apply alpha_not_param.
  - split; [discriminate|reflexivity].
Qed.

Lemma delete_sequences (seqs : list str) (rest : str) :
  forallb is_sequence seqs = true ->
  delete_matches Ctrl.sequence (List.concat seqs ++ rest)
  = delete_matches Ctrl.sequence rest.
Proof.
  induction seqs as [|seq seqs IH]; [reflexivity|]. simpl.
  intros [Hs Hr]%andb_true_iff.
  destruct (sequence_extend seq (List.concat seqs ++ rest) Hs) as [Hne Hm].
  rewrite <- app_assoc, delete_matches_match; auto.
Qed.

Lemma delete_spaces (m : str -> option nat) (ws rest : str) :
  (forall c r, is_space c = true -> m (c :: r) = None) ->
  forallb is_space ws = true ->
  delete_matches m (ws ++ rest) = ws ++ delete_matches m rest.
Proof.
  intros Hm. unfold delete_matches.
  induction ws as [|c ws IH]; [reflexivity|]. simpl.
  intros [Hc Hws]%andb_true_iff. now rewrite (Hm c _ Hc), IH.
Qed.

Lemma strip_all_spaces (s : str) : forallb is_space s = true -> strip s = [].
Proof.
  intros H. unfold strip, strip_by.
  assert (E : drop_while is_space s = []).
  { induction s as [|c r IH]; simpl in *; [reflexivity|].
    apply andb_true_iff in H as [Hc Hr]. rewrite Hc. auto. }
  now rewrite E.
Qed.

Lemma clean_line_sequences (ws1 ws2 : str) (seqs : list str) :
  forallb is_space ws1 = true -> forallb is_space ws2 = true ->
  forallb is_sequence seqs = true ->
  clean_line (ws1 ++ List.concat seqs ++ ws2) = [].
Proof.
  intros H1 H2 Hs. unfold clean_line.
  rewrite (delete_spaces _ ws1 _ space_no_sequence H1).
  rewrite (delete_sequences _ _ Hs).
  rewrite <- (app_nil_r ws2) at 1.
  rewrite (delete_spaces _ ws2 [] space_no_sequence H2).
  cbn [delete_matches delete_from]. rewrite app_nil_r.
  assert (Hall : forallb is_space (ws1 ++ ws2) = true)
    by now rewrite forallb_app, H1, H2.
  rewrite <- (app_nil_r (ws1 ++ ws2)) at 1.
  rewrite (delete_spaces _ _ [] space_no_marker Hall).
  cbn [delete_matches delete_from]. rewrite app_nil_r.
  now apply strip_all_spaces.
Qed.

(** X4. A line made of control sequences only, with whitespace before and
    after, is sanitized to the empty string, and the loop of
    [parse_docker_stats] takes no sample from it. *)
Theorem control_line_skipped (Timestamp : Type)
  (to_datetime : str -> result Timestamp)
  (ws1 ws2 : str) (seqs : list str) :
  forallb is_space ws1 = true -> forallb is_space ws2 = true ->
  forallb is_sequence seqs = true ->
  clean_line (ws1 ++ List.concat seqs ++ ws2) = []
  /\ parse_line to_datetime (ws1 ++ List.concat seqs ++ ws2) = Ok None.
Proof.
  intros H1 H2 Hs.
  pose proof (clean_line_sequences ws1 ws2 seqs H1 H2 Hs) as E.
  split; [exact E|]. unfold parse_line. rewrite E.
  now destruct (is_nil _).
Qed.

(** ** The columns of a line *)

(** A pair column without a slash cannot be read. *)
Lemma size_pair_no_slash (tag part : str) (x y : num) :
  ~ In "/"%char (remove tag part) -> size_pair tag part <> Ok (x, y).
Proof.
  intros Hno H. apply size_pair_ok in H as (a & b & _ & _ & Hb & _).
  rewrite (split_piece _ _ Hno) in Hb. discriminate.
Qed.

Section ColumnProperties.

Variable Timestamp : Type.
Variable to_datetime : str -> result Timestamp.

(** What a sample says of the columns it was read from. *)
Lemma parse_entry_pairs (parts : list str) (e : entry Timestamp) :
  parse_entry to_datetime parts = Ok e ->
  (forall p, index parts 3 = Ok p ->
             size_pair (lit "mem=") p = Ok (mem_used e, mem_total e))
  /\ (forall p, index parts 4 = Ok p ->
                size_pair (lit "net=") p = Ok (net_in e, net_out e))
  /\ (forall p, index parts 5 = Ok p ->
                size_pair (lit "block=") p = Ok (block_in e, block_out e)).
Proof.
  unfold parse_entry. cbv zeta.
  destruct (index parts 0) as [p0|]; [unfold bind at 1|discriminate].
  destruct (to_datetime p0) as [ts|]; [unfold bind at 1|discriminate].
  destruct (index parts 1) as [p1|]; [unfold bind at 1|discriminate].
  destruct (index parts 2) as [p2|]; [unfold bind at 1|discriminate].
  destruct (py_float _) as [c|]; [unfold bind at 1|discriminate].
  destruct (index parts 3) as [p3|]; [unfold bind at 1|discriminate].
  destruct (index (split "/" (remove (lit "mem=") p3)) 0) as [m0|] eqn:Em0;
    [unfold bind at 1|discriminate].
  destruct (parse_size (strip m0)) as [mu|] eqn:Emu;
    [unfold bind at 1|discriminate].
  destruct (index (split "/" (remove (lit "mem=") p3)) 1) as [m1|] eqn:Em1;
    [unfold bind at 1|discriminate].
  destruct (parse_size (strip m1)) as [mt|] eqn:Emt;
    [unfold bind at 1|discriminate].
  destruct (index parts 4) as [p4|]; [unfold bind at 1|discriminate].
  destruct (index (split "/" (remove (lit "net=") p4)) 0) as [n0|] eqn:En0;
    [unfold bind at 1|discriminate].
  destruct (parse_size (strip n0)) as [ni|] eqn:Eni;
    [unfold bind at 1|discriminate].
  destruct (index (split "/" (remove (lit "net=") p4)) 1) as [n1|] eqn:En1;
    [unfold bind at 1|discriminate].
  destruct (parse_size (strip n1)) as [no|] eqn:Eno;
    [unfold bind at 1|discriminate].
  assert (Hmem : size_pair (lit "mem=") p3 = Ok (mu, mt))
    by (unfold size_pair; cbv zeta; rewrite Em0; unfold bind at 1;
        rewrite Emu; unfold bind at 1; rewrite Em1; unfold bind at 1;
        rewrite Emt; reflexivity).
  assert (Hnet : size_pair (lit "net=") p4 = Ok (ni, no))
    by (unfold size_pair; cbv zeta; rewrite En0; unfold bind at 1;
        rewrite Eni; unfold bind at 1; rewrite En1; unfold bind at 1;
        rewrite Eno; reflexivity).
  destruct (Nat.ltb 5 (List.length parts)) eqn:Elen.
  - destruct (index parts 5) as [p5|]; [unfold bind at 1|discriminate].
    destruct (index (split "/" (remove (lit "block=") p5)) 0) as [b0|] eqn:Eb0;
      [unfold bind at 1|discriminate].
    destruct (parse_size (strip b0)) as [bi|] eqn:Ebi;
      [unfold bind at 1|discriminate].
    destruct (index (split "/" (remove (lit "block=") p5)) 1) as [b1|] eqn:Eb1;
      [unfold bind at 1|discriminate].
    destruct (parse_size (strip b1)) as [bo|] eqn:Ebo;
      [unfold bind at 1|discriminate].
    intros [= <-]. cbn [mem_used mem_total net_in net_out block_in block_out].
    split; [|split]; intros p [= <-]; [exact Hmem|exact Hnet|].
    unfold size_pair; cbv zeta; rewrite Eb0; unfold bind at 1;
      rewrite Ebi; unfold bind at 1; rewrite Eb1; unfold bind at 1;
      rewrite Ebo; reflexivity.
  - intros [= <-]. cbn [mem_used mem_total net_in net_out block_in block_out].
    split; [|split]; [intros p [= <-]; exact Hmem|intros p [= <-]; exact Hnet|].
    (* five columns: there is no sixth *)
    intros p Hp. apply Nat.ltb_ge in Elen. unfold index in Hp.
    destruct (nth_error parts 5) eqn:En; [|discriminate].
    assert (H : nth_error parts 5 <> None) by congruence.
    apply nth_error_Some in H. lia.
Qed.

(** X6. A line whose mem, net or block column has no slash gives no
    sample: the missing side is an [IndexError], and a block column that is
    there but broken does not fall back to 0. *)
Theorem broken_pair_dropped (line tag p : str) :
  (forall s e, to_datetime s = Raise e -> e = ValueError \/ e = IndexError) ->
  (index (split TAB line) 3 = Ok p /\ tag = lit "mem=")
  \/ (index (split TAB line) 4 = Ok p /\ tag = lit "net=")
  \/ (index (split TAB line) 5 = Ok p /\ tag = lit "block=") ->
  ~ In "/"%char (remove tag p) ->
  parse_fields to_datetime line = Ok None.
Proof.
  intros Htd Hcol Hno. unfold parse_fields.
  destruct (Nat.ltb _ 5); [reflexivity|].
  pose proof (parse_entry_caught _ to_datetime (split TAB line) Htd) as Hc.
  destruct (parse_entry to_datetime (split TAB line)) as [e|x] eqn:E.
  - exfalso. destruct (parse_entry_pairs _ _ E) as (H3 & H4 & H5).
    destruct Hcol as [[Hp ->] | [[Hp ->] | [Hp ->]]];
      eapply size_pair_no_slash; eauto.
  - destruct (Hc x eq_refl) as [-> | ->]; reflexivity.
Qed.

(** X5. A line of six columns or more whose timestamp, cpu, mem, net and
    block columns are read without error gives a sample whose block fields
    are the two sizes of the block column. *)
Theorem block_column_read (raw p0 p1 p2 p3 p4 p5 : str) (more : list str)
  (ts : Timestamp) (c : float) (mu mt ni no bi bo : num) :
  split TAB (clean_line raw) = p0 :: p1 :: p2 :: p3 :: p4 :: p5 :: more ->
  to_datetime p0 = Ok ts ->
  py_float (remove (lit "%") (remove (lit "cpu=") p2)) = Ok c ->
  size_pair (lit "mem=") p3 = Ok (mu, mt) ->
  size_pair (lit "net=") p4 = Ok (ni, no) ->
  size_pair (lit "block=") p5 = Ok (bi, bo) ->
  parse_line to_datetime raw
  = Ok (Some {| timestamp := ts; name := remove (lit "name=") p1; cpu := c;
                mem := remove (lit "mem=") p3;
                mem_used := mu; mem_total := mt;
                net_in := ni; net_out := no;
                block_in := bi; block_out := bo |}).
Proof.
  intros Hcols Hts Hcpu Hmem Hnet Hblock.
  apply size_pair_ok in Hmem as (m0 & m1 & Hm0 & Hmu & Hm1 & Hmt).
  apply size_pair_ok in Hnet as (n0 & n1 & Hn0 & Hni & Hn1 & Hno).
  apply size_pair_ok in Hblock as (b0 & b1 & Hb0 & Hbi & Hb1 & Hbo).
  unfold parse_line.
  rewrite (columns_not_blank raw) by (rewrite Hcols; simpl; lia).
  unfold parse_fields. rewrite Hcols.
  change (Nat.ltb (List.length (p0 :: p1 :: p2 :: p3 :: p4 :: p5 :: more)) 5)
    with false.
  cbv iota. unfold parse_entry.
  change (index (p0 :: p1 :: p2 :: p3 :: p4 :: p5 :: more) 0) with (Ok p0).
  change (index (p0 :: p1 :: p2 :: p3 :: p4 :: p5 :: more) 1) with (Ok p1).
  change (index (p0 :: p1 :: p2 :: p3 :: p4 :: p5 :: more) 2) with (Ok p2).
  change (index (p0 :: p1 :: p2 :: p3 :: p4 :: p5 :: more) 3) with (Ok p3).
  change (index (p0 :: p1 :: p2 :: p3 :: p4 :: p5 :: more) 4) with (Ok p4).
  change (index (p0 :: p1 :: p2 :: p3 :: p4 :: p5 :: more) 5) with (Ok p5).
  change (Nat.ltb 5 (List.length (p0 :: p1 :: p2 :: p3 :: p4 :: p5 :: more)))
    with true.
  cbv beta iota zeta delta [bind].
  rewrite Hts, Hcpu, Hm0, Hmu, Hm1, Hmt, Hn0, Hni, Hn1, Hno, Hb0, Hbi, Hb1, Hbo.
  reflexivity.
Qed.

(** ** The loop *)

Lemma parse_lines_data (lines : list str) (data : list (entry Timestamp)) :
  parse_lines to_datetime lines data
  = (x <- parse_lines to_datetime lines [] ;; Ok (data ++ x)).
Proof.
  revert data. induction lines as [|l lines IH]; intros data; simpl.
  - now rewrite app_nil_r.
  - destruct (parse_line to_datetime l) as [[e|]|x]; [|apply IH|reflexivity].
    rewrite (IH (data ++ [e])), (IH [e]).
    destruct (parse_lines to_datetime lines []); simpl; [|reflexivity].
    now rewrite <- app_assoc.
Qed.

(** X8. The samples of two logs put end to end are the samples of the
    first followed by the samples of the second. *)
Theorem parse_docker_stats_app (lines1 lines2 : list str)
  (df1 df2 : DataFrame Timestamp) :
  parse_docker_stats to_datetime lines1 = Ok df1 ->
  parse_docker_stats to_datetime lines2 = Ok df2 ->
  parse_docker_stats to_datetime (lines1 ++ lines2)
  = Ok (make_frame (rows df1 ++ rows df2)).
Proof.
  unfold parse_docker_stats. rewrite parse_lines_app.
  destruct (parse_lines to_datetime lines1 []) as [d1|]; [|discriminate].
  cbn [bind]. intros [= <-]. rewrite (parse_lines_data lines2 d1).
  destruct (parse_lines to_datetime lines2 []) as [d2|]; [|discriminate].
  cbn [bind]. intros [= <-]. reflexivity.
Qed.

Lemma parse_lines_length (lines : list str) (data out : list (entry Timestamp)) :
  parse_lines to_datetime lines data = Ok out ->
  List.length out <= List.length data + List.length lines.
Proof.
  revert data. induction lines as [|l lines IH]; intros data; simpl.
  - intros [= <-]. lia.
  - destruct (parse_line to_datetime l) as [[e|]|x]; [| |discriminate];
      intros H; apply IH in H; rewrite ?length_app in H; simpl in H; lia.
Qed.

(** X9. A log gives at most one sample for each of its lines. *)
Theorem parse_docker_stats_length (lines : list str) (df : DataFrame Timestamp) :
  parse_docker_stats to_datetime lines = Ok df ->
  List.length (rows df) <= List.length lines.
Proof.
  unfold parse_docker_stats.
  destruct (parse_lines to_datetime lines []) as [out|] eqn:E; [|discriminate].
  simpl. intros [= <-]. exact (parse_lines_length _ _ _ E).
Qed.

(** X7. An exception of [pd.to_datetime] that is neither a [ValueError]
    nor an [IndexError] is not caught: raised on a line of five columns or
    more, it ends [parse_docker_stats], whatever the lines after it. *)
Theorem uncaught_exception_aborts (pre post : list str) (raw : str)
  (data : list (entry Timestamp)) (e : exn) :
  parse_lines to_datetime pre [] = Ok data ->
  is_nil (strip raw) = false ->
  5 <= List.length (split TAB (clean_line raw)) ->
  to_datetime (hd [] (split TAB (clean_line raw))) = Raise e ->
  e <> ValueError -> e <> IndexError ->
  parse_docker_stats to_datetime (pre ++ raw :: post) = Raise e.
Proof.
  intros Hpre Hnb Hlen Htd Hv Hi. unfold parse_docker_stats.
  rewrite parse_lines_app, Hpre. cbn [bind parse_lines].
  assert (Hline : parse_line to_datetime raw = Raise e).
  { unfold parse_line, parse_fields. rewrite Hnb.
    assert (El : Nat.ltb (List.length (split TAB (clean_line raw))) 5 = false)
      by (apply Nat.ltb_ge; exact Hlen).
    rewrite El. unfold parse_entry.
    destruct (split TAB (clean_line raw)) as [|p0 rest]; [simpl in Hlen; lia|].
    change (index (p0 :: rest) 0) with (Ok p0). cbn [hd] in Htd.
    cbn [bind]. rewrite Htd. cbn [bind].
    destruct e; congruence. }
  now rewrite Hline.
Qed.

End ColumnProperties.

(** ** From the collector to the columns *)

Lemma collect_loop_concat (stdout : list (str * str)) (file : str) :
  collect_loop stdout file
  = file ++ List.concat (map (fun tl => stamp (fst tl) (snd tl)) stdout).
Proof.
  revert file. induction stdout as [|[t l] rest IH]; intros file; simpl.
  - now rewrite app_nil_r.
  - rewrite IH. now rewrite <- app_assoc.
Qed.

Lemma file_lines_from_line (body cur rest : str) :
  newline_free body ->
  file_lines_from cur (body ++ LF :: rest)
  = (cur ++ body ++ [LF]) :: file_lines_from [] rest.
Proof.
  revert cur. induction body as [|c body IH]; intros cur [Hlf Hcr].
  - reflexivity.
  - cbn [app file_lines_from].
    destruct (Ascii.eqb c LF) eqn:E1;
      [apply Ascii.eqb_eq in E1; exfalso; apply Hlf; now left|].
    destruct (Ascii.eqb c CR) eqn:E2;
      [apply Ascii.eqb_eq in E2; exfalso; apply Hcr; now left|].
    rewrite IH.
    + now rewrite <- app_assoc.
    + split; intros H; [apply Hlf|apply Hcr]; now right.
Qed.

Lemma newline_free_stamp (timestamp body : str) :
  newline_free timestamp -> newline_free body ->
  newline_free (timestamp ++ TAB :: body).
Proof.
  intros [Ht1 Ht2] [Hb1 Hb2].
  split; intros [H|[H|H]]%in_app_iff; try discriminate; tauto.
Qed.

(** X10. What the collector writes, the reader gives back line by line:
    when the clock readings hold no line end and every line of the stream
    is a text without line end followed by a line feed, the lines of the
    log are the lines of the stream, each behind its timestamp and a tab. *)
Theorem collected_lines_read_back (stdout : list (str * str)) :
  Forall (fun tl => newline_free (fst tl) /\ stdout_line (snd tl)) stdout ->
  file_lines (collect_docker_stats stdout)
  = map (fun tl => stamp (fst tl) (snd tl)) stdout.
Proof.
  unfold file_lines, collect_docker_stats. rewrite collect_loop_concat.
  cbn [app]. induction 1 as [|[t l] rest [Ht Hl] _ IH].
  - reflexivity.
  - cbn [fst snd] in Ht, Hl. destruct Hl as (body & -> & Hb).
    cbn [map List.concat fst snd]. unfold stamp at 1 3.
    replace ((t ++ TAB :: body ++ [LF]) ++
             List.concat (map (fun tl => stamp (fst tl) (snd tl)) rest))
      with ((t ++ TAB :: body) ++
            LF :: List.concat (map (fun tl => stamp (fst tl) (snd tl)) rest))
      by (rewrite <- !app_assoc; cbn [app]; rewrite <- app_assoc; reflexivity).
    rewrite file_lines_from_line by (now apply newline_free_stamp).
    rewrite IH. cbn [app]. rewrite <- app_assoc. reflexivity.
Qed.

Lemma in_join (sep x : ascii) (pieces : list str) :
  In x (join sep pieces) -> x = sep \/ exists p, In p pieces /\ In x p.
Proof.
  induction pieces as [|p rest IH]; [intros []|].
  destruct rest as [|q rest].
  - intros H. right. exists p. split; [now left|exact H].
  - change (join sep (p :: q :: rest)) with (p ++ sep :: join sep (q :: rest)).
    intros [H|[H|H]]%in_app_iff.
    + right. exists p. split; [now left|exact H].
    + now left.
    + destruct (IH H) as [->|(p' & Hp' & Hx)]; [now left|].
      right. exists p'. split; [now right|exact Hx].
Qed.

Lemma join_last (sep : ascii) (pieces : list str) :
  pieces <> [] -> exists pre, join sep pieces = pre ++ last pieces [].
Proof.
  induction pieces as [|p rest IH]; [congruence|intros _].
  destruct rest as [|q rest].
  - now exists [].
  - destruct IH as [pre Hpre]; [discriminate|].
    exists (p ++ sep :: pre).
    change (join sep (p :: q :: rest)) with (p ++ sep :: join sep (q :: rest)).
    rewrite Hpre. change (last (p :: q :: rest) []) with (last (q :: rest) []).
    now rewrite <- app_assoc.
Qed.

Lemma no_bracket_clean (line : str) :
  ~ In "["%char line -> clean_line line = strip line.
Proof.
  intros H. destruct (no_bracket_occurs line H) as [Hs Hm].
  unfold clean_line.
  now rewrite (delete_matches_none _ _ Hs), (delete_matches_none _ _ Hm).
Qed.

(** X11. The columns the parser sees on a line of the collector are the
    timestamp and the columns of the stream: for columns without tab and
    without bracket, a timestamp that does not start with whitespace and a
    last column that does not end with whitespace. *)
Theorem stamped_line_columns (timestamp : str) (cols : list str)
  (c d : ascii) (r r' : str) :
  timestamp = c :: r -> is_space c = false ->
  last cols [] = r' ++ [d] -> is_space d = false ->
  Forall (fun p => ~ In TAB p) (timestamp :: cols) ->
  Forall (fun p => ~ In "["%char p) (timestamp :: cols) ->
  split TAB (clean_line (stamp timestamp (join TAB cols ++ [LF])))
  = timestamp :: cols.
Proof.
  intros Hts Hc Hlast Hd Htab Hbr.
  assert (Hne : cols <> []) by (intros ->; destruct r'; discriminate).
  assert (Hline : stamp timestamp (join TAB cols ++ [LF])
                  = join TAB (timestamp :: cols) ++ [LF]).
  { unfold stamp. destruct cols as [|q rest]; [congruence|].
    change (join TAB (timestamp :: q :: rest))
      with (timestamp ++ TAB :: join TAB (q :: rest)).
    now rewrite <- app_assoc. }
  rewrite Hline. rewrite no_bracket_clean.
  - destruct (join_last TAB cols Hne) as [pre Hpre].
    assert (Hj : join TAB (timestamp :: cols)
                 = c :: (r ++ TAB :: pre ++ r') ++ [d]).
    { destruct cols as [|q rest]; [congruence|].
      change (join TAB (timestamp :: q :: rest))
        with (timestamp ++ TAB :: join TAB (q :: rest)).
      rewrite Hpre, Hlast, Hts. cbn [app].
      rewrite <- !app_assoc. cbn [app]. now rewrite <- !app_assoc. }
    unfold strip. rewrite strip_by_token.
    + cbn [rev app drop_while]. change (is_space LF) with true. cbv iota.
      cbn [rev]. rewrite app_nil_r.
      apply split_join; [discriminate|exact Htab].
    + intros c0 r0 E. rewrite Hj in E. now injection E as <- _.
    + intros r0 d0 E. rewrite Hj in E.
      change (c :: (r ++ TAB :: pre ++ r') ++ [d])
        with ((c :: r ++ TAB :: pre ++ r') ++ [d]) in E.
      apply app_inj_tail in E as [_ <-]. exact Hd.
    + rewrite Hj. discriminate.
  - intros [H|[H|[]]]%in_app_iff; [|discriminate].
    apply in_join in H as [H|(p & Hp & Hx)]; [discriminate|].
    rewrite Forall_forall in Hbr. exact (Hbr p Hp Hx).
Qed.

(** ** The name of the output file *)

Lemma before_last_none (sep : ascii) (s : str) :
  ~ In sep s -> before_last sep s = None.
Proof.
  induction s as [|c r IH]; [reflexivity|]. intros H. cbn [before_last].
  rewrite IH by (intros Hr; apply H; now right).
  destruct (Ascii.eqb c sep) eqn:E; [|reflexivity].
  apply Ascii.eqb_eq in E. exfalso. apply H. now left.
Qed.

Lemma before_last_app (sep : ascii) (base ext : str) :
  ~ In sep ext -> before_last sep (base ++ sep :: ext) = Some base.
Proof.
  intros H. induction base as [|c base IH].
  - cbn [app before_last]. rewrite (before_last_none _ _ H).
    now rewrite Ascii.eqb_refl.
  - cbn [app before_last]. now rewrite IH.
Qed.

(** X12. The output file is named after the log with what follows its
    last dot replaced by [_visualization.html], the dot included; a name
    without dot is kept whole. *)
Theorem output_name_extension (base ext : str) :
  ~ In "."%char ext ->
  output_name (base ++ "."%char :: ext) = base ++ lit "_visualization.html"
  /\ output_name ext = ext ++ lit "_visualization.html".
Proof.
  intros H. unfold output_name, rsplit1_head.
  now rewrite (before_last_app _ base _ H), (before_last_none _ _ H).
Qed.

(** ** [main] *)

Section MainProperties.

Variable Timestamp : Type.
Variable to_datetime : str -> result Timestamp.
Variable read_file : str -> result str.
Variable write_html : str -> figure Timestamp -> result unit.

Lemma parse_lines_none (lines : list str) (data : list (entry Timestamp)) :
  Forall (fun l => parse_line to_datetime l = Ok None) lines ->
  parse_lines to_datetime lines data = Ok data.
Proof.
  induction 1 as [|l lines Hl _ IH]; [reflexivity|].
  cbn [parse_lines]. now rewrite Hl.
Qed.

Lemma create_visualization_rows (df : DataFrame Timestamp)
  (fig : figure Timestamp) (data : list (entry Timestamp)) :
  df = make_frame data -> create_visualization df = Ok fig -> data <> [].
Proof. intros -> H ->. discriminate. Qed.

(** X13. [main] writes a file only when it was given exactly one
    argument, the log could be read and gave at least one sample; the file
    is the one named after the log, it holds the figure of the samples, and
    [main] then comes to its end. *)
Theorem main_writes (argv : list str) (path : str) (fig : figure Timestamp) :
  In (Written path fig) (fst (main to_datetime read_file write_html argv)) ->
  exists prog log_file content df,
    argv = [prog; log_file]
    /\ path = output_name log_file
    /\ read_file log_file = Ok content
    /\ parse_docker_stats to_datetime (file_lines content) = Ok df
    /\ rows df <> []
    /\ create_visualization df = Ok fig
    /\ snd (main to_datetime read_file write_html argv) = Returned.
Proof.
  unfold main.
  destruct argv as [|prog [|log_file [|x argv]]];
    try (cbn; intros [H|[]]; discriminate).
  cbn [List.length Nat.eqb negb]. cbv iota.
  change (index [prog; log_file] 1) with (Ok log_file). cbv iota zeta.
  unfold parse_docker_stats_file.
  destruct (read_file log_file) as [content|e] eqn:Er; cbn [bind];
    [|cbn; intros [H|[]]; discriminate].
  destruct (parse_docker_stats to_datetime (file_lines content))
    as [df|e] eqn:Ep; [|cbn; intros [H|[]]; discriminate].
  destruct (create_visualization df) as [fig'|e] eqn:Ec;
    [|cbn; intros [H|[H|[]]]; discriminate].
  destruct (write_html (output_name log_file) fig') as [u|e] eqn:Ew;
    [|cbn; intros [H|[H|[H|[]]]]; discriminate].
  cbn [fst snd app In].
  intros [H|[H|[H|[H|[H|[]]]]]]; try discriminate.
  injection H as <- <-.
  exists prog, log_file, content, df. repeat split; try assumption.
  unfold parse_docker_stats in Ep.
  destruct (parse_lines to_datetime (file_lines content) []) as [data|];
    [|discriminate].
  cbn [bind] in Ep. injection Ep as <-. cbn [rows].
  exact (create_visualization_rows _ _ data eq_refl Ec).
Qed.

(** X14. On a log none of whose lines gives a sample, an empty log among
    them, [main] ends with [KeyError] after its second message: nothing is
    written. *)
Theorem main_no_sample (prog log_file content : str) :
  read_file log_file = Ok content ->
  Forall (fun l => parse_line to_datetime l = Ok None) (file_lines content) ->
  main to_datetime read_file write_html [prog; log_file]
  = ([Printed Timestamp (lit "Parsing " ++ log_file ++ lit "...");
      Printed Timestamp (lit "Creating visualization...")],
     Raised KeyError).
Proof.
  intros Hr Hl. unfold main.
  cbn [List.length Nat.eqb negb]. cbv iota.
  change (index [prog; log_file] 1) with (Ok log_file). cbv iota zeta.
  unfold parse_docker_stats_file, parse_docker_stats. rewrite Hr. cbn [bind].
  rewrite (parse_lines_none _ _ Hl). cbn [bind].
  change (create_visualization (make_frame (@nil (entry Timestamp))))
    with (@Raise (figure Timestamp) KeyError).
  reflexivity.
Qed.

(** X15. On a log that gives a sample, and when the write succeeds,
    [main] prints its four messages around the write of one figure, which
    has six traces for each distinct container name. *)
Theorem main_done (prog log_file content : str) (df : DataFrame Timestamp) :
  read_file log_file = Ok content ->
  parse_docker_stats to_datetime (file_lines content) = Ok df ->
  rows df <> [] ->
  (forall fig, write_html (output_name log_file) fig = Ok tt) ->
  exists fig,
    create_visualization df = Ok fig
    /\ List.length (traces fig)
       = 6 * List.length (unique (map (@name Timestamp) (rows df)))
    /\ main to_datetime read_file write_html [prog; log_file]
       = ([Printed Timestamp (lit "Parsing " ++ log_file ++ lit "...");
           Printed Timestamp (lit "Creating visualization...");
           Printed Timestamp (lit "Saving visualization to "
                            ++ output_name log_file ++ lit "...");
           Written (output_name log_file) fig;
           Printed Timestamp (lit "Done!")],
          Returned).
Proof.
  intros Hr Hp Hrows Hw.
  assert (Hdf : df = make_frame (rows df)).
  { unfold parse_docker_stats in Hp.
    destruct (parse_lines to_datetime (file_lines content) []); [|discriminate].
    cbn [bind] in Hp. now injection Hp as <-. }
  destruct (create_visualization_nonempty _ (rows df) Hrows)
    as (fig & Hfig & Hlen).
  rewrite <- Hdf in Hfig.
  exists fig. split; [exact Hfig|]. split; [exact Hlen|].
  unfold main. cbn [List.length Nat.eqb negb]. cbv iota.
  change (index [prog; log_file] 1) with (Ok log_file). cbv iota zeta.
  unfold parse_docker_stats_file. rewrite Hr. cbn [bind].
  rewrite Hp, Hfig, Hw. reflexivity.
Qed.

End MainProperties.

(** ** The traces of the figure *)

Lemma str_eqb_refl (s : str) : str_eqb s s = true.
Proof. now apply str_eqb_eq. Qed.

Lemma str_eqb_sym (s t : str) : str_eqb s t = str_eqb t s.
Proof.
  destruct (str_eqb s t) eqn:E1, (str_eqb t s) eqn:E2; try reflexivity.
  - apply str_eqb_eq in E1. subst. now rewrite str_eqb_refl in E2.
  - apply str_eqb_eq in E2. subst. now rewrite str_eqb_refl in E1.
Qed.

Lemma filter_same_other (x : str) (u : list str) :
  filter (str_eqb x) (filter (fun y => negb (str_eqb y x)) u) = [].
Proof.
  induction u as [|y u IH]; [reflexivity|].
  cbn [filter]. rewrite (str_eqb_sym y x).
  destruct (str_eqb x y) eqn:Ey; cbn [negb]; [exact IH|].
  cbn [filter]. now rewrite Ey.
Qed.

Lemma filter_other (x a : str) (u : list str) :
  str_eqb x a = false ->
  filter (str_eqb x) (filter (fun y => negb (str_eqb y a)) u)
  = filter (str_eqb x) u.
Proof.
  intros E. induction u as [|y u IH]; [reflexivity|].
  cbn [filter]. destruct (str_eqb y a) eqn:Ey; cbn [negb].
  - apply str_eqb_eq in Ey. subst y. now rewrite E.
  - cbn [filter]. now rewrite IH.
Qed.

(** [unique] keeps one of each. *)
Lemma unique_once (x : str) (l : list str) :
  List.length (filter (str_eqb x) (unique l))
  = if existsb (str_eqb x) l then 1 else 0.
Proof.
  induction l as [|a r IH]; [reflexivity|].
  cbn [unique filter existsb].
  destruct (str_eqb x a) eqn:E.
  - apply str_eqb_eq in E. subst a. cbn [orb List.length].
    now rewrite filter_same_other.
  - cbn [orb]. now rewrite (filter_other _ _ _ E).
Qed.

Section TraceProperties.

Variable Timestamp : Type.

(** The samples of a list of names, name by name. *)
Lemma named_sum (data : list (entry Timestamp)) (names : list str) :
  list_sum (map (fun c => List.length
                   (filter (fun e : entry Timestamp => str_eqb (name e) c) data))
              names)
  = list_sum (map (fun e : entry Timestamp =>
                     List.length (filter (str_eqb (name e)) names)) data).
Proof.
  induction names as [|c names IH].
  - cbn [map list_sum filter List.length].
    induction data as [|e data IHd]; [reflexivity|exact IHd].
  - change (list_sum (map (fun c0 => List.length
                   (filter (fun e : entry Timestamp => str_eqb (name e) c0) data))
              (c :: names)))
      with (List.length (filter (fun e : entry Timestamp => str_eqb (name e) c) data)
            + list_sum (map (fun c0 => List.length
                   (filter (fun e : entry Timestamp => str_eqb (name e) c0) data))
              names)).
    rewrite IH. clear IH.
    induction data as [|e data IHd]; [reflexivity|].
    cbn [map].
    repeat match goal with
           | |- context [list_sum (?a :: ?l)] =>
               change (list_sum (a :: l)) with (a + list_sum l)
           end.
    rewrite <- IHd. cbn [filter].
    destruct (str_eqb (name e) c); cbn [List.length]; lia.
Qed.

(** Each sample is under one and only one of the names [unique] gives. *)
Lemma unique_partition (data : list (entry Timestamp)) :
  list_sum (map (fun c => List.length (filter (fun e : entry Timestamp => str_eqb (name e) c) data))
              (unique (map (@name Timestamp) data)))
  = List.length data.
Proof.
  rewrite named_sum.
  assert (H : forall l, incl l data ->
            list_sum (map (fun e => List.length
                             (filter (str_eqb (name e))
                                (unique (map (@name Timestamp) data)))) l)
            = List.length l).
  { induction l as [|e l IH]; intros Hl; [reflexivity|].
    cbn [map List.length].
    match goal with
    | |- list_sum (?a :: ?r) = _ => change (list_sum (a :: r)) with (a + list_sum r)
    end.
    rewrite IH by (intros x Hx; apply Hl; now right).
    rewrite unique_once.
    assert (He : existsb (str_eqb (name e)) (map (@name Timestamp) data) = true).
    { apply existsb_exists. exists (name e). split.
      - apply in_map. apply Hl. now left.
      - apply str_eqb_refl. }
    now rewrite He. }
  apply H. apply incl_refl.
Qed.

Lemma index_color (i : nat) :
  index colors (i mod List.length colors) = Ok (nth (i mod 10) colors []).
Proof.
  change (List.length colors) with 10. unfold index.
  rewrite (nth_error_nth' colors []); [reflexivity|].
  change (List.length colors) with 10. apply Nat.mod_upper_bound. discriminate.
Qed.

Lemma container_traces_six (df : DataFrame Timestamp) (i : nat)
  (container : str) :
  full df -> container_traces df i container = Ok (six_traces df i container).
Proof.
  intros Hf. unfold container_traces, select.
  rewrite (getitem_full _ df "name" (@name Timestamp) Hf eq_refl).
  cbn [bind]. rewrite index_color. cbn [bind].
  unfold scatter.
  rewrite !getitem_full by (reflexivity || exact Hf).
  reflexivity.
Qed.

Lemma add_containers_traces (df : DataFrame Timestamp)
  (containers : list str) (i : nat) (acc : list (trace Timestamp)) :
  full df ->
  add_containers df i containers acc = Ok (acc ++ traces_from df i containers).
Proof.
  intros Hf. revert i acc.
  induction containers as [|c rest IH]; intros i acc; cbn [add_containers traces_from].
  - now rewrite app_nil_r.
  - rewrite (container_traces_six df i c Hf). cbn [bind].
    rewrite IH. now rewrite <- app_assoc.
Qed.

(** The traces of a figure that was made. *)
Lemma figure_traces (data : list (entry Timestamp)) (fig : figure Timestamp) :
  create_visualization (make_frame data) = Ok fig ->
  traces fig
  = traces_from (make_frame data) 0 (unique (map (@name Timestamp) data)).
Proof.
  destruct data as [|e data]; [discriminate|].
  set (d := e :: data).
  assert (Hf : full (make_frame d)) by reflexivity.
  unfold create_visualization.
  rewrite (getitem_full _ _ "name" (@name Timestamp) Hf eq_refl).
  cbn [bind]. rewrite (add_containers_traces _ _ _ _ Hf). cbn [bind].
  now intros [= <-].
Qed.

Lemma traces_from_length (df : DataFrame Timestamp) (containers : list str)
  (i : nat) :
  List.length (traces_from df i containers) = 6 * List.length containers.
Proof.
  revert i. induction containers as [|c rest IH]; intros i; [reflexivity|].
  cbn [traces_from]. rewrite length_app, IH. cbn [six_traces List.length]. lia.
Qed.

Lemma traces_from_nth (df : DataFrame Timestamp) (containers : list str)
  (i k : nat) (d : trace Timestamp) :
  k < 6 * List.length containers ->
  nth k (traces_from df i containers) d
  = nth (k mod 6) (six_traces df (i + k / 6) (nth (k / 6) containers [])) d.
Proof.
  revert i k. induction containers as [|c rest IH]; intros i k Hk;
    [cbn in Hk; lia|].
  cbn [traces_from].
  destruct (Nat.lt_ge_cases k 6) as [H6|H6].
  - rewrite app_nth1 by exact H6.
    rewrite (Nat.div_small k 6 H6), (Nat.mod_small k 6 H6), Nat.add_0_r.
    reflexivity.
  - assert (Hq : exists q, k = q + 1 * 6) by (exists (k - 6); lia).
    destruct Hq as [q ->]. cbn [List.length] in Hk.
    rewrite app_nth2 by exact H6.
    change (List.length (six_traces df i c)) with 6.
    replace (q + 1 * 6 - 6) with q by lia.
    rewrite IH by lia.
    rewrite Nat.div_add by discriminate.
    rewrite Nat.Div0.mod_add.
    replace (q / 6 + 1) with (S (q / 6)) by lia.
    cbn [nth]. replace (S i + q / 6) with (i + S (q / 6)) by lia.
    reflexivity.
Qed.

Lemma points_app (a b : list (trace Timestamp)) :
  points (a ++ b) = points a + points b.
Proof. unfold points. now rewrite map_app, list_sum_app. Qed.

Lemma traces_from_points (df : DataFrame Timestamp) (containers : list str)
  (i : nat) :
  points (traces_from df i containers)
  = 6 * list_sum (map (fun c => List.length (filter (fun e : entry Timestamp => str_eqb (name e) c) (rows df)))
                    containers).
Proof.
  revert i. induction containers as [|c rest IH]; intros i; [reflexivity|].
  cbn [traces_from map].
  match goal with
  | |- _ = 6 * list_sum (?a :: ?r) => change (list_sum (a :: r)) with (a + list_sum r)
  end.
  rewrite points_app, IH.
  assert (H6 : points (six_traces df i c)
               = 6 * List.length
                       (filter (fun e : entry Timestamp => str_eqb (name e) c)
                          (rows df))).
  { unfold points, six_traces. cbv zeta. cbn [map trace_y].
    rewrite !length_map. unfold list_sum. cbn [fold_right]. lia. }
  rewrite H6. lia.
Qed.

(** X16. For a collection that is not empty the figure is made, with its
    four panels and its height of 1200, and its traces are, container after
    container in the order of first appearance, the six series of the
    samples of the container: no lookup fails. *)
Theorem create_visualization_traces (data : list (entry Timestamp)) :
  data <> [] ->
  exists fig,
    create_visualization (make_frame data) = Ok fig
    /\ traces fig
       = traces_from (make_frame data) 0 (unique (map (@name Timestamp) data))
    /\ List.length (subplot_titles fig) = 4
    /\ height fig = 1200%Z.
Proof.
  intros Hne.
  destruct (create_visualization_nonempty _ data Hne) as (fig & Hfig & _).
  exists fig. split; [exact Hfig|]. split; [exact (figure_traces _ _ Hfig)|].
  destruct data as [|e data]; [congruence|].
  set (d := e :: data) in *.
  assert (Hf : full (make_frame d)) by reflexivity.
  unfold create_visualization in Hfig.
  rewrite (getitem_full _ _ "name" (@name Timestamp) Hf eq_refl) in Hfig.
  cbn [bind] in Hfig.
  rewrite (add_containers_traces _ _ _ _ Hf) in Hfig. cbn [bind] in Hfig.
  injection Hfig as <-. split; reflexivity.
Qed.

(** X17. The trace at position [k] of a figure belongs to the container
    number [k / 6]: it has the timestamps of the samples of that name, the
    colour number [(k / 6) mod 10], so that the eleventh container is drawn
    in the colour of the first, and the panel [1, 2, 3, 3, 4, 4] by
    [k mod 6]. *)
Theorem trace_layout (data : list (entry Timestamp)) (fig : figure Timestamp)
  (k : nat) (d : trace Timestamp) :
  create_visualization (make_frame data) = Ok fig ->
  k < List.length (traces fig) ->
  let container := nth (k / 6) (unique (map (@name Timestamp) data)) [] in
  let t := nth k (traces fig) d in
  trace_x t = map (@timestamp Timestamp) (filter (fun e : entry Timestamp => str_eqb (name e) container) data)
  /\ trace_color t = nth ((k / 6) mod 10) colors []
  /\ trace_row t = nth (k mod 6) [1; 2; 3; 3; 4; 4] 0.
Proof.
  intros Hfig Hk. cbv zeta.
  rewrite (figure_traces _ _ Hfig) in *.
  rewrite traces_from_length in Hk.
  rewrite (traces_from_nth _ _ _ _ _ Hk). cbn [Nat.add].
  pose proof (Nat.mod_upper_bound k 6 ltac:(discriminate)) as Hm.
  destruct (k mod 6) as [|[|[|[|[|[|m]]]]]]; try lia;
    (split; [|split]); reflexivity.
Qed.

(** X18. Every trace has as many timestamps as values, and the traces of a
    figure hold six points for each sample of the collection: every sample
    is drawn once in each of the six series. *)
Theorem every_sample_plotted (data : list (entry Timestamp))
  (fig : figure Timestamp) :
  create_visualization (make_frame data) = Ok fig ->
  Forall (fun t => List.length (trace_x t) = List.length (trace_y t))
    (traces fig)
  /\ points (traces fig) = 6 * List.length data.
Proof.
  intros Hfig. rewrite (figure_traces _ _ Hfig). split.
  - generalize 0. induction (unique (map (@name Timestamp) data)) as [|c rest IH];
      intros i; [constructor|].
    cbn [traces_from]. apply Forall_app. split; [|apply IH].
    unfold six_traces. cbv zeta.
    repeat (constructor; [cbn [trace_x trace_y]; now rewrite !length_map|]).
    constructor.
  - rewrite traces_from_points. cbn [rows make_frame].
    now rewrite unique_partition.
Qed.

End TraceProperties.

(** ** More on [parse_size] and [clean_line] *)

Lemma lower_char_idempotent (c : ascii) :
  lower_char (lower_char c) = lower_char c.
Proof. by_cases_on_char c. Qed.

Lemma lower_idempotent (s : str) : lower (lower s) = lower s.
Proof.
  unfold lower. rewrite map_map. apply map_ext. exact lower_char_idempotent.
Qed.

Lemma lower_char_not_B (c : ascii) : lower_char c <> "B"%char.
Proof. by_cases_on_char c. Qed.

Lemma lower_not_0B (g1 g2 : str) :
  g1 <> [] -> g2 <> [] -> g1 ++ lower g2 <> lit "0B".
Proof.
  intros H1 H2 E.
  destruct g1 as [|a [|b g1]]; [congruence| |].
  - destruct g2 as [|c [|d g2]]; [congruence| |discriminate].
    injection E as _ E. exact (lower_char_not_B c E).
  - destruct g2 as [|c g2]; [congruence|].
    apply (f_equal (@List.length ascii)) in E.
    cbn [app List.length lower map] in E. rewrite length_app in E.
    cbn [List.length] in E. change (List.length (lit "0B")) with 2 in E. lia.
Qed.

(** X19. The case of the unit does not matter: a token and the token
    with its unit in lower case are read alike, the literal [0B] apart
    (the int 0 for it, the float 0.0 for [0b]). *)
Theorem parse_size_unit_case (g1 g2 : str) :
  g1 <> [] -> forallb Re.is_numeral_char g1 = true ->
  g2 <> [] -> forallb is_alpha g2 = true ->
  g1 ++ g2 <> lit "0B" ->
  parse_size (g1 ++ lower g2) = parse_size (g1 ++ g2).
Proof.
  intros H1 Hc1 H2 Hc2 H0B.
  rewrite (parse_size_token g1 g2 H1 Hc1 H2 Hc2 H0B).
  rewrite (parse_size_token g1 (lower g2)); trivial.
  - now rewrite lower_idempotent.
  - destruct g2; [congruence|discriminate].
  - now rewrite alpha_lower.
  - now apply lower_not_0B.
Qed.

(** X20. A sanitized line neither starts nor ends with whitespace, and is
    not longer than the line. *)
Theorem clean_line_trimmed (line : str) :
  (forall c r, clean_line line = c :: r -> is_space c = false)
  /\ (forall r d, clean_line line = r ++ [d] -> is_space d = false)
  /\ List.length (clean_line line) <= List.length line.
Proof.
  split; [|split].
  - intros c r. unfold clean_line, strip. apply strip_by_first.
  - intros r d. unfold clean_line, strip. apply strip_by_last.
  - apply clean_line_length.
Qed.

(** ** The further properties on examples *)

Ltac not_in_text :=
  vm_compute;
  let H := fresh "H" in
  intros H; repeat (destruct H as [H|H]; [discriminate H|]); exact H.

Lemma parse_size_strip_witness :
  parse_size (lit " 5MiB ") = parse_size (strip (lit " 5MiB ")).
Proof.
  apply (parse_size_strip (lit " 5MiB ")). vm_compute. discriminate.
Defined.

Lemma parse_size_ignores_rest_witness :
  parse_size (lit "12MB/s") = parse_size (lit "12MB").
Proof.
  apply (parse_size_ignores_rest (lit "12") (lit "MB") (lit "/s"));
    try reflexivity; try discriminate.
  intros c r [= <- _]. reflexivity.
Defined.

Lemma control_line_skipped_witness :
  clean_line (lit " " ++ List.concat [lit "[2J"; lit "[H"] ++ [LF]) = []
  /\ parse_line iso_datetime (lit " " ++ List.concat [lit "[2J"; lit "[H"] ++ [LF])
     = Ok None.
Proof.
  apply (control_line_skipped _ iso_datetime (lit " ") [LF]
           [lit "[2J"; lit "[H"]); reflexivity.
Defined.

Lemma block_column_read_witness :
  exists e,
    parse_line iso_datetime
      (tsv [ "2024-01-01T00:00:00"; "name=db"; "cpu=3%"; "mem=1MiB/2MiB";
             "net=1KiB/2KiB"; "block=4MB/8GB" ]%string)
    = Ok (Some e)
    /\ block_in e = PyFloat (two_pow 2) /\ block_out e = PyFloat (two_pow 13).
Proof.
  eexists. split.
  - apply (block_column_read _ iso_datetime _
             (lit "2024-01-01T00:00:00") (lit "name=db") (lit "cpu=3%")
             (lit "mem=1MiB/2MiB") (lit "net=1KiB/2KiB") (lit "block=4MB/8GB")
             [] (2024, 1, 1, 0, 0, 0)%Z
             (S754_finite false 6755399441055744 (-51))
             (PyFloat (two_pow 0)) (PyFloat (two_pow 1))
             (PyFloat (two_pow (-10))) (PyFloat (two_pow (-9)))
             (PyFloat (two_pow 2)) (PyFloat (two_pow 13)));
      vm_compute; reflexivity.
  - split; reflexivity.
Defined.

Lemma broken_pair_dropped_witness :
  parse_fields iso_datetime
    (tsv [ "2024-01-01T00:00:00"; "name=web"; "cpu=1%"; "mem=1MiB";
           "net=1B/2B" ]%string)
  = Ok None.
Proof.
  apply (broken_pair_dropped _ iso_datetime _ (lit "mem=") (lit "mem=1MiB")).
  - exact iso_datetime_caught.
  - left. split; reflexivity.
  - not_in_text.
Defined.

Lemma uncaught_exception_aborts_witness :
  parse_docker_stats (fun _ : str => @Raise unit OtherError)
    ([] ++ example_line :: [lit "not read"])
  = Raise OtherError.
Proof.
  apply (uncaught_exception_aborts unit (fun _ => Raise OtherError)
           [] [lit "not read"] example_line [] OtherError);
    try reflexivity; try discriminate.
  vm_compute. lia.
Defined.

Lemma parse_docker_stats_app_witness :
  parse_docker_stats iso_datetime ([example_line] ++ example_log)
  = Ok (make_frame
          (rows (make_frame [example_sample (2024, 1, 1, 0, 0, 0)%Z])
           ++ rows (make_frame
                      (filter_map_opt (line_sample iso_datetime) example_log)))).
Proof.
  apply (parse_docker_stats_app _ iso_datetime [example_line] example_log);
    vm_compute; reflexivity.
Defined.

Lemma parse_docker_stats_length_witness :
  List.length
    (rows (make_frame (filter_map_opt (line_sample iso_datetime) example_log)))
  <= List.length example_log.
Proof.
  apply (parse_docker_stats_length _ iso_datetime example_log).
  vm_compute. reflexivity.
Defined.

Lemma collected_lines_read_back_witness :
  file_lines
    (collect_docker_stats
       [ (lit "2024-01-01T00:00:00.000001", lit "name=web" ++ [LF]);
         (lit "2024-01-01T00:00:00.000002", lit "name=db" ++ [LF]) ])
  = [ stamp (lit "2024-01-01T00:00:00.000001") (lit "name=web" ++ [LF]);
      stamp (lit "2024-01-01T00:00:00.000002") (lit "name=db" ++ [LF]) ].
Proof.
  apply (collected_lines_read_back
           [ (lit "2024-01-01T00:00:00.000001", lit "name=web" ++ [LF]);
             (lit "2024-01-01T00:00:00.000002", lit "name=db" ++ [LF]) ]).
  repeat constructor; try not_in_text.
  - exists (lit "name=web"). repeat split; try reflexivity; not_in_text.
  - exists (lit "name=db"). repeat split; try reflexivity; not_in_text.
Defined.

Lemma stamped_line_columns_witness :
  split TAB
    (clean_line
       (stamp (lit "2024-01-01T00:00:00")
          (join TAB [lit "name=web"; lit "cpu=12.5%"; lit "mem=128MiB/512MiB";
                     lit "net=1KiB/2KiB"; lit "block=0B/0B"] ++ [LF])))
  = [ lit "2024-01-01T00:00:00"; lit "name=web"; lit "cpu=12.5%";
      lit "mem=128MiB/512MiB"; lit "net=1KiB/2KiB"; lit "block=0B/0B" ].
Proof.
  apply (stamped_line_columns (lit "2024-01-01T00:00:00")
           [lit "name=web"; lit "cpu=12.5%"; lit "mem=128MiB/512MiB";
            lit "net=1KiB/2KiB"; lit "block=0B/0B"]
           "2" "B" (lit "024-01-01T00:00:00") (lit "block=0B/0"));
    try reflexivity; repeat constructor; not_in_text.
Defined.

Lemma output_name_extension_witness :
  output_name (lit "logs.d/docker_stats" ++ "."%char :: lit "log")
  = lit "logs.d/docker_stats" ++ lit "_visualization.html"
  /\ output_name (lit "log") = lit "log" ++ lit "_visualization.html".
Proof.
  apply (output_name_extension (lit "logs.d/docker_stats") (lit "log")).
  not_in_text.
Defined.

Lemma main_writes_witness :
  exists fig,
    In (Written (lit "stats_visualization.html") fig)
      (fst (main iso_datetime (fun _ => Ok (example_line ++ [LF]))
              (fun _ _ => Ok tt)
              [lit "stats_visualizer.py"; lit "stats.log"]))
    /\ snd (main iso_datetime (fun _ => Ok (example_line ++ [LF]))
              (fun _ _ => Ok tt)
              [lit "stats_visualizer.py"; lit "stats.log"])
       = Returned.
Proof.
  eexists.
  match goal with |- ?A /\ _ => assert (H : A) end.
  { vm_compute. do 3 right. left. reflexivity. }
  split; [exact H|].
  destruct (main_writes _ iso_datetime _ _ _ _ _ H)
    as (prog & log_file & content & df & _ & _ & _ & _ & _ & _ & Hret).
  exact Hret.
Defined.

Lemma main_no_sample_witness :
  main iso_datetime (fun _ => Ok (lit "no column here" ++ [LF]))
    (fun _ _ => Ok tt) [lit "stats_visualizer.py"; lit "stats.log"]
  = ([Printed _ (lit "Parsing " ++ lit "stats.log" ++ lit "...");
      Printed _ (lit "Creating visualization...")],
     Raised KeyError).
Proof.
  apply (main_no_sample _ iso_datetime (fun _ => Ok (lit "no column here" ++ [LF]))
           (fun _ _ => Ok tt) (lit "stats_visualizer.py") (lit "stats.log")
           (lit "no column here" ++ [LF])).
  - reflexivity.
  - repeat constructor.
Defined.

Lemma main_done_witness :
  exists fig,
    List.length (traces fig) = 6
    /\ main iso_datetime (fun _ => Ok (example_line ++ [LF])) (fun _ _ => Ok tt)
         [lit "stats_visualizer.py"; lit "stats.log"]
       = ([Printed _ (lit "Parsing stats.log...");
           Printed _ (lit "Creating visualization...");
           Printed _ (lit "Saving visualization to stats_visualization.html...");
           Written (lit "stats_visualization.html") fig;
           Printed _ (lit "Done!")],
          Returned).
Proof.
  destruct (main_done _ iso_datetime (fun _ => Ok (example_line ++ [LF]))
              (fun _ _ => Ok tt) (lit "stats_visualizer.py") (lit "stats.log")
              (example_line ++ [LF])
              (make_frame [example_sample (2024, 1, 1, 0, 0, 0)%Z]))
    as (fig & _ & Hlen & Hmain).
  - reflexivity.
  - vm_compute. reflexivity.
  - discriminate.
  - reflexivity.
  - exists fig. split; [exact Hlen|exact Hmain].
Defined.

Lemma create_visualization_traces_witness :
  exists fig,
    create_visualization (make_frame [example_sample 0%Z; example_sample 1%Z])
    = Ok fig
    /\ List.length (traces fig) = 6.
Proof.
  destruct (create_visualization_traces _
              [example_sample 0%Z; example_sample 1%Z])
    as (fig & Hfig & Htraces & _); [discriminate|].
  exists fig. split; [exact Hfig|]. rewrite Htraces. reflexivity.
Defined.

Lemma trace_layout_witness :
  exists fig,
    create_visualization (make_frame [example_sample 0%Z; example_sample 1%Z])
    = Ok fig
    /\ trace_x (nth 3 (traces fig) (Build_trace [] [] [] [] None 0)) = [0%Z; 1%Z]
    /\ trace_color (nth 3 (traces fig) (Build_trace [] [] [] [] None 0))
       = lit "#1f77b4"
    /\ trace_row (nth 3 (traces fig) (Build_trace [] [] [] [] None 0)) = 3.
Proof.
  eexists.
  match goal with |- ?A /\ _ => assert (H : A) end.
  { vm_compute. reflexivity. }
  split; [exact H|].
  apply (trace_layout _ _ _ 3 (Build_trace [] [] [] [] None 0) H).
  vm_compute. lia.
Defined.

Lemma every_sample_plotted_witness :
  exists fig,
    create_visualization (make_frame [example_sample 0%Z; example_sample 1%Z])
    = Ok fig
    /\ points (traces fig) = 12.
Proof.
  eexists.
  match goal with |- ?A /\ _ => assert (H : A) end.
  { vm_compute. reflexivity. }
  split; [exact H|].
  exact (proj2 (every_sample_plotted _ _ _ H)).
Defined.

Lemma parse_size_unit_case_witness :
  parse_size (lit "1.5" ++ lower (lit "GiB")) = parse_size (lit "1.5" ++ lit "GiB").
Proof.
  apply (parse_size_unit_case (lit "1.5") (lit "GiB"));
    try reflexivity; discriminate.
Defined.

(** * The sanitizer on text in brackets *)

Lemma occurs_found (m : str -> option nat) (s : str) :
  occurs m s = true -> exists pre t n, s = pre ++ t /\ m t = Some n.
Proof.
  induction s as [|c r IH]; cbn [occurs].
  - destruct (m []) as [n|] eqn:E; [|discriminate]. intros _.
    now exists [], [], n.
  - destruct (m (c :: r)) as [n|] eqn:E.
    + intros _. now exists [], (c :: r), n.
    + intros H. destruct (IH H) as (pre & t & n & -> & Ht).
      now exists (c :: pre), t, n.
Qed.

Lemma occurs_later (m : str -> option nat) (pre t : str) (n : nat) :
  m t = Some n -> occurs m (pre ++ t) = true.
Proof.
  intros Ht. induction pre as [|c pre IH]; cbn [app].
  - destruct t; cbn [occurs]; now rewrite Ht.
  - cbn [occurs]. destruct (m (c :: pre ++ t)); [reflexivity|exact IH].
Qed.

Lemma bracket_sequence_matched (seq : str) :
  bracket_sequence seq -> is_sequence seq = true.
Proof.
  intros [ps c Hps Hc|]; [|reflexivity].
  unfold is_sequence, Ctrl.sequence.
  rewrite (span_app Ctrl.is_param ps [c] Hps).
  - rewrite Hc. cbn [List.length]. rewrite length_app. cbn [List.length].
    apply Nat.eqb_eq. lia.
  - intros c0 r [= <- _]. now apply alpha_not_param.
Qed.

Lemma marker_shape (s : str) (n : nat) :
  Ctrl.marker s = Some n ->
  exists c post, s = "["%char :: c :: post /\ is_alpha c = true.
Proof.
  unfold Ctrl.marker. destruct s as [|a [|c post]]; try discriminate.
  - destruct a as [[] [] [] [] [] [] [] []]; discriminate.
  - intros H. exists c, post.
    destruct (ascii_dec a "[") as [->|Ha].
    + split; [reflexivity|]. revert H. by_cases_on_char c.
    + exfalso. revert H. cbn [starts_with lit list_ascii_of_string].
      apply Ascii.eqb_neq in Ha. rewrite (Ascii.eqb_sym "[" a), Ha.
      discriminate.
Qed.

(** The occurrences of the two patterns are the bracket sequences. *)
Lemma sequence_occurs (line : str) :
  holds_sequence line -> occurs Ctrl.sequence line = true.
Proof.
  intros (pre & seq & post & -> & Hseq).
  destruct (sequence_extend seq post (bracket_sequence_matched _ Hseq))
    as [_ Hm].
  exact (occurs_later _ pre _ _ Hm).
Qed.

Lemma occurs_sequence (line : str) :
  occurs Ctrl.sequence line = true -> holds_sequence line.
Proof.
  intros H. destruct (occurs_found _ _ H) as (pre & t & n & -> & Ht).
  destruct (sequence_shape _ _ Ht) as (seq & post & -> & _ & Hshape).
  exists pre, seq, post. split; [reflexivity|].
  destruct Hshape as [(ps & c & -> & Hps & Hc)| ->]; now constructor.
Qed.

Lemma occurs_marker (line : str) :
  occurs Ctrl.marker line = true -> holds_sequence line.
Proof.
  intros H. destruct (occurs_found _ _ H) as (pre & t & n & -> & Ht).
  destruct (marker_shape _ _ Ht) as (c & post & -> & Hc).
  exists pre, ["["%char; c], post. split; [reflexivity|].
  exact (bracket_letter [] c eq_refl Hc).
Qed.

Lemma bracket_sequence_bracket (seq : str) :
  bracket_sequence seq -> In "["%char seq.
Proof. intros [ps c _ _|]; now left. Qed.

Lemma no_bracket_no_sequence (line : str) :
  ~ In "["%char line -> ~ holds_sequence line.
Proof.
  intros H (pre & seq & post & -> & Hseq). apply H.
  apply in_or_app. right. apply in_or_app. left.
  now apply bracket_sequence_bracket.
Qed.

(** Counting the brackets: a deletion takes at least one, [strip] none. *)
Lemma delete_from_brackets (m : str -> option nat) (k : nat) (s : str) :
  List.length (filter (Ascii.eqb "[") (delete_from m k s))
  <= List.length (filter (Ascii.eqb "[") s).
Proof.
  revert k. induction s as [|c r IH]; intros k; [destruct k; apply Nat.le_refl|].
  cbn [delete_from filter].
  assert (Hr : forall j, List.length (filter (Ascii.eqb "[") (delete_from m j r))
                         <= List.length
                              (if Ascii.eqb "[" c
                               then c :: filter (Ascii.eqb "[") r
                               else filter (Ascii.eqb "[") r)).
  { intros j. specialize (IH j).
    destruct (Ascii.eqb "[" c); cbn [List.length]; lia. }
  destruct k as [|k]; [|apply Hr].
  destruct (m (c :: r)) as [n|]; [apply Hr|].
  cbn [filter]. specialize (IH 0).
  destruct (Ascii.eqb "[" c); cbn [List.length]; lia.
Qed.

Lemma delete_matches_brackets (m : str -> option nat) (s : str) :
  m [] = None ->
  (forall c r n, m (c :: r) = Some n -> c = "["%char) ->
  occurs m s = true ->
  List.length (filter (Ascii.eqb "[") (delete_matches m s))
  < List.length (filter (Ascii.eqb "[") s).
Proof.
  intros Hnil Hm. unfold delete_matches.
  induction s as [|c r IH]; cbn [occurs]; [now rewrite Hnil|].
  cbn [delete_from].
  destruct (m (c :: r)) as [n|] eqn:E.
  - intros _. rewrite (Hm _ _ _ E). cbn [filter].
    change (Ascii.eqb "[" "[") with true. cbn [List.length].
    pose proof (delete_from_brackets m (n - 1) r). lia.
  - intros H. specialize (IH H). cbn [filter].
    destruct (Ascii.eqb "[" c); cbn [List.length]; lia.
Qed.

Lemma strip_brackets (s : str) :
  filter (Ascii.eqb "[") (strip s) = filter (Ascii.eqb "[") s.
Proof.
  assert (Hp : forall c, is_space c = true -> Ascii.eqb "[" c = false)
    by (intros c; by_cases_on_char c).
  assert (D : forall x, filter (Ascii.eqb "[") (drop_while is_space x)
                        = filter (Ascii.eqb "[") x).
  { intros x. destruct (drop_while_suffix is_space x) as (pre & E & Hpre).
    rewrite E at 2. now rewrite filter_app, (filter_none _ _ _ Hp Hpre). }
  unfold strip, strip_by.
  now rewrite filter_rev, D, <- filter_rev, rev_involutive, D.
Qed.

Lemma no_occurrence_clean (line : str) :
  occurs Ctrl.sequence line = false -> occurs Ctrl.marker line = false ->
  clean_line line = strip line.
Proof.
  intros Hs Hm. unfold clean_line.
  now rewrite (delete_matches_none _ _ Hs), (delete_matches_none _ _ Hm).
Qed.

(** C6, as the code has it.  [clean_line] returns the line trimmed, and
    nothing else, exactly on the lines that hold no bracket sequence: an
    opening bracket followed by digits and semicolons and a letter, or
    [[[K].  In particular a line without an opening bracket is only
    trimmed.  ([clean_line] is a function of its argument alone.) *)
Theorem clean_line_bracket_sequences (line : str) :
  (clean_line line = strip line <-> ~ holds_sequence line)
  /\ (~ In "["%char line -> clean_line line = strip line).
Proof.
  assert (Hback : ~ holds_sequence line -> clean_line line = strip line).
  { intros Hno. apply no_occurrence_clean.
    - destruct (occurs Ctrl.sequence line) eqn:E; [|reflexivity].
      elim Hno. now apply occurs_sequence.
    - destruct (occurs Ctrl.marker line) eqn:E; [|reflexivity].
      elim Hno. now apply occurs_marker. }
  split; [split; [|exact Hback]|].
  - intros Heq Hseq. apply sequence_occurs in Hseq.
    pose proof (delete_matches_brackets Ctrl.sequence line eq_refl
                  sequence_bracket Hseq) as H1.
    pose proof (delete_from_brackets Ctrl.marker 0
                  (delete_matches Ctrl.sequence line)) as H2.
    apply (f_equal (fun s => List.length (filter (Ascii.eqb "[") s))) in Heq.
    unfold clean_line in Heq. rewrite !strip_brackets in Heq.
    unfold delete_matches in *. lia.
  - intros H. apply Hback. now apply no_bracket_no_sequence.
Qed.

(** C6.  A line without any escape character, and without any control
    character at all, loses the bracket and the letter after it: a
    container name in brackets is not kept. *)
Lemma clean_line_eats_brackets :
  escape_free (lit "name=[web]") = true
  /\ clean_line (lit "name=[web]") = lit "name=eb]"
  /\ strip (lit "name=[web]") = lit "name=[web]"
  /\ ~ (forall line, escape_free line = true -> clean_line line = strip line).
Proof.
  split; [reflexivity|]. split; [reflexivity|]. split; [reflexivity|].
  intros H. specialize (H (lit "name=[web]") eq_refl). discriminate H.
Qed.

Lemma clean_line_bracket_sequences_witness :
  ~ In "["%char (lit "  " ++ short_line ++ lit "  ")
  /\ clean_line (lit "  " ++ short_line ++ lit "  ")
     = strip (lit "  " ++ short_line ++ lit "  ").
Proof.
  assert (H : ~ In "["%char (lit "  " ++ short_line ++ lit "  ")).
  { vm_compute. intros H.
    repeat (destruct H as [H|H]; [discriminate H|]). exact H. }
  split; [exact H|].
  exact (proj2 (clean_line_bracket_sequences _) H).
Defined.

(** * The normalizer on a numeral that is no float literal *)








Section RejectedLines.

Variable Timestamp : Type.
Variable to_datetime : str -> result Timestamp.


End RejectedLines.


